(* ===== verification/_CoqProject ===== *)
-Q . S2P
Prelude.v
PyFloat.v
FloatRound.v
Raster.v
Cropper.v
Resizer.v
ResizeBounds.v
Placement.v
Compositor.v
Store.v
Handler.v
ActionProgram.v
Concurrency.v
RaceWindow.v
