(* ===== verification/Prelude.v ===== *)
(** * A verification development for whatsapp-offer-maker (src/app.py)

    The program is a single Flask handler ([index], src/app.py lines 75-119)
    that turns a product photo and a price into an "offer card". It resolves
    the photo from a URL ([download_image], lines 18-23) or from an uploaded
    file saved under [static/uploads] (lines 88-91). It removes the
    background with rembg ([process_image], line 34) and crops to the
    bounding box of the non-transparent pixels ([get_bounding_box], lines
    25-30). It scales the crop to fit a 500x600 box with Python float
    arithmetic (lines 40-56) and places it horizontally centred with its
    bottom edge on the line y = 1670 ([calculate_position], lines 60-73).
    It pastes it with its own alpha channel as the mask (line 103), draws
    "AED <price>" centred on (850, 1258) (lines 106-113), saves the card as
    [static/final_image.jpg] and sends that file back (lines 116-117). The
    pieces interact only through calls and through the files under
    [static/], which every request shares.

    ** Files, in dependency order
    - [Prelude] (this file): the [offer_scope] notations, Python's
      exceptions [exn] (with the [OSError] subclasses the file system
      raises) and the fallible result [outcome] with [let*], the tactics
      [zcase], [by_decide] and [offer_auto], the hint databases [offer] and
      [offer_rw], integer ranges [zrange] and index access [znth], running
      minimum/maximum lemmas, and exhaustive checks over byte ranges.
    - [PyFloat]: Python [float] as IEEE-754 binary64 on the Standard
      Library's axiom-free [SpecFloat]: [int / int], [int / float],
      [int * float], [>] and [int(x)], with the exceptions Python raises.
    - [FloatRound] (Module [FloatRound]): a rounding theory proved on
      [SpecFloat]'s own code: for positive normal operands, division and
      multiplication are faithful (relative error at most 2^-52),
      [float(n)] is exact below 2^53, [int(x)] is the floor, and [<] is
      the order of the values. Values are real numbers.
    - [Raster] (Module [Raster]): PIL images as the program uses them, with
      RGBA pixels of byte channels, rows of pixels, the invariant [wf],
      [getpixel], [convert] and [crop]. [getbbox] transcribes PIL's
      [ImagingGetBBox] loop (alpha-only mask) line by line.
    - [Cropper] (Module [Cropper]): [get_bounding_box]. It proves that the
      [getbbox] loop returns the tight box of the visible pixels
      ([getbbox_spec], through closed forms of the two loops), that tight
      boxes are unique, and that cropping is idempotent and loses no
      visible pixel.
    - [Resizer] (Module [Resizer]): [process_image]. [new_size] is the size
      arithmetic in floats exactly as Python evaluates it, [resize] is PIL's
      wrapper (a copy when the size is unchanged, [ValueError] on a zero
      side), and [fit_exact] is the exact formula of spec section 4.4 with
      its contract. rembg and the Lanczos kernel form the interface class
      [ImageServices]; [nearest_services] is a concrete instance that runs
      the pipeline.
    - [ResizeBounds] (Module [ResizeBounds]): [new_size] against
      [fit_exact] for every crop of sides in [1, 2^31].
    - [Placement] (Module [Placement]): [calculate_position] with Python
      floor division.
    - [Compositor] (Module [Compositor]): [paste] transcribes the clipping
      of PIL's [ImagingPaste] and the [BLEND]/[MULDIV255] arithmetic of
      [paste_mask_RGBA]. It also holds the label and its anchor, the
      interface class [TextDrawing] for the font rasteriser, and [compose]
      (placement, paste, label, RGB).
    - [Store] (Module [Store]): the shared file store ([fs]: files by
      resolved path, and directories) and the handler's monad [M]
      (exceptions keep earlier effects, as in Python). It models
      [os.path.join], the kernel's lookup of a path one component at a
      time ([lookup_dirs]: a missing component raises [FileNotFoundError],
      a file where a directory is needed [NotADirectoryError], and [..]
      is resolved through the directory reached), the resolved name
      ([normpath]), [open] for reading and writing ([read_file],
      [write_file]: opening a directory raises [IsADirectoryError]),
      [os.path.exists], [os.mkdir] and [os.makedirs] with its recursion
      and its failures, the start-up code of lines 14-16 ([startup],
      unfolded by [startup_eq]), and a footprint logic ([writes_within])
      that bounds what a computation may write.
    - [Handler] (Module [Handler]): [download_image], [index] and Flask's
      mapping of escaped exceptions to 400/500 ([serve]). The network, the
      decoder, the JPEG encoder and the font file form the interface class
      [Environment], and [reachable] is the set of stores reached by
      start-up and requests.
    - [ActionProgram] (Module [ActionProgram]): [index] again, as a
      program ([prog]) whose actions are [read_file] and [write_file] of
      [Store], proved equal to the handler of [Handler] when it runs alone
      ([run_serve_p]), with its footprint ([serve_p_writes_in]) and the
      sequence of actions of a URL request ([render_protocol]) and of an
      upload ([upload_protocol]).
    - [Concurrency] (Module [Concurrency]): [interleave] runs two requests
      on one store under a schedule, one file action at a time, as a
      threaded server may (spec section 5).
    - [RaceWindow] (Module [RaceWindow]): two URL requests abstracted by
      their [phase] and the content of the output file ([arun]), with the
      refinement [interleave_refines_arun] for every schedule.

    ** What the theorems show
    - [getbbox] is correct against a declarative tight-box specification.
      [get_bounding_box] is idempotent, keeps every visible pixel, and
      returns a fully transparent image unchanged.
    - Resize: for every crop of sides in [1, 2^31], the float code returns
      a size inside the 500x600 box, tight on one side, equal to the exact
      formula on that side and at most one pixel below it on the other
      ([new_size_refines_fit_exact], [new_size_fits_box]); for crops of
      aspect ratio between 1:300 and 250:1, [process_image] succeeds
      ([process_image_succeeds]).
    - Placement: the left and right margins differ by at most one pixel
      for every size, and the product lies inside the template exactly
      when it is not wider.
    - Paste: it changes no pixel outside the pasted rectangle, and inside
      it the product's alpha is the mask. It preserves [wf].
    - The composed card shows the template everywhere outside the product
      and the label, and is a well-formed RGB image of the template's size
      ([compose_wf]).
    - The handler: the successful request returns the JPEG of [compose]
      and writes only the output file; with an upload of a plain name, it
      writes the upload and the output file. The error responses of spec section
      6 hold. Every request writes only the output file and its upload's
      path ([serve_frame]), and the template is invariant over all
      reachable stores when upload names are plain ([reachable_template]).
      After the start-up code, every later upload with a plain name is
      saved in [static/uploads] ([reachable_upload_saved]). A missing font
      gives 500 with the store unchanged ([serve_font_missing]).
    - The file store: start-up fails with [NotADirectoryError] when
      [static] is a regular file ([startup_static_file]); an upload named
      ["."] or [".."] makes [save] open a directory and fail
      ([serve_upload_dir_name]).
    - Two requests: under every schedule the template and the directories
      are unchanged ([interleave_keeps_template]); for every schedule,
      the first of two URL requests receives the second card exactly when
      the second request's write falls between its own write and its
      read-back ([serve_race_window]).
    - Findings, proved on the code:
      + the float arithmetic is at most one pixel below the spec's formula
        and reaches it: a 25x3 crop gets 500x59 where the formula gives
        500x60 ([new_size_refines_fit_exact] and its witness);
      + an unreachable URL gives 500, not the spec's 400;
      + an upload named ["../template.jpg"] overwrites the template when
        [static/uploads] is a directory ([serve_upload_overwrites_template]);
      + every crop more than 500 times wider than high makes resize raise
        [ValueError] ([process_image_thin_product]);
      + a zero-height crop raises [ZeroDivisionError];
      + the output file is shared: for any two successful URL requests,
        one schedule gives the first client the second card
        ([serve_race_general]); for any two uploads of one name, one
        schedule gives the first client a card of the second upload
        ([serve_upload_race]);
      + an upload that is no image is answered 500 but stays saved, while
        the spec says failures retain no state ([serve_upload_undecodable]);
      + when [static/uploads] is a file, start-up makes no folder and every
        upload fails ([serve_upload_blocked_startup]); when [static] is a
        file, the application does not start ([startup_static_file]).

    ** Bounds and fuel
    No definition needs fuel. Every loop of the code and of the PIL
    routines it calls runs over the rows and columns of a finite image,
    modelled by structural recursion on lists. Python integers are [Z].
    Floats are binary64 ([prec] = 53, [emax] = 1024); the conversion of an
    [int] operand is exact below 2^53, which covers every image size PIL
    can allocate. The resize theorems assume sides in [1, 2^31] (PIL's
    sizes are C [int]s); with it, each rounding error (below 2^-50
    relative) stays under the gap [1 / w] between [500 h / w] and the next
    integer. The facts about [MULDIV255] and [BLEND] are checked
    exhaustively over all byte pairs (65536 cases, by [vm_compute]).

    ** Not modelled, and the plan for later work
    - The pixel values of rembg, of the Lanczos filter, of the font
      rasteriser and of JPEG coding are not modelled. They are library
      code, behind interfaces whose laws are the facts the program relies
      on (sizes, [wf], locality of text drawing).
    - The HTML page is a static template.
    - The imports, [app = Flask(__name__)] and [app.run(debug=True)]
      (src/app.py lines 1-8 and 120-122) configure the libraries and start
      the server; they compute nothing the theorems could be about.
    - The file store holds the tree under the working directory: no
      symbolic links, no permissions, no hard limits. A name with a
      trailing slash that does not exist raises [FileNotFoundError] where
      Linux reports [EISDIR]; both give a 500 page. [os.path.exists] is
      [stat] of the resolved name, which agrees with the component lookup
      in every store whose entries' directories exist.
    - [send_file] (line 117) is modelled as a read of
      [static/final_image.jpg] at the end of the handler. Flask resolves
      that relative path against the application folder and streams the
      file after the handler returns; the development models the server
      started from its own folder, where the save of line 116 and the read
      are the same file (the mismatch otherwise is a finding). Streaming
      later only widens the window of the race on that file.
    - Each file action is atomic in [Concurrency]: a read takes the whole
      file at once. The network, rembg and decoding run between actions
      and are not scheduled, so a request cannot block in them.
    - Next step: the same characterisation of the schedules for two
      uploads of one name, whose window lies between the save of the
      upload and its [Image.open]. *)

From stdpp Require Export base list gmap strings.
From Stdlib Require Export ZArith Lia.

Declare Scope offer_scope.
Delimit Scope offer_scope with offer.
Open Scope Z_scope.

(** ** Python exceptions and fallible computations

    The exceptions the modelled code can raise, by the class Python or the
    library raises. A computation that may raise returns an [outcome]. *)

Inductive exn :=
  | ZeroDivisionError        (* int / 0, float / 0.0 *)
  | ValueError               (* int(nan); PIL resize to a zero side *)
  | OverflowError            (* int(inf) *)
  | BadRequestKeyError       (* request.form[key] with the key missing *)
  | ConnectionError          (* requests.get cannot reach the host *)
  | UnidentifiedImageError   (* Image.open on bytes that are no image *)
  | FileNotFoundError        (* ENOENT: a missing file or directory *)
  | NotADirectoryError       (* ENOTDIR: a file where a directory is looked up *)
  | IsADirectoryError        (* EISDIR: opening a directory as a file *)
  | FileExistsError          (* EEXIST: os.mkdir of an existing path *)
  | OSError.                 (* other I/O failures *)

#[export] Instance exn_eq_dec : EqDecision exn.
Proof. solve_decision. Defined.

Inductive outcome (A : Type) := Ok (a : A) | Raise (e : exn).
Arguments Ok {A} a.
Arguments Raise {A} e.

Definition obind {A B} (m : outcome A) (k : A -> outcome B) : outcome B :=
  match m with Ok a => k a | Raise e => Raise e end.

Notation "'let*' x ':=' m 'in' k" := (obind m (fun x => k))
  (at level 10, x name, m at level 200, k at level 200) : offer_scope.
Open Scope offer_scope.

Lemma obind_ok {A B} (m : outcome A) (k : A -> outcome B) b :
  obind m k = Ok b <-> exists a, m = Ok a /\ k a = Ok b.
Proof.
  destruct m as [a'|e']; simpl.
  - split; [intros H; by exists a' | intros (a & [= ->] & H); done].
  - split; [done | intros (a & ? & _); done].
Qed.

Lemma obind_raise {A B} (m : outcome A) (k : A -> outcome B) e :
  m = Raise e -> obind m k = Raise e.
Proof. by intros ->. Qed.

(** ** Integer ranges and index access *)

(** [zrange n] is Python's [range(n)] on integers. *)
Definition zrange (n : Z) : list Z := map Z.of_nat (seq 0 (Z.to_nat n)).

(** [znth d l i] is [l[i]] for an in-range index and [d] otherwise; PIL's
    pixel buffers are read this way after an explicit range test. *)
Definition znth {A} (d : A) (l : list A) (i : Z) : A :=
  if i <? 0 then d else nth (Z.to_nat i) l d.

(** Half-open integer interval membership, as a boolean. *)
Definition zin (lo x hi : Z) : bool := (lo <=? x) && (x <? hi).

(** ** Tactics *)

(** [zcase] splits on every integer comparison in the goal and the
    hypotheses, leaving arithmetic facts for [lia]. *)
Ltac zcase :=
  repeat match goal with
    | |- context [Z.ltb ?a ?b] => destruct (Z.ltb_spec a b)
    | |- context [Z.leb ?a ?b] => destruct (Z.leb_spec a b)
    | |- context [Z.eqb ?a ?b] => destruct (Z.eqb_spec a b)
    | |- context [Z.geb ?a ?b] => rewrite (Z.geb_leb a b)
    | |- context [Z.gtb ?a ?b] => rewrite (Z.gtb_ltb a b)
    | H : context [Z.ltb ?a ?b] |- _ => destruct (Z.ltb_spec a b)
    | H : context [Z.leb ?a ?b] |- _ => destruct (Z.leb_spec a b)
    | H : context [Z.eqb ?a ?b] |- _ => destruct (Z.eqb_spec a b)
    end.

(** [by_decide] proves a decidable goal about concrete data by
    evaluating its decision procedure. *)
Ltac by_decide := apply (bool_decide_unpack _); vm_compute; exact I.

Create HintDb offer discriminated.
Create Rewrite HintDb offer_rw.

(** [offer_auto] closes the routine goals of the development: hints of the
    [offer] database, then arithmetic. *)
Ltac offer_auto := solve [eauto with offer | lia | zcase; lia].

(** ** Lemmas on ranges and indexing *)

Lemma length_zrange n : length (zrange n) = Z.to_nat n.
Proof. unfold zrange. by rewrite length_map, length_seq. Qed.

Lemma elem_of_zrange n x : x ∈ zrange n <-> 0 <= x < n.
Proof.
  unfold zrange. rewrite list_elem_of_fmap. split.
  - intros (k & -> & Hk). apply list_elem_of_In, in_seq in Hk. lia.
  - intros Hx. exists (Z.to_nat x). split; [lia|].
    apply list_elem_of_In, in_seq. lia.
Qed.

Lemma zrange_succ n : 0 <= n -> zrange (n + 1) = zrange n ++ [n].
Proof.
  intros Hn. unfold zrange.
  rewrite Z2Nat.inj_add, seq_app by lia. rewrite map_app. simpl.
  do 2 f_equal. lia.
Qed.

Lemma znth_in {A} (d : A) l i :
  0 <= i < Z.of_nat (length l) -> l !! Z.to_nat i = Some (znth d l i).
Proof.
  intros Hi. unfold znth. zcase; [lia|].
  destruct (nth_lookup_or_length l (Z.to_nat i) d); [done | lia].
Qed.

Lemma znth_out {A} (d : A) l i :
  i < 0 \/ Z.of_nat (length l) <= i -> znth d l i = d.
Proof.
  intros Hi. unfold znth. zcase; [done|].
  apply nth_overflow. lia.
Qed.

Lemma znth_cons {A} (d : A) a l i :
  0 <= i -> znth d (a :: l) i = if i =? 0 then a else znth d l (i - 1).
Proof.
  intros Hi. unfold znth. zcase; try lia; [by subst|].
  replace (Z.to_nat i) with (S (Z.to_nat (i - 1))) by lia. done.
Qed.

Lemma znth_map_zrange {A} (d : A) (f : Z -> A) n i :
  0 <= i < n -> znth d (map f (zrange n)) i = f i.
Proof.
  intros Hi. unfold znth. zcase; [lia|].
  apply nth_lookup_Some. unfold zrange.
  rewrite !list_lookup_fmap, lookup_seq_lt by lia. simpl.
  by rewrite Z2Nat.id by lia.
Qed.

Lemma znth_map {A B} (d : A) (d' : B) (f : A -> B) l i :
  0 <= i < Z.of_nat (length l) -> znth d' (map f l) i = f (znth d l i).
Proof.
  intros Hi. unfold znth. zcase; [lia|].
  rewrite (nth_indep _ d' (f d)) by (rewrite length_map; lia). apply map_nth.
Qed.

Lemma znth_ext {A} (d : A) (l1 l2 : list A) :
  length l1 = length l2 ->
  (forall i, 0 <= i < Z.of_nat (length l1) -> znth d l1 i = znth d l2 i) ->
  l1 = l2.
Proof.
  intros Hlen Hi. apply (nth_ext _ _ d d Hlen). intros k Hk.
  specialize (Hi (Z.of_nat k) ltac:(lia)). unfold znth in Hi.
  revert Hi. zcase; [lia|]. by rewrite Nat2Z.id.
Qed.

Lemma zin_spec lo x hi : zin lo x hi = true <-> lo <= x < hi.
Proof. unfold zin. rewrite andb_true_iff, Z.leb_le, Z.ltb_lt. done. Qed.

(** ** Running minimum and maximum

    The C loops keep a running minimum ([if (x < m) m = x;]) and a running
    maximum; over a list they are [fold_left Z.min] and [fold_left Z.max]. *)

Lemma fold_min_le l d : fold_left Z.min l d <= d /\ Forall (fun x => fold_left Z.min l d <= x) l.
Proof.
  revert d. induction l as [|a l IH]; intros d; simpl; [split; [lia | done]|].
  destruct (IH (Z.min d a)) as [H1 H2]. split; [lia|]. constructor; [lia | done].
Qed.

Lemma fold_min_attained l d : fold_left Z.min l d = d \/ fold_left Z.min l d ∈ l.
Proof.
  revert d. induction l as [|a l IH]; intros d; simpl; [by left|].
  destruct (IH (Z.min d a)) as [->|H]; [|right; by right].
  destruct (Z.min_spec d a) as [[_ ->]|[_ ->]]; [by left | right; by left].
Qed.

Lemma fold_max_ge l d : d <= fold_left Z.max l d /\ Forall (fun x => x <= fold_left Z.max l d) l.
Proof.
  revert d. induction l as [|a l IH]; intros d; simpl; [split; [lia | done]|].
  destruct (IH (Z.max d a)) as [H1 H2]. split; [lia|]. constructor; [lia | done].
Qed.

Lemma fold_max_attained l d : fold_left Z.max l d = d \/ fold_left Z.max l d ∈ l.
Proof.
  revert d. induction l as [|a l IH]; intros d; simpl; [by left|].
  destruct (IH (Z.max d a)) as [->|H]; [|right; by right].
  destruct (Z.max_spec d a) as [[_ ->]|[_ ->]]; [right; by left | by left].
Qed.

(** Exhaustive checks over a range, evaluated by [vm_compute]. *)
Lemma forallb_zrange (P : Z -> bool) n :
  forallb P (zrange n) = true -> forall x, 0 <= x < n -> P x = true.
Proof.
  intros Hall x Hx. rewrite forallb_forall in Hall. apply Hall.
  apply list_elem_of_In, elem_of_zrange. lia.
Qed.

Lemma forallb_zrange2 (P : Z -> Z -> bool) n m :
  forallb (fun x => forallb (P x) (zrange m)) (zrange n) = true ->
  forall x y, 0 <= x < n -> 0 <= y < m -> P x y = true.
Proof.
  intros Hall x y Hx Hy.
  apply (forallb_zrange (P x) m); [|lia].
  apply (forallb_zrange (fun x => forallb (P x) (zrange m)) n); [done | lia].
Qed.

#[export] Hint Resolve znth_map_zrange : offer.
#[export] Hint Rewrite length_zrange : offer_rw.
