(* ===== verification/PyFloat.v ===== *)
(** Python's [float] as the resize arithmetic of src/app.py (lines 45-53)
    uses it: IEEE-754 binary64 on the Standard Library's Gallina
    specification [SpecFloat] (round to nearest, ties to even).

    - [truediv_int a b] is [a / b] on two [int]s. CPython converts both
      operands to [float] and divides when both are below 2^53, which is
      the case for every image size; a zero divisor raises
      [ZeroDivisionError].
    - [div_int_float a f] is [a / f] with an [int] and a [float]; dividing
      by [0.0] raises [ZeroDivisionError].
    - [mul_int_float a f] is [a * f].
    - [gt f g] is [f > g] (false when either is a NaN).
    - [to_int f] is [int(f)]: truncation toward zero, [ValueError] on a NaN
      and [OverflowError] on an infinity. *)

From S2P Require Import Prelude.
From Stdlib Require Import SpecFloat.

Module PyFloat.

Definition prec : Z := 53.
Definition emax : Z := 1024.

Definition float := spec_float.

(** [float(n)] for an [int]: [n] rounded to 53 bits. *)
Definition of_int (n : Z) : float := binary_normalize prec emax n 0 false.

Definition is_zero (f : float) : bool :=
  match f with S754_zero _ => true | _ => false end.

Definition truediv_int (a b : Z) : outcome float :=
  if b =? 0 then Raise ZeroDivisionError
  else Ok (SFdiv prec emax (of_int a) (of_int b)).

Definition div_int_float (a : Z) (f : float) : outcome float :=
  if is_zero f then Raise ZeroDivisionError
  else Ok (SFdiv prec emax (of_int a) f).

Definition mul_int_float (a : Z) (f : float) : float :=
  SFmul prec emax (of_int a) f.

Definition gt (f g : float) : bool := SFltb g f.

(** [int(f)]: a finite [m * 2^e] is truncated toward zero, which for the
    magnitude is a shift ([Z.shiftl] by a negative amount shifts right). *)
Definition to_int (f : float) : outcome Z :=
  match f with
  | S754_zero _ => Ok 0
  | S754_finite s m e =>
      let mag := Z.shiftl (Zpos m) e in
      Ok (if s then - mag else mag)
  | S754_infinity _ => Raise OverflowError
  | S754_nan => Raise ValueError
  end.

(** ** Basic facts *)

Lemma truediv_int_zero a : truediv_int a 0 = Raise ZeroDivisionError.
Proof. done. Qed.

Lemma truediv_int_nonzero a b :
  b <> 0 -> truediv_int a b = Ok (SFdiv prec emax (of_int a) (of_int b)).
Proof. intros Hb. unfold truediv_int. by destruct (Z.eqb_spec b 0). Qed.

End PyFloat.
