(* ===== verification/FloatRound.v ===== *)
(** A rounding theory for the binary64 operations of [PyFloat], proved
    on the Standard Library's [SpecFloat] code itself (no external
    floating-point library).

    For positive normal operands, [SFdiv] and [SFmul] are faithful: the
    result is a normal float within relative error [u] = 2^-52 of the exact
    quotient or product ([div_value], [mul_value]). The proof follows the
    code: [shr_fexp] keeps the top 53 bits of the mantissa
    ([shr_fexp_spec]), [round_nearest_even] adds 0 or 1, and a carry out
    of 53 bits is renormalised ([round_aux_normal], [round_aux_value]).
    [float(n)] is exact below 2^53 ([of_int_value]), [int(x)] is the floor
    of a positive float ([to_int_floor]), and [<] on positive normal floats
    is the order of their values ([ltb_value]). Values are real numbers
    ([fval]); the statements about the code are in [Z]. *)

From S2P Require Import Prelude PyFloat.
From Stdlib Require Import SpecFloat Reals Lra.
Import PyFloat.

Module FloatRound.

(** ** Values *)

Definition bpow (e : Z) : R := powerRZ 2%R e.

(** The real number a finite float denotes. *)
Definition fval (f : float) : R :=
  match f with
  | S754_finite s m e => ((if s then -1 else 1) * IZR (Zpos m) * bpow e)%R
  | _ => 0%R
  end.

(** A positive normal binary64 number. *)
Definition normal_pos (f : float) : Prop :=
  match f with
  | S754_finite false m e => (2 ^ 52 <= Zpos m < 2 ^ 53)%Z /\ (-1074 <= e <= 971)%Z
  | _ => False
  end.

(** The unit of the relative error bound of a faithful rounding. *)
Definition u : R := bpow (-52).

(** [y] approximates the positive [x] within a relative error [u]. *)
Definition rel_close (y x : R) : Prop := (x * (1 - u) <= y <= x * (1 + u))%R.


(** ** Integer facts about the rounding code *)

Lemma digits2_pos_log2 p : Zpos (digits2_pos p) = Z.log2 (Zpos p) + 1.
Proof.
  induction p as [p IH|p IH|]; simpl digits2_pos; [| |done];
    rewrite Pos2Z.inj_succ, IH.
  - rewrite Pos2Z.inj_xI, Z.log2_succ_double; lia.
  - rewrite Pos2Z.inj_xO, Z.log2_double; lia.
Qed.

Lemma digits2_bounds (m : Z) (k : Z) :
  0 < m -> 1 <= k -> Zdigits2 m = k <-> 2 ^ (k - 1) <= m < 2 ^ k.
Proof.
  intros Hm Hk. destruct m as [|p|p]; try lia. simpl.
  rewrite digits2_pos_log2, Z.log2_le_pow2, Z.log2_lt_pow2 by lia. lia.
Qed.

Lemma iter_pos_nat {A} (f : A -> A) p x : SpecFloat.iter_pos f p x = Nat.iter (Pos.to_nat p) f x.
Proof.
  revert x. induction p as [p IH|p IH|]; intros x; cbn [SpecFloat.iter_pos].
  - rewrite !IH, Pos2Nat.inj_xI, <- Nat.iter_add, Nat.iter_succ_r. f_equal. lia.
  - rewrite !IH, Pos2Nat.inj_xO, <- Nat.iter_add. f_equal. lia.
  - done.
Qed.

Lemma shr_1_m mrs : 0 <= shr_m mrs -> shr_m (shr_1 mrs) = shr_m mrs / 2.
Proof.
  destruct mrs as [[|[p|p|]|p] r s]; simpl; intros Hm; try lia; rewrite <- Z.div2_div; done.
Qed.

Lemma shr_iter_m k mrs :
  0 <= shr_m mrs -> shr_m (Nat.iter k shr_1 mrs) = shr_m mrs / 2 ^ Z.of_nat k.
Proof.
  intros Hm. induction k as [|k IH]; simpl Nat.iter; [by rewrite Z.div_1_r|].
  assert (0 <= 2 ^ Z.of_nat k) by lia.
  rewrite shr_1_m, IH, Z.div_div by (rewrite ?IH; try apply Z.div_pos; lia).
  f_equal. rewrite Nat2Z.inj_succ, Z.pow_succ_r by lia. lia.
Qed.

Lemma shr_fexp_spec m e l :
  0 <= m ->
  let n := Z.max 0 (fexp prec emax (Zdigits2 m + e) - e) in
  shr_m (fst (shr_fexp prec emax m e l)) = m / 2 ^ n /\
  snd (shr_fexp prec emax m e l) = e + n.
Proof.
  intros Hm n. subst n. unfold shr_fexp, shr.
  assert (Hl : shr_m (shr_record_of_loc m l) = m) by (destruct l as [|[]]; done).
  destruct (fexp prec emax (Zdigits2 m + e) - e) as [|p|p] eqn:E; simpl fst; simpl snd.
  - rewrite Hl. simpl. rewrite Z.div_1_r. lia.
  - rewrite iter_pos_nat, shr_iter_m, Hl, positive_nat_Z by lia. split; [done | lia].
  - rewrite Hl. simpl. rewrite Z.div_1_r. lia.
Qed.

Lemma fexp_normal e : -1074 <= e - 53 -> fexp prec emax e = e - 53.
Proof. intros He. unfold fexp, SpecFloat.emin, prec, emax. lia. Qed.

Lemma rne_cases m l : round_nearest_even m l = m \/ round_nearest_even m l = m + 1.
Proof. destruct l as [|[]]; simpl; try destruct (Z.even m); auto. Qed.

Lemma digits2_normal m : 2 ^ 52 <= m < 2 ^ 53 -> Zdigits2 m = 53.
Proof. intros Hm. apply digits2_bounds; lia. Qed.

(** [binary_round_aux] on a positive mantissa of at least 53 bits in the
    normal range: the first shift keeps the top 53 bits [m1], rounding
    adds 0 or 1, and a carry out of 53 bits is renormalised. *)
Lemma round_aux_normal mx ex lx :
  0 < mx -> 53 <= Zdigits2 mx -> -1074 <= ex + Zdigits2 mx - 53 < 971 ->
  exists m e, binary_round_aux prec emax false mx ex lx = S754_finite false m e /\
    2 ^ 52 <= Zpos m < 2 ^ 53 /\
    let n := Zdigits2 mx - 53 in
    let m1 := mx / 2 ^ n in
    2 ^ 52 <= m1 < 2 ^ 53 /\
    ((e = ex + n /\ (Zpos m = m1 \/ Zpos m = m1 + 1)) \/
    (e = ex + n + 1 /\ Zpos m = 2 ^ 52 /\ m1 + 1 = 2 ^ 53)).
Proof.
  intros Hmx Hd He. set (d := Zdigits2 mx) in *.
  assert (Hb : 2 ^ (d - 1) <= mx < 2 ^ d) by (apply digits2_bounds; lia).
  unfold binary_round_aux.
  destruct (shr_fexp_spec mx ex lx ltac:(lia)) as [H1 H2].
  destruct (shr_fexp prec emax mx ex lx) as [mrs' e'] eqn:E1. simpl in H1, H2.
  fold d in H1, H2. rewrite fexp_normal in H1, H2 by lia.
  replace (Z.max 0 (d + ex - 53 - ex)) with (d - 53) in H1, H2 by lia.
  set (m1 := shr_m mrs') in *.
  assert (Hm1 : 2 ^ 52 <= m1 < 2 ^ 53).
  { rewrite H1. assert (Hp : 2 ^ d = 2 ^ 53 * 2 ^ (d - 53)) by (rewrite <- Z.pow_add_r; f_equal; lia).
    assert (Hp' : 2 ^ (d - 1) = 2 ^ 52 * 2 ^ (d - 53)) by (rewrite <- Z.pow_add_r; f_equal; lia).
    assert (0 < 2 ^ (d - 53)) by (apply Z.pow_pos_nonneg; lia).
    split; [apply Z.div_le_lower_bound | apply Z.div_lt_upper_bound]; lia. }
  set (m2 := round_nearest_even m1 (loc_of_shr_record mrs')).
  assert (Hm2 : m2 = m1 \/ m2 = m1 + 1) by apply rne_cases.
  destruct (shr_fexp_spec m2 e' loc_Exact ltac:(lia)) as [H3 H4].
  destruct (shr_fexp prec emax m2 e' loc_Exact) as [mrs'' e''] eqn:E2. simpl in H3, H4.
  destruct (Z.eq_dec m2 (2 ^ 53)) as [Htop|Htop].
  - rewrite Htop in H3, H4. change (Zdigits2 (2 ^ 53)) with 54 in H3, H4.
    rewrite fexp_normal in H3, H4 by lia.
    replace (Z.max 0 (54 + e' - 53 - e')) with 1 in H3, H4 by lia.
    change (2 ^ 53 / 2 ^ 1) with (2 ^ 52) in H3.
    rewrite H3. change (2 ^ 52) with (Zpos 4503599627370496).
    exists 4503599627370496%positive, e''. split.
    { replace (e'' <=? emax - prec) with true by (symmetry; apply Z.leb_le; unfold emax, prec; lia).
      done. }
    split; [lia|]. rewrite <- H1. split; [lia|]. right. split_and!; try lia.
  - assert (Hd2 : Zdigits2 m2 = 53) by (apply digits2_normal; lia).
    rewrite Hd2, fexp_normal in H3, H4 by lia.
    replace (Z.max 0 (53 + e' - 53 - e')) with 0 in H3, H4 by lia.
    rewrite Z.div_1_r in H3. rewrite H3.
    destruct m2 as [|p|p] eqn:Em2; try lia.
    exists p, e''. split.
    { replace (e'' <=? emax - prec) with true by (symmetry; apply Z.leb_le; unfold emax, prec; lia).
      done. }
    split; [lia|]. rewrite <- H1. split; [lia|]. left. split; [lia|]. rewrite <- Em2. lia.
Qed.

Lemma digits2_ge m k : 0 < m -> 1 <= k -> 2 ^ (k - 1) <= m -> k <= Zdigits2 m.
Proof.
  intros Hm Hk Hle. destruct m as [|p|p]; try lia. simpl.
  rewrite digits2_pos_log2. apply Z.log2_le_pow2 in Hle; lia.
Qed.

Lemma digits2_le m k : 0 < m -> m < 2 ^ k -> Zdigits2 m <= k.
Proof.
  intros Hm Hlt. destruct m as [|p|p]; try lia. simpl.
  rewrite digits2_pos_log2. apply Z.log2_lt_pow2 in Hlt; lia.
Qed.

Lemma pos_iter_xO p k : Zpos (Pos.iter xO p k) = Zpos p * 2 ^ Zpos k.
Proof.
  induction k as [|k IH] using Pos.peano_ind; [simpl; lia|].
  rewrite Pos.iter_succ, Pos2Z.inj_succ, Z.pow_succ_r by lia.
  change (Zpos (Pos.iter xO p k)~0) with (2 * Zpos (Pos.iter xO p k)). lia.
Qed.

(** With no bits to drop and an exact location, rounding returns its
    input. *)
Lemma round_aux_exact (m : positive) e :
  Zdigits2 (Zpos m) = 53 -> -1074 <= e <= 971 ->
  binary_round_aux prec emax false (Zpos m) e loc_Exact = S754_finite false m e.
Proof.
  intros Hd He.
  assert (Hs : shr_fexp prec emax (Zpos m) e loc_Exact = (Build_shr_record (Zpos m) false false, e)).
  { unfold shr_fexp. rewrite Hd, fexp_normal by lia. by replace (53 + e - 53 - e) with 0 by lia. }
  unfold binary_round_aux. rewrite Hs. cbn [shr_m loc_of_shr_record round_nearest_even].
  rewrite Hs. cbn [shr_m].
  replace (e <=? emax - prec) with true by (symmetry; apply Z.leb_le; unfold emax, prec; lia).
  done.
Qed.

(** [float(n)] of a positive [int] below 2^53 is exact and normal. *)
Lemma of_int_exact n :
  0 < n < 2 ^ 53 ->
  exists m e, of_int n = S754_finite false m e /\ 2 ^ 52 <= Zpos m < 2 ^ 53 /\
              -52 <= e <= 0 /\ Zpos m = n * 2 ^ (- e).
Proof.
  intros Hn. destruct n as [|p|p]; try lia.
  unfold of_int, binary_normalize, binary_round.
  set (d := Zpos (digits2_pos p)).
  assert (Hd : d = Zdigits2 (Zpos p)) by done.
  assert (Hb : 2 ^ (d - 1) <= Zpos p < 2 ^ d) by (apply digits2_bounds; lia).
  assert (Hd53 : 1 <= d <= 53) by (split; [lia|]; rewrite Hd; apply digits2_le; lia).
  replace (d + 0) with d by lia. rewrite fexp_normal by lia.
  unfold shl_align. replace (d - 53 - 0) with (d - 53) by lia.
  assert (Hp2 : 2 ^ 53 = 2 ^ d * 2 ^ (53 - d)) by (rewrite <- Z.pow_add_r; f_equal; lia).
  assert (Hp1 : 2 ^ 52 = 2 ^ (d - 1) * 2 ^ (53 - d)) by (rewrite <- Z.pow_add_r; f_equal; lia).
  destruct (d - 53) as [|k|k] eqn:Ek; try lia.
  - rewrite round_aux_exact by (try rewrite <- Hd; lia).
    replace d with 53 in Hb by lia.
    exists p, 0. split_and!; first [done | lia].
  - rewrite round_aux_exact.
    + exists (Pos.iter xO p k), (Zneg k). rewrite pos_iter_xO.
      replace (Zpos k) with (53 - d) by lia. split_and!; try done; try nia.
      change (- Zneg k) with (Zpos k). replace (Zpos k) with (53 - d) by lia. lia.
    + apply digits2_bounds; try lia. rewrite pos_iter_xO.
      replace (Zpos k) with (53 - d) by lia. simpl. nia.
    + lia.
Qed.

Local Open Scope R_scope.

Lemma bpow_plus a b : bpow (a + b) = bpow a * bpow b.
Proof. unfold bpow. apply powerRZ_add. lra. Qed.

Lemma bpow_pos e : 0 < bpow e.
Proof. unfold bpow. apply powerRZ_lt. lra. Qed.

Lemma bpow_IZR k : (0 <= k)%Z -> bpow k = IZR (2 ^ k).
Proof.
  intros Hk. rewrite <- (Z2Nat.id k Hk). unfold bpow.
  rewrite <- pow_powerRZ, pow_IZR. done.
Qed.

Lemma bpow_opp k : bpow (- k) = / bpow k.
Proof. apply powerRZ_neg'. Qed.

Lemma u_pos : 0 < u.
Proof. apply bpow_pos. Qed.

Lemma u_mul_2_52 : IZR (2 ^ 52) * u = 1.
Proof.
  unfold u. rewrite <- bpow_IZR by lia. rewrite <- bpow_plus. reflexivity.
Qed.

Lemma fval_finite m e : fval (S754_finite false m e) = IZR (Zpos m) * bpow e.
Proof. simpl. ring. Qed.

Lemma normal_pos_fval f : normal_pos f -> 0 < fval f.
Proof.
  destruct f as [| | |[] m e]; simpl; try tauto. intros _.
  rewrite Rmult_1_l. apply Rmult_lt_0_compat; [apply IZR_lt; lia | apply bpow_pos].
Qed.

(** Faithful rounding in the normal range: [binary_round_aux] returns a
    normal float within relative error [u] of every real that lies in the
    interval its arguments describe. *)
Lemma round_aux_value mx ex lx x :
  (0 < mx)%Z -> (53 <= Zdigits2 mx)%Z -> (-1074 <= ex + Zdigits2 mx - 53 < 971)%Z ->
  IZR mx * bpow ex <= x < IZR (mx + 1) * bpow ex ->
  normal_pos (binary_round_aux prec emax false mx ex lx) /\
  rel_close (fval (binary_round_aux prec emax false mx ex lx)) x.
Proof.
  intros Hmx Hd He Hx.
  destruct (round_aux_normal mx ex lx Hmx Hd He) as (m & e & -> & Hm & Hm1 & Hcase).
  set (n := (Zdigits2 mx - 53)%Z) in *. set (m1 := (mx / 2 ^ n)%Z) in *.
  assert (Hn : (0 <= n)%Z) by lia.
  assert (Hp : (0 < 2 ^ n)%Z) by (apply Z.pow_pos_nonneg; lia).
  pose proof (Z.mul_div_le mx (2 ^ n) Hp) as Hlo.
  pose proof (Z.mul_succ_div_gt mx (2 ^ n) Hp) as Hhi. fold m1 in Hlo, Hhi.
  set (b := bpow (ex + n)).
  assert (Hb : forall z, IZR (z * 2 ^ n) * bpow ex = IZR z * b).
  { intros z. unfold b. rewrite mult_IZR, bpow_plus, (bpow_IZR n Hn). ring. }
  assert (HL : IZR m1 * b <= x).
  { rewrite <- Hb. apply Rle_trans with (IZR mx * bpow ex); [|lra].
    apply Rmult_le_compat_r; [apply Rlt_le, bpow_pos | apply IZR_le; lia]. }
  assert (HU : x < IZR (m1 + 1) * b).
  { rewrite <- Hb. apply Rlt_le_trans with (IZR (mx + 1) * bpow ex); [lra|].
    apply Rmult_le_compat_r; [apply Rlt_le, bpow_pos | apply IZR_le; lia]. }
  assert (Hbpos : 0 < b) by apply bpow_pos.
  assert (Hbx : b <= x * u).
  { assert (IZR (2 ^ 52) <= IZR m1) by (apply IZR_le; lia).
    assert (H52 : IZR (2 ^ 52) * b <= x) by nra.
    replace b with (IZR (2 ^ 52) * b * u) by (rewrite Rmult_comm, <- Rmult_assoc, (Rmult_comm u), u_mul_2_52; ring).
    apply Rmult_le_compat_r; [apply Rlt_le, u_pos | exact H52]. }
  assert (Hy : fval (S754_finite false m e) = IZR m1 * b \/
               fval (S754_finite false m e) = IZR (m1 + 1) * b).
  { rewrite fval_finite.
    destruct Hcase as [[-> [Hm' | Hm']] | (-> & Hm' & Htop)]; rewrite Hm'; [left|right|right]; try done.
    rewrite Htop, bpow_plus. unfold b. replace (bpow 1) with 2 by (unfold bpow; simpl; ring).
    change (2 ^ 53)%Z with (2 ^ 52 * 2)%Z. rewrite mult_IZR. ring. }
  split; [simpl; lia|].
  assert (Hm1pos : 0 < IZR m1) by (apply IZR_lt; lia).
  assert (Hxu : 0 < x * u) by (apply Rmult_lt_0_compat; [nra | apply u_pos]).
  unfold rel_close. rewrite plus_IZR in HU, Hy.
  destruct Hy as [-> | ->]; split; lra.
Qed.

Lemma div_bracket (a b q : Z) (c : R) :
  (0 < b)%Z -> (q * b <= a < (q + 1) * b)%Z -> 0 < c ->
  IZR q * c <= IZR a / IZR b * c < IZR (q + 1) * c.
Proof.
  intros Hb [Hlo Hhi] Hc. apply IZR_le in Hlo. apply IZR_lt in Hhi.
  rewrite mult_IZR in Hlo, Hhi. assert (0 < IZR b) by (apply IZR_lt; lia).
  assert (IZR q <= IZR a / IZR b).
  { apply Rmult_le_reg_r with (IZR b); [lra|]. field_simplify; lra. }
  assert (IZR a / IZR b < IZR (q + 1)).
  { apply Rmult_lt_reg_r with (IZR b); [lra|]. field_simplify; lra. }
  split; [apply Rmult_le_compat_r | apply Rmult_lt_compat_r]; lra.
Qed.

(** Division of two positive normal floats whose exponents are not too
    far apart is faithful. *)
Lemma div_value m1 e1 m2 e2 :
  (2 ^ 52 <= Zpos m1 < 2 ^ 53)%Z -> (2 ^ 52 <= Zpos m2 < 2 ^ 53)%Z ->
  (-1020 <= e1 - e2 <= 1020)%Z ->
  let f := SFdiv prec emax (S754_finite false m1 e1) (S754_finite false m2 e2) in
  normal_pos f /\ rel_close (fval f) (IZR (Zpos m1) * bpow e1 / (IZR (Zpos m2) * bpow e2)).
Proof.
  intros Hm1 Hm2 He f. subst f. unfold SFdiv, SFdiv_core_binary. cbv beta zeta.
  rewrite !digits2_normal by lia.
  replace (53 + e1 - (53 + e2))%Z with (e1 - e2)%Z by lia.
  rewrite fexp_normal by lia.
  replace (Z.min (e1 - e2 - 53) (e1 - e2)) with (e1 - e2 - 53)%Z by lia.
  replace (e1 - e2 - (e1 - e2 - 53))%Z with 53%Z by lia.
  cbv beta iota. rewrite Z.shiftl_mul_pow2 by lia.
  set (a := (Zpos m1 * 2 ^ 53)%Z).
  pose proof (Z.div_eucl_eq a (Zpos m2) ltac:(lia)) as Heucl.
  unfold Z.modulo, Z.div in *. destruct (Z.div_eucl a (Zpos m2)) as [q r] eqn:Eq.
  pose proof (Z_mod_lt a (Zpos m2) ltac:(lia)) as Hr.
  unfold Z.modulo in Hr. rewrite Eq in Hr. simpl in Hr.
  assert (Hq : (2 ^ 52 <= q < 2 ^ 54)%Z) by (unfold a in Heucl; nia).
  apply round_aux_value.
  - lia.
  - apply digits2_ge; lia.
  - assert (Zdigits2 q <= 54)%Z by (apply digits2_le; lia).
    assert (53 <= Zdigits2 q)%Z by (apply digits2_ge; lia). lia.
  - set (c := bpow (e1 - e2 - 53)).
    replace (IZR (Zpos m1) * bpow e1 / (IZR (Zpos m2) * bpow e2))
      with (IZR a / IZR (Zpos m2) * c).
    + apply div_bracket; [lia | lia | apply bpow_pos].
    + unfold a, c. rewrite mult_IZR, <- bpow_IZR by lia.
      replace e1 with (e1 - e2 - 53 + 53 + e2)%Z at 2 by lia.
      rewrite !bpow_plus. field.
      split; [apply Rgt_not_eq, bpow_pos | apply not_0_IZR; lia].
Qed.

(** Multiplication of two positive normal floats is faithful. *)
Lemma mul_value m1 e1 m2 e2 :
  (2 ^ 52 <= Zpos m1 < 2 ^ 53)%Z -> (2 ^ 52 <= Zpos m2 < 2 ^ 53)%Z ->
  (-1000 <= e1 + e2 <= 900)%Z ->
  let f := SFmul prec emax (S754_finite false m1 e1) (S754_finite false m2 e2) in
  normal_pos f /\ rel_close (fval f) (IZR (Zpos m1) * bpow e1 * (IZR (Zpos m2) * bpow e2)).
Proof.
  intros Hm1 Hm2 He f. subst f. simpl SFmul. rewrite Pos2Z.inj_mul.
  assert (Hp : (2 ^ 104 <= Zpos m1 * Zpos m2 < 2 ^ 106)%Z) by nia.
  apply round_aux_value.
  - lia.
  - apply digits2_ge; lia.
  - assert (Zdigits2 (Zpos m1 * Zpos m2) <= 106)%Z by (apply digits2_le; lia).
    assert (105 <= Zdigits2 (Zpos m1 * Zpos m2))%Z by (apply digits2_ge; lia). lia.
  - rewrite mult_IZR, plus_IZR, mult_IZR, bpow_plus.
    pose proof (bpow_pos e1). pose proof (bpow_pos e2).
    assert (0 < bpow e1 * bpow e2) by nra. split; nra.
Qed.

Lemma bpow_le a b : (a <= b)%Z -> bpow a <= bpow b.
Proof.
  intros Hab. replace b with (a + (b - a))%Z by lia. rewrite bpow_plus, (bpow_IZR (b - a)) by lia.
  pose proof (bpow_pos a). assert (1 <= IZR (2 ^ (b - a))).
  { apply IZR_le. assert (0 < 2 ^ (b - a))%Z by (apply Z.pow_pos_nonneg; lia). lia. }
  nra.
Qed.

Lemma bpow_lt_inv a b : bpow a < bpow b -> (a < b)%Z.
Proof. intros H. destruct (Z_lt_le_dec a b) as [|Hba]; [done|]. apply bpow_le in Hba. lra. Qed.

(** A positive normal float lies in the binade of its exponent. *)
Lemma normal_binade m e :
  (2 ^ 52 <= Zpos m < 2 ^ 53)%Z ->
  bpow (e + 52) <= IZR (Zpos m) * bpow e < bpow (e + 53).
Proof.
  intros Hm. rewrite !(Z.add_comm e), !bpow_plus, (bpow_IZR 52), (bpow_IZR 53) by lia.
  pose proof (bpow_pos e).
  assert (IZR (2 ^ 52) <= IZR (Zpos m)) by (apply IZR_le; lia).
  assert (IZR (Zpos m) < IZR (2 ^ 53)) by (apply IZR_lt; lia). split; nra.
Qed.

(** The exponent of a positive normal float is fixed, within one, by
    bounds on its value. *)
Lemma normal_exp_bounds m e lo hi :
  (2 ^ 52 <= Zpos m < 2 ^ 53)%Z ->
  bpow lo <= IZR (Zpos m) * bpow e <= bpow hi -> (lo - 53 < e <= hi - 52)%Z.
Proof.
  intros Hm [Hlo Hhi]. destruct (normal_binade m e Hm) as [H1 H2]. split.
  - assert (lo < e + 53)%Z by (apply bpow_lt_inv; lra). lia.
  - destruct (Z_le_gt_dec (e + 52) hi) as [|Hgt]; [lia|].
    assert (bpow (hi + 1) <= bpow (e + 52)) by (apply bpow_le; lia).
    assert (bpow hi < bpow (hi + 1)).
    { rewrite bpow_plus. pose proof (bpow_pos hi). replace (bpow 1) with 2 by (unfold bpow; simpl; ring). lra. }
    lra.
Qed.

(** [float(n)] of a positive [int] below 2^53 is the number itself. *)
Lemma of_int_value n :
  (0 < n < 2 ^ 53)%Z ->
  exists m e, of_int n = S754_finite false m e /\ (2 ^ 52 <= Zpos m < 2 ^ 53)%Z /\
              (-52 <= e <= 0)%Z /\ IZR (Zpos m) * bpow e = IZR n.
Proof.
  intros Hn. destruct (of_int_exact n Hn) as (m & e & Hf & Hm & He & Hv).
  exists m, e. split; [done|]. split; [done|]. split; [done|].
  rewrite Hv, mult_IZR, <- bpow_IZR by lia. rewrite Rmult_assoc, <- bpow_plus.
  replace (- e + e)%Z with 0%Z by lia. simpl. ring.
Qed.

(** [int(f)] of a positive normal float is its floor. *)
Lemma to_int_floor m e :
  (2 ^ 52 <= Zpos m < 2 ^ 53)%Z ->
  exists z, to_int (S754_finite false m e) = Ok z /\
            IZR z <= IZR (Zpos m) * bpow e < IZR z + 1.
Proof.
  intros Hm. unfold to_int. destruct (Z_le_gt_dec 0 e) as [He|He].
  - rewrite Z.shiftl_mul_pow2 by lia. eexists. split; [reflexivity|].
    rewrite mult_IZR, <- bpow_IZR by lia. lra.
  - rewrite Z.shiftl_div_pow2 by lia. eexists. split; [reflexivity|].
    assert (Hp : (0 < 2 ^ (- e))%Z) by (apply Z.pow_pos_nonneg; lia).
    pose proof (Z.mul_div_le (Zpos m) (2 ^ (- e)) Hp).
    pose proof (Z.mul_succ_div_gt (Zpos m) (2 ^ (- e)) Hp).
    replace (IZR (Zpos m) * bpow e) with (IZR (Zpos m) / IZR (2 ^ (- e)) * 1).
    + assert (Hb : (Zpos m / 2 ^ (- e) * 2 ^ (- e) <= Zpos m <
                    (Zpos m / 2 ^ (- e) + 1) * 2 ^ (- e))%Z) by lia.
      pose proof (div_bracket _ _ _ 1 Hp Hb ltac:(lra)) as Hd.
      rewrite plus_IZR in Hd. lra.
    + rewrite <- bpow_IZR by lia. rewrite bpow_opp. unfold Rdiv. rewrite Rinv_inv. ring.
Qed.

(** [f < g] on positive normal floats is the order of their values. *)
Lemma ltb_value m1 e1 m2 e2 :
  (2 ^ 52 <= Zpos m1 < 2 ^ 53)%Z -> (2 ^ 52 <= Zpos m2 < 2 ^ 53)%Z ->
  SFltb (S754_finite false m1 e1) (S754_finite false m2 e2) = true <->
  IZR (Zpos m1) * bpow e1 < IZR (Zpos m2) * bpow e2.
Proof.
  intros Hm1 Hm2. unfold SFltb, SFcompare.
  pose proof (normal_binade m1 e1 Hm1). pose proof (normal_binade m2 e2 Hm2).
  destruct (Z.compare_spec e1 e2) as [<-|Hlt|Hgt].
  - change (Pos.compare_cont Eq m1 m2) with (Pos.compare m1 m2).
    pose proof (bpow_pos e1).
    destruct (Pos.compare_spec m1 m2) as [<-|Hlt|Hgt]; split; intros H'; try done; try lra.
    + apply Rmult_lt_compat_r; [lra|]. apply IZR_lt. lia.
    + assert (IZR (Zpos m2) <= IZR (Zpos m1)) by (apply IZR_le; lia). nra.
  - split; [intros _|done].
    assert (bpow (e1 + 53) <= bpow (e2 + 52)) by (apply bpow_le; lia). lra.
  - split; [done|intros H'].
    assert (bpow (e2 + 53) <= bpow (e1 + 52)) by (apply bpow_le; lia). lra.
Qed.

End FloatRound.
