(* ===== verification/Raster.v ===== *)
(** PIL images as src/app.py uses them: pixels, the [wf] invariant,
    [size], [getpixel], [convert], [crop] and [getbbox].

    An image is a mode, a width, a height and its rows of pixels (row [y]
    holds the pixels [(0, y) .. (width-1, y)]), which is how PIL's
    [Imaging] struct stores [image32[y][x]]. Every channel is a byte. PIL
    keeps RGB images in four bytes per pixel with the fourth set to 255;
    the model does the same, so [convert] between RGB and RGBA only touches
    the fourth byte. *)

From S2P Require Import Prelude.

Module Raster.

(** ** Data *)

Record pixel := Pixel { red : Z; green : Z; blue : Z; alpha : Z }.

#[export] Instance pixel_eq_dec : EqDecision pixel.
Proof. solve_decision. Defined.

(** The image modes the program produces: [convert("RGBA")] and
    [convert("RGB")]. *)
Inductive mode := RGB | RGBA.

#[export] Instance mode_eq_dec : EqDecision mode.
Proof. solve_decision. Defined.

Record image := Image {
  img_mode : mode;
  width : Z;
  height : Z;
  rows : list (list pixel)
}.

(** The pixel PIL's [ImagingFill(im, &zero)] writes: all four bytes 0. *)
Definition zero_pixel : pixel := Pixel 0 0 0 0.

Definition channel_ok (v : Z) : Prop := 0 <= v < 256.

Definition pixel_ok (p : pixel) : Prop :=
  channel_ok (red p) /\ channel_ok (green p) /\ channel_ok (blue p) /\
  channel_ok (alpha p).

(** The invariant of a PIL image: non-negative size, [height] rows of
    [width] pixels each, every channel a byte. *)
Definition wf (img : image) : Prop :=
  0 <= width img /\ 0 <= height img /\
  length (rows img) = Z.to_nat (height img) /\
  Forall (fun r => length r = Z.to_nat (width img)) (rows img) /\
  Forall (Forall pixel_ok) (rows img).

#[export] Instance channel_ok_dec v : Decision (channel_ok v).
Proof. unfold channel_ok. apply _. Defined.
#[export] Instance pixel_ok_dec p : Decision (pixel_ok p).
Proof. unfold pixel_ok. apply _. Defined.
#[export] Instance wf_dec img : Decision (wf img).
Proof. unfold wf. apply _. Defined.

(** ** Access *)

(** [Image.size]. *)
Definition size (img : image) : Z * Z := (width img, height img).

(** [im->image32[y][x]] for a coordinate inside the image, the zero pixel
    outside (the value PIL's crop and paste use for uncovered area). *)
Definition getpixel (img : image) (x y : Z) : pixel :=
  if zin 0 x (width img) && zin 0 y (height img)
  then znth zero_pixel (znth [] (rows img) y) x
  else zero_pixel.

(** [Image.new(mode, (w, h))] filled from a function of the coordinates:
    the constructor every transformation below builds its result with. *)
Definition tabulate (m : mode) (w h : Z) (f : Z -> Z -> pixel) : image :=
  Image m w h (map (fun y => map (fun x => f x y) (zrange w)) (zrange h)).

(** ** Conversion ([Image.convert]) *)

(** RGBA to RGB drops the alpha channel (the padding byte becomes 255);
    RGB to RGBA makes every pixel opaque. *)
Definition convert_pixel (p : pixel) : pixel :=
  Pixel (red p) (green p) (blue p) 255.

Definition convert (target : mode) (img : image) : image :=
  if decide (target = img_mode img) then img
  else Image target (width img) (height img)
         (map (map convert_pixel) (rows img)).

(** ** Cropping ([Image.crop], PIL's [ImagingCrop]) *)

Record box := Box { left : Z; upper : Z; right : Z; lower : Z }.

#[export] Instance box_eq_dec : EqDecision box.
Proof. solve_decision. Defined.

(** The output is [max 0 (x1-x0)] by [max 0 (y1-y0)]; it is zero-filled
    where the box leaves the source, and the source is pasted on top. *)
Definition crop (img : image) (b : box) : image :=
  let xsize := Z.max 0 (right b - left b) in
  let ysize := Z.max 0 (lower b - upper b) in
  tabulate (img_mode img) xsize ysize
    (fun x y => getpixel img (left b + x) (upper b + y)).

(** ** Bounding box ([Image.getbbox], PIL's [ImagingGetBBox]) *)

(** The mask of [GETBBOX(image32, mask)]: with [alpha_only] (the default)
    an RGBA image is tested on its alpha byte only; an RGB image on its
    three colour bytes. *)
Definition has_data (m : mode) (p : pixel) : bool :=
  match m with
  | RGBA => negb (alpha p =? 0)
  | RGB => negb ((red p =? 0) && (green p =? 0) && (blue p =? 0))
  end.

(** The four cells [bbox[0..3]] of the C routine. *)
Record bbox_acc := BBoxAcc { bx0 : Z; by0 : Z; bx1 : Z; by1 : Z }.

(** The inner loop over [x] of one row:
    [if (x < bbox[0]) bbox[0] = x; if (x >= bbox[2]) bbox[2] = x + 1;]
    on each pixel with data, and [has_data = 1]. *)
Fixpoint scan_row (m : mode) (x : Z) (row : list pixel) (b : bbox_acc)
    (has : bool) : bbox_acc * bool :=
  match row with
  | [] => (b, has)
  | p :: row' =>
      if has_data m p then
        let x0 := if x <? bx0 b then x else bx0 b in
        let x1 := if x >=? bx1 b then x + 1 else bx1 b in
        scan_row m (x + 1) row' (BBoxAcc x0 (by0 b) x1 (by1 b)) true
      else scan_row m (x + 1) row' b has
  end.

(** The outer loop over [y]: after a row with data,
    [if (bbox[1] < 0) bbox[1] = y; bbox[3] = y + 1;]. *)
Fixpoint scan_rows (m : mode) (y : Z) (rs : list (list pixel)) (b : bbox_acc)
    : bbox_acc :=
  match rs with
  | [] => b
  | r :: rs' =>
      let '(b1, has) := scan_row m 0 r b false in
      let b2 := if has
                then BBoxAcc (bx0 b1) (if by0 b1 <? 0 then y else by0 b1)
                       (bx1 b1) (y + 1)
                else b1 in
      scan_rows m (y + 1) rs' b2
  end.

(** [bbox = {xsize, -1, 0, 0}], the scan, and [None] when [bbox[1] < 0]. *)
Definition getbbox (img : image) : option box :=
  let b := scan_rows (img_mode img) 0 (rows img)
             (BBoxAcc (width img) (-1) 0 0) in
  if by0 b <? 0 then None else Some (Box (bx0 b) (by0 b) (bx1 b) (by1 b)).

(** ** Basic facts *)

Lemma tabulate_wf m w h f :
  0 <= w -> 0 <= h -> (forall x y, pixel_ok (f x y)) ->
  wf (tabulate m w h f).
Proof.
  intros Hw Hh Hf. unfold tabulate, wf; simpl.
  rewrite length_map, length_zrange.
  repeat split; try lia.
  - apply Forall_map, Forall_forall. intros y _.
    by rewrite length_map, length_zrange.
  - apply Forall_map, Forall_forall. intros y _.
    apply Forall_map, Forall_forall. intros x _. apply Hf.
Qed.

Lemma getpixel_in img x y :
  0 <= x < width img -> 0 <= y < height img ->
  getpixel img x y = znth zero_pixel (znth [] (rows img) y) x.
Proof.
  intros Hx Hy. unfold getpixel.
  replace (zin 0 x _ && zin 0 y _) with true; [done|].
  symmetry. apply andb_true_iff. rewrite !zin_spec. lia.
Qed.

Lemma getpixel_out img x y :
  ~ (0 <= x < width img /\ 0 <= y < height img) ->
  getpixel img x y = zero_pixel.
Proof.
  intros H. unfold getpixel.
  destruct (zin 0 x _) eqn:Ex, (zin 0 y _) eqn:Ey; simpl; try done.
  apply zin_spec in Ex, Ey. tauto.
Qed.

Lemma getpixel_tabulate m w h f x y :
  0 <= x < w -> 0 <= y < h -> getpixel (tabulate m w h f) x y = f x y.
Proof.
  intros Hx Hy. rewrite getpixel_in by done. simpl.
  by rewrite !znth_map_zrange.
Qed.

Lemma tabulate_ext m w h f g :
  (forall x y, 0 <= x < w -> 0 <= y < h -> f x y = g x y) ->
  tabulate m w h f = tabulate m w h g.
Proof.
  intros Hfg. unfold tabulate. f_equal.
  apply map_ext_in. intros y Hy. apply map_ext_in. intros x Hx.
  apply list_elem_of_In, elem_of_zrange in Hx, Hy. by apply Hfg.
Qed.

Lemma has_data_zero m : has_data m zero_pixel = false.
Proof. by destruct m. Qed.

Lemma crop_size img b :
  size (crop img b) = (Z.max 0 (right b - left b), Z.max 0 (lower b - upper b)).
Proof. done. Qed.

Lemma getpixel_crop img b x y :
  0 <= x < right b - left b -> 0 <= y < lower b - upper b ->
  getpixel (crop img b) x y = getpixel img (left b + x) (upper b + y).
Proof.
  intros Hx Hy. unfold crop. rewrite getpixel_tabulate; [done | lia | lia].
Qed.

Lemma zero_pixel_ok : pixel_ok zero_pixel.
Proof. repeat split; simpl; lia. Qed.

Lemma getpixel_ok img x y :
  wf img -> pixel_ok (getpixel img x y).
Proof.
  intros (Hw & Hh & Hlen & Hrow & Hpx). unfold getpixel.
  destruct (zin 0 x _ && zin 0 y _) eqn:E; [|apply zero_pixel_ok].
  apply andb_true_iff in E as [Ex Ey]. apply zin_spec in Ex, Ey.
  assert (Hy : 0 <= y < Z.of_nat (length (rows img))) by lia.
  pose proof (znth_in [] _ _ Hy) as Hr.
  rewrite Forall_lookup in Hrow, Hpx.
  specialize (Hrow _ _ Hr). specialize (Hpx _ _ Hr).
  rewrite Forall_lookup in Hpx. apply (Hpx (Z.to_nat x)).
  apply znth_in. lia.
Qed.

Lemma getpixel_convert img m x y :
  wf img -> 0 <= x < width img -> 0 <= y < height img ->
  getpixel (convert m img) x y =
  if decide (m = img_mode img) then getpixel img x y else convert_pixel (getpixel img x y).
Proof.
  intros (Hw & Hh & Hlen & Hrow & _) Hx Hy. unfold convert.
  destruct (decide (m = img_mode img)); [done|].
  rewrite !getpixel_in by done. simpl.
  assert (Hy' : 0 <= y < Z.of_nat (length (rows img))) by lia.
  rewrite (znth_map []) by done.
  pose proof (znth_in [] _ _ Hy') as Hl. rewrite Forall_lookup in Hrow.
  apply znth_map. rewrite (Hrow _ _ Hl). lia.
Qed.

Lemma convert_wf m img : wf img -> wf (convert m img).
Proof.
  intros (Hw & Hh & Hlen & Hrow & Hpx). unfold convert.
  destruct (decide (m = img_mode img)); [by split_and!|].
  unfold wf. cbn [width height rows]. split_and!; [done | done | by rewrite length_map | |].
  - rewrite Forall_map. eapply Forall_impl; [exact Hrow|]. intros r Hr. by rewrite length_map.
  - rewrite Forall_map. eapply Forall_impl; [exact Hpx|]. intros r Hr.
    rewrite Forall_map. eapply Forall_impl; [exact Hr|].
    intros p (? & ? & ? & ?). unfold convert_pixel, pixel_ok, channel_ok in *. simpl. lia.
Qed.

Lemma convert_size m img : size (convert m img) = size img.
Proof. unfold convert. by destruct (decide _). Qed.

Lemma convert_mode m img : img_mode (convert m img) = m.
Proof. unfold convert. by destruct (decide _). Qed.

Lemma crop_wf img b : wf img -> wf (crop img b).
Proof.
  intros Hwf. unfold crop. apply tabulate_wf; [lia | lia |].
  intros x y. by apply getpixel_ok.
Qed.

#[export] Hint Resolve crop_wf convert_wf getpixel_ok zero_pixel_ok : offer.

End Raster.
