(* ===== verification/Cropper.v ===== *)
(** The bounding-box cropper, [get_bounding_box] (src/app.py lines 25-30),
    and the correctness of PIL's [getbbox] loop that it relies on.

    The proof goes through the list of pixels with data, in scan order
    ([points]): the two loops of [getbbox] are a running minimum and maximum
    over that list ([scan_row_closed], [scan_rows_closed]), from which the
    returned box is the tight box of the data ([getbbox_spec]). *)

From S2P Require Import Prelude Raster.
Import Raster.

Module Cropper.

(** ** The operation *)

(** [bbox = image.getbbox(); if bbox: return image.crop(bbox); return image]. *)
Definition get_bounding_box (image : Raster.image) : Raster.image :=
  match getbbox image with
  | Some bbox => crop image bbox
  | None => image
  end.

(** ** Specification *)

(** A pixel with data: inside the image and not masked out. *)
Definition opaque (img : image) (x y : Z) : Prop :=
  0 <= x < width img /\ 0 <= y < height img /\
  has_data (img_mode img) (getpixel img x y) = true.

(** The tight box: it contains every pixel with data, and each of its four
    edges touches one. *)
Definition tight (img : image) (b : box) : Prop :=
  (forall x y, opaque img x y -> left b <= x < right b /\ upper b <= y < lower b) /\
  (exists y, opaque img (left b) y) /\ (exists y, opaque img (right b - 1) y) /\
  (exists x, opaque img x (upper b)) /\ (exists x, opaque img x (lower b - 1)).

(** ** Sample images *)

(** A 4x3 RGBA image, transparent except at (1, 0) and (2, 1). *)
Definition sample_product : Raster.image :=
  tabulate RGBA 4 3 (fun x y =>
    if ((x =? 1) && (y =? 0)) || ((x =? 2) && (y =? 1))
    then Pixel 200 10 10 255 else Pixel 255 255 255 0).

(** A 2x2 image with no visible pixel. *)
Definition sample_blank : Raster.image :=
  tabulate RGBA 2 2 (fun _ _ => Pixel 255 255 255 0).

(** ** The pixels with data, in scan order *)

Fixpoint row_points (m : mode) (x y : Z) (row : list pixel) : list (Z * Z) :=
  match row with
  | [] => []
  | p :: row' => (if has_data m p then [(x, y)] else []) ++ row_points m (x + 1) y row'
  end.

Fixpoint points (m : mode) (y : Z) (rs : list (list pixel)) : list (Z * Z) :=
  match rs with
  | [] => []
  | r :: rs' => row_points m 0 y r ++ points m (y + 1) rs'
  end.

(** ** Closed forms of the two loops *)

Lemma scan_row_closed m x y row b has :
  scan_row m x row b has =
  (BBoxAcc (fold_left Z.min (map fst (row_points m x y row)) (bx0 b)) (by0 b)
           (fold_left Z.max (map (fun p => fst p + 1) (row_points m x y row)) (bx1 b))
           (by1 b),
   match row_points m x y row with [] => has | _ => true end).
Proof.
  revert x b has. induction row as [|p row IH]; intros x [x0 y0 x1 y1] has; [done|].
  simpl. destruct (has_data m p); simpl; rewrite IH; simpl; [|done].
  do 3 f_equal; [| |by destruct (row_points _ _ _ _)]; f_equal; zcase; lia.
Qed.

Lemma row_points_snd m x y row p : p ∈ row_points m x y row -> snd p = y.
Proof.
  revert x. induction row as [|q row IH]; intros x; simpl; [set_solver|].
  rewrite elem_of_app. intros [Hp|Hp]; [|by eapply IH].
  destruct (has_data m q); [apply list_elem_of_singleton in Hp; by subst | set_solver].
Qed.

Lemma points_snd_ge m y rs p : p ∈ points m y rs -> y <= snd p.
Proof.
  revert y. induction rs as [|r rs IH]; intros y; simpl; [set_solver|].
  rewrite elem_of_app. intros [Hp|Hp].
  - apply row_points_snd in Hp. lia.
  - apply IH in Hp. lia.
Qed.

Lemma scan_rows_closed m y rs b :
  0 <= y ->
  scan_rows m y rs b =
  BBoxAcc (fold_left Z.min (map fst (points m y rs)) (bx0 b))
          (if by0 b <? 0 then
             match points m y rs with [] => by0 b | p :: _ => snd p end
           else by0 b)
          (fold_left Z.max (map (fun p => fst p + 1) (points m y rs)) (bx1 b))
          (match last (points m y rs) with None => by1 b | Some p => snd p + 1 end).
Proof.
  revert y b. induction rs as [|r rs IH]; intros y [x0 y0 x1 y1] Hy; simpl.
  { by destruct (y0 <? 0). }
  rewrite (scan_row_closed _ _ y), IH by lia. simpl. rewrite !map_app, !fold_left_app.
  destruct (row_points m 0 y r) as [|p ps] eqn:Er; [done|].
  assert (Hp : snd p = y) by (apply (row_points_snd m 0 y r); rewrite Er; by left).
  simpl (if true then _ else _). f_equal.
  - simpl. zcase; try lia; destruct (points m (y + 1) rs); simpl; lia.
  - rewrite last_app. destruct (last (points m (y + 1) rs)) eqn:El; [done|].
    destruct (last (p :: ps)) as [q|] eqn:Eq; [|by apply last_None in Eq].
    apply last_Some_elem_of in Eq. rewrite <- Er in Eq.
    by rewrite (row_points_snd _ _ _ _ _ Eq).
Qed.

(** ** Which pixels are listed *)

Lemma row_points_elem m x0 y row x y' :
  (x, y') ∈ row_points m x0 y row <->
  y' = y /\ (x0 <= x < x0 + Z.of_nat (length row)) /\
  has_data m (znth zero_pixel row (x - x0)) = true.
Proof.
  revert x0. induction row as [|p row IH]; intros x0; simpl.
  { split; [set_solver | lia]. }
  rewrite elem_of_app, IH. split.
  - intros [Hp|(-> & Hx & Hd)].
    + destruct (has_data m p) eqn:Ed; [|set_solver].
      apply list_elem_of_singleton in Hp. injection Hp as -> ->.
      rewrite znth_cons, Z.sub_diag by lia. simpl. split_and!; (done || lia).
    + rewrite znth_cons by lia. zcase; [lia|].
      replace (x - x0 - 1) with (x - (x0 + 1)) by lia. split_and!; (done || lia).
  - intros (-> & Hx & Hd). rewrite znth_cons in Hd by lia.
    revert Hd. zcase; intros Hd.
    + left. assert (x = x0) as -> by lia. rewrite Hd. by left.
    + right. replace (x - x0 - 1) with (x - (x0 + 1)) in Hd by lia.
      split_and!; (done || lia).
Qed.

Lemma points_elem m y0 rs x y :
  (x, y) ∈ points m y0 rs <->
  (y0 <= y < y0 + Z.of_nat (length rs)) /\
  (0 <= x < Z.of_nat (length (znth [] rs (y - y0)))) /\
  has_data m (znth zero_pixel (znth [] rs (y - y0)) x) = true.
Proof.
  revert y0. induction rs as [|r rs IH]; intros y0; simpl.
  { split; [set_solver | lia]. }
  rewrite elem_of_app, IH, row_points_elem, Z.sub_0_r. split.
  - intros [(-> & Hx & Hd)|(Hy & Hx & Hd)].
    + rewrite znth_cons, Z.sub_diag by lia. simpl. split_and!; (done || lia).
    + rewrite znth_cons by lia. zcase; [lia|].
      replace (y - y0 - 1) with (y - (y0 + 1)) by lia. split_and!; (done || lia).
  - intros (Hy & Hx & Hd). rewrite znth_cons in Hx, Hd by lia.
    revert Hx Hd. zcase; intros Hx Hd.
    + left. split_and!; (done || lia).
    + right. replace (y - y0 - 1) with (y - (y0 + 1)) in Hx, Hd by lia.
      split_and!; (done || lia).
Qed.

(** On a well-formed image, [points] lists exactly the pixels with data. *)
Lemma points_opaque img x y :
  wf img -> (x, y) ∈ points (img_mode img) 0 (rows img) <-> opaque img x y.
Proof.
  intros (Hw & Hh & Hlen & Hrow & _).
  rewrite points_elem, Z.sub_0_r, Hlen. unfold opaque.
  assert (Hr : 0 <= y < height img ->
               length (znth [] (rows img) y) = Z.to_nat (width img)).
  { intros Hy. rewrite Forall_lookup in Hrow. apply (Hrow (Z.to_nat y)).
    apply znth_in. lia. }
  split.
  - intros (Hy & Hx & Hd). rewrite Hr in Hx by lia.
    rewrite getpixel_in by lia. split_and!; (done || lia).
  - intros (Hx & Hy & Hd). rewrite getpixel_in in Hd by lia.
    rewrite Hr by lia. split_and!; (done || lia).
Qed.

(** Scan order: the first listed pixel is on the top row with data and the
    last one on the bottom row with data. *)
Lemma points_head_min m y rs p ps :
  points m y rs = p :: ps -> forall q, q ∈ points m y rs -> snd p <= snd q.
Proof.
  revert y. induction rs as [|r rs IH]; intros y; simpl; [done|].
  destruct (row_points m 0 y r) as [|p' ps'] eqn:Er; [apply IH|].
  intros [= -> _] q. rewrite elem_of_app, <- Er.
  assert (Hp : snd p = y) by (apply (row_points_snd m 0 y r); rewrite Er; by left).
  intros [Hq|Hq]; [apply row_points_snd in Hq | apply points_snd_ge in Hq]; lia.
Qed.

Lemma points_last_max m y rs p :
  last (points m y rs) = Some p -> forall q, q ∈ points m y rs -> snd q <= snd p.
Proof.
  revert y. induction rs as [|r rs IH]; intros y; simpl; [done|].
  rewrite last_app. intros Hl q. rewrite elem_of_app.
  destruct (last (points m (y + 1) rs)) as [p'|] eqn:El.
  - injection Hl as <-. pose proof (last_Some_elem_of _ _ El) as Hp.
    apply points_snd_ge in Hp.
    intros [Hq|Hq]; [apply row_points_snd in Hq; lia | by apply (IH (y + 1))].
  - apply last_None in El. rewrite El. apply last_Some_elem_of in Hl.
    apply row_points_snd in Hl.
    intros [Hq|Hq]; [apply row_points_snd in Hq; lia | set_solver].
Qed.

(** ** [getbbox] *)

Lemma getbbox_closed img :
  getbbox img =
  match points (img_mode img) 0 (rows img) with
  | [] => None
  | p :: ps =>
      Some (Box (fold_left Z.min (map fst (p :: ps)) (width img)) (snd p)
                (fold_left Z.max (map (fun q => fst q + 1) (p :: ps)) 0)
                (match last (p :: ps) with None => 0 | Some q => snd q + 1 end))
  end.
Proof.
  unfold getbbox. rewrite scan_rows_closed by lia. simpl.
  destruct (points _ _ _) as [|p ps] eqn:E; [done|].
  assert (Hp : 0 <= snd p) by (apply (points_snd_ge (img_mode img) 0 (rows img)); rewrite E; by left).
  zcase; [lia | done].
Qed.

Lemma in_points_opaque img q :
  wf img -> q ∈ points (img_mode img) 0 (rows img) -> opaque img (fst q) (snd q).
Proof. destruct q as [x y]. intros Hwf. by rewrite points_opaque. Qed.

(** The closed forms of the two loops give the tight box. *)
Lemma getbbox_tight img :
  wf img ->
  match getbbox img with
  | Some b => tight img b
  | None => forall x y, ~ opaque img x y
  end.
Proof.
  intros Hwf. rewrite getbbox_closed.
  destruct (points _ _ _) as [|p ps] eqn:E.
  { intros x y Hxy. apply (points_opaque img x y Hwf) in Hxy. rewrite E in Hxy. by inversion Hxy. }
  rewrite <- E. set (P := points _ _ _) in *.
  assert (HpP : p ∈ P) by (rewrite E; by left).
  destruct (in_points_opaque img p Hwf HpP) as (Hpx & _).
  destruct (fold_min_le (map fst P) (width img)) as [Hmin1 Hmin2].
  destruct (fold_max_ge (map (fun q => fst q + 1) P) 0) as [Hmax1 Hmax2].
  rewrite Forall_forall in Hmin2, Hmax2.
  destruct (last P) as [l|] eqn:El; [|by rewrite E in El; apply last_None in El].
  assert (HlP : l ∈ P) by (by apply last_Some_elem_of).
  split_and!.
  - intros x y Hxy. apply (points_opaque img x y Hwf) in Hxy.
    pose proof (Hmin2 x ltac:(apply list_elem_of_fmap; by exists (x, y))).
    pose proof (Hmax2 (x + 1) ltac:(apply list_elem_of_fmap; by exists (x, y))).
    pose proof (points_head_min _ _ _ p ps E (x, y) Hxy).
    pose proof (points_last_max _ _ _ l El (x, y) Hxy).
    simpl in *. lia.
  - destruct (fold_min_attained (map fst P) (width img)) as [Hw|Hin].
    + pose proof (Hmin2 (fst p) ltac:(apply list_elem_of_fmap; by exists p)). lia.
    + apply list_elem_of_fmap in Hin as (q & Hq & HqP). simpl. rewrite Hq.
      exists (snd q). by apply in_points_opaque.
  - destruct (fold_max_attained (map (fun q => fst q + 1) P) 0) as [H0|Hin].
    + pose proof (Hmax2 (fst p + 1) ltac:(apply list_elem_of_fmap; by exists p)). lia.
    + apply list_elem_of_fmap in Hin as (q & Hq & HqP). simpl. rewrite Hq.
      exists (snd q). replace (fst q + 1 - 1) with (fst q) by lia.
      by apply in_points_opaque.
  - exists (fst p). by apply in_points_opaque.
  - exists (fst l). simpl. replace (snd l + 1 - 1) with (snd l) by lia.
    by apply in_points_opaque.
Qed.

(** C2. The box [getbbox] returns is the tight box of the pixels with data,
    and it returns [None] exactly when there is no such pixel. *)
Theorem getbbox_spec img :
  wf img ->
  match getbbox img with
  | Some b => tight img b
  | None => forall x y, ~ opaque img x y
  end.
Proof. apply getbbox_tight. Qed.

(** A set of pixels has at most one tight box. *)
Lemma tight_unique img b1 b2 : tight img b1 -> tight img b2 -> b1 = b2.
Proof.
  intros (Hin1 & [y1 Hl1] & [y2 Hr1] & [x1 Hu1] & [x2 Hd1])
         (Hin2 & [y3 Hl2] & [y4 Hr2] & [x3 Hu2] & [x4 Hd2]).
  apply Hin2 in Hl1, Hr1, Hu1, Hd1. apply Hin1 in Hl2, Hr2, Hu2, Hd2.
  destruct b1, b2; simpl in *. f_equal; lia.
Qed.

(** ** Cropping to the box *)

Lemma opaque_crop img b x y :
  0 <= x < right b - left b -> 0 <= y < lower b - upper b ->
  opaque (crop img b) x y <-> opaque img (left b + x) (upper b + y).
Proof.
  intros Hx Hy. unfold opaque. rewrite getpixel_crop by done. simpl.
  destruct (decide (0 <= left b + x < width img /\ 0 <= upper b + y < height img)) as [Hin|Hout].
  - split; intros (? & ? & ?); split_and!; (done || lia).
  - rewrite getpixel_out, has_data_zero by done.
    split; intros (? & ? & ?); [done | lia].
Qed.

Lemma tight_lt img b : tight img b -> left b < right b /\ upper b < lower b.
Proof.
  intros (Hin & [y Hl] & _ & [x Hu] & _). apply Hin in Hl, Hu. lia.
Qed.

(** Cropping to a tight box leaves an image whose tight box is all of it. *)
Lemma tight_crop img b :
  tight img b ->
  tight (crop img b) (Box 0 0 (right b - left b) (lower b - upper b)).
Proof.
  intros Ht. pose proof (tight_lt img b Ht) as Hlt.
  destruct Ht as (Hin & [y1 Hl] & [y2 Hr] & [x1 Hu] & [x2 Hd]).
  pose proof (Hin _ _ Hl). pose proof (Hin _ _ Hr).
  pose proof (Hin _ _ Hu). pose proof (Hin _ _ Hd).
  unfold tight. cbn [left upper right lower]. split_and!.
  - intros x y (Hx & Hy & _). unfold crop, tabulate in Hx, Hy. simpl in *. lia.
  - exists (y1 - upper b). apply opaque_crop; [lia | lia|].
    by replace (upper b + (y1 - upper b)) with y1 by lia; rewrite Z.add_0_r.
  - exists (y2 - upper b). apply opaque_crop; [lia | lia|].
    by replace (upper b + (y2 - upper b)) with y2 by lia;
       replace (left b + (right b - left b - 1)) with (right b - 1) by lia.
  - exists (x1 - left b). apply opaque_crop; [lia | lia|].
    by replace (left b + (x1 - left b)) with x1 by lia; rewrite Z.add_0_r.
  - exists (x2 - left b). apply opaque_crop; [lia | lia|].
    by replace (left b + (x2 - left b)) with x2 by lia;
       replace (upper b + (lower b - upper b - 1)) with (lower b - 1) by lia.
Qed.

Lemma crop_full img b :
  0 <= right b - left b -> 0 <= lower b - upper b ->
  crop (crop img b) (Box 0 0 (right b - left b) (lower b - upper b)) = crop img b.
Proof.
  intros Hw Hh. unfold crop at 1. simpl. rewrite !Z.sub_0_r.
  unfold crop. simpl. apply tabulate_ext. intros x y Hx Hy.
  rewrite getpixel_tabulate by lia. by rewrite !Z.add_0_l.
Qed.

Lemma get_bounding_box_wf img : wf img -> wf (get_bounding_box img).
Proof. intros Hwf. unfold get_bounding_box. destruct (getbbox img); auto with offer. Qed.

#[export] Hint Resolve get_bounding_box_wf : offer.

(** ** Properties of [get_bounding_box] *)

(** C3. Cropping is idempotent (spec section 8): on a well-formed image, a
    second [get_bounding_box] returns the result of the first unchanged. *)
Theorem get_bounding_box_idempotent img :
  wf img -> get_bounding_box (get_bounding_box img) = get_bounding_box img.
Proof.
  intros Hwf. pose proof (getbbox_tight img Hwf) as Hs.
  unfold get_bounding_box at 2 3. destruct (getbbox img) as [b|] eqn:Eb.
  - pose proof (tight_crop img b Hs) as Hc. pose proof (tight_lt img b Hs).
    pose proof (getbbox_tight (crop img b) (crop_wf img b Hwf)) as Hs'.
    unfold get_bounding_box. destruct (getbbox (crop img b)) as [b'|].
    + rewrite (tight_unique _ _ _ Hs' Hc). apply crop_full; lia.
    + exfalso. destruct Hc as (_ & [y Hy] & _). exact (Hs' _ y Hy).
  - unfold get_bounding_box. by rewrite Eb.
Qed.

(** C16. Scenario 4 of the spec: when background removal leaves no
    visible pixel (every alpha is 0), the image is returned unchanged. *)
Theorem get_bounding_box_transparent img :
  wf img -> img_mode img = RGBA ->
  (forall x y, alpha (getpixel img x y) = 0) ->
  get_bounding_box img = img.
Proof.
  intros Hwf Hm Ha. pose proof (getbbox_tight img Hwf) as Hs.
  unfold get_bounding_box. destruct (getbbox img) as [b|]; [|done].
  exfalso. destruct Hs as (_ & [y (_ & _ & Hd)] & _).
  rewrite Hm in Hd. simpl in Hd. rewrite Ha in Hd. discriminate.
Qed.

(** C15. No visible pixel is lost: every pixel with data of the input is
    found in the cropped output, shifted by the box's top-left corner, and
    the output is exactly as large as the tight box. *)
Theorem get_bounding_box_keeps_data img b :
  wf img -> getbbox img = Some b ->
  size (get_bounding_box img) = (right b - left b, lower b - upper b) /\
  forall x y, opaque img x y ->
    opaque (get_bounding_box img) (x - left b) (y - upper b) /\
    getpixel (get_bounding_box img) (x - left b) (y - upper b) = getpixel img x y.
Proof.
  intros Hwf Eb. pose proof (getbbox_tight img Hwf) as Hs. rewrite Eb in Hs.
  pose proof (tight_lt img b Hs). destruct Hs as (Hin & _).
  unfold get_bounding_box. rewrite Eb. split.
  - rewrite crop_size. f_equal; lia.
  - intros x y Hxy. pose proof (Hin x y Hxy).
    rewrite opaque_crop, getpixel_crop by lia.
    by replace (left b + (x - left b)) with x by lia;
       replace (upper b + (y - upper b)) with y by lia.
Qed.

(** ** Witnesses *)

Lemma getbbox_spec_witness :
  wf sample_product /\
  match getbbox sample_product with
  | Some b => tight sample_product b
  | None => forall x y, ~ opaque sample_product x y
  end.
Proof.
  assert (H : wf sample_product) by (apply (bool_decide_unpack (wf _)); vm_compute; exact I).
  split; [exact H | apply (getbbox_spec sample_product H)].
Defined.

Lemma get_bounding_box_idempotent_witness :
  wf sample_product /\
  get_bounding_box (get_bounding_box sample_product) = get_bounding_box sample_product.
Proof.
  assert (H : wf sample_product) by (apply (bool_decide_unpack (wf _)); vm_compute; exact I).
  split; [exact H | apply (get_bounding_box_idempotent sample_product H)].
Defined.

Lemma get_bounding_box_transparent_witness :
  wf sample_blank /\ img_mode sample_blank = RGBA /\
  (forall x y, alpha (getpixel sample_blank x y) = 0) /\
  get_bounding_box sample_blank = sample_blank.
Proof.
  assert (H1 : wf sample_blank) by (apply (bool_decide_unpack (wf _)); vm_compute; exact I).
  assert (H3 : forall x y, alpha (getpixel sample_blank x y) = 0).
  { intros x y. unfold getpixel. destruct (zin 0 x _ && zin 0 y _) eqn:E; [|done].
    apply andb_true_iff in E as [Ex Ey]. apply zin_spec in Ex, Ey.
    unfold sample_blank. simpl in Ex, Ey.
    assert (x = 0 \/ x = 1) as [-> | ->] by lia;
    assert (y = 0 \/ y = 1) as [-> | ->] by lia; vm_compute; reflexivity. }
  split_and!; [exact H1 | reflexivity | exact H3 |].
  apply (get_bounding_box_transparent sample_blank H1 eq_refl H3).
Defined.

Lemma get_bounding_box_keeps_data_witness :
  wf sample_product /\ getbbox sample_product = Some (Box 1 0 3 2) /\
  size (get_bounding_box sample_product) = (2, 2).
Proof.
  assert (H : wf sample_product) by (apply (bool_decide_unpack (wf _)); vm_compute; exact I).
  assert (Hb : getbbox sample_product = Some (Box 1 0 3 2)) by (vm_compute; reflexivity).
  split_and!; [exact H | exact Hb |].
  apply (get_bounding_box_keeps_data sample_product _ H Hb).
Defined.

End Cropper.
