(* ===== verification/Resizer.v ===== *)
(** The product pipeline of [process_image] (src/app.py lines 32-58):
    background removal, the bounding-box crop, the aspect-preserving size
    computed with Python floats, and PIL's resize.

    rembg's segmentation and the Lanczos filter's pixel values are library
    code; they are the operations of the interface [ImageServices], whose
    laws are the two facts the program relies on: rembg returns an image,
    and the filter produces the size it is asked for. PIL's [Image.resize]
    wrapper around the filter is modelled: it returns a copy when the size
    is unchanged and raises [ValueError] ("height and width must be > 0")
    when a side is below 1. *)

From S2P Require Import Prelude Raster Cropper PyFloat.
Import Raster Cropper PyFloat.

Module Resizer.

(** ** The interface of the image services *)

Class ImageServices := {
  (** [rembg.remove(image)] *)
  remove : image -> image;
  (** the Lanczos resampling kernel, to a size with both sides >= 1 *)
  lanczos : image -> Z -> Z -> image;
  remove_wf img : wf img -> wf (remove img);
  lanczos_wf img w h : wf img -> 1 <= w -> 1 <= h -> wf (lanczos img w h);
  lanczos_size img w h : 1 <= w -> 1 <= h -> size (lanczos img w h) = (w, h)
}.

(** ** The size computation (lines 40-53) *)

Definition max_width : Z := 500.
Definition max_height : Z := 600.

(** [aspect_ratio = original_width / original_height], the comparison with
    [max_width / max_height], and one of the two [int(...)] branches. *)
Definition new_size (original_width original_height : Z) : outcome (Z * Z) :=
  let* aspect_ratio := truediv_int original_width original_height in
  let* bound := truediv_int max_width max_height in
  if gt aspect_ratio bound then
    let* q := div_int_float max_width aspect_ratio in
    let* new_height := to_int q in
    Ok (max_width, new_height)
  else
    let* new_width := to_int (mul_int_float max_height aspect_ratio) in
    Ok (new_width, max_height).

(** The same computation in exact arithmetic, as spec section 4.4 states
    it: [aspect > 500/600] is [6 w > 5 h], and [floor(500 / (w/h))] is
    [500 h / w]. It is the reference the float code is measured against. *)
Definition fit_exact (w h : Z) : Z * Z :=
  if 5 * h <? 6 * w then (max_width, max_width * h / w)
  else (max_height * w / h, max_height).

(** ** PIL's resize and the whole of [process_image] *)

Section WithServices.
Context `{ImageServices}.

(** [Image.resize(size, Image.LANCZOS)]. *)
Definition resize (img : image) (sz : Z * Z) : outcome image :=
  if decide (sz = size img) then Ok img
  else if (fst sz <? 1) || (snd sz <? 1) then Raise ValueError
  else Ok (lanczos img (fst sz) (snd sz)).

Definition process_image (image : Raster.image) : outcome Raster.image :=
  let output_image := convert RGBA (remove image) in
  let cropped_image := get_bounding_box output_image in
  let* sz := new_size (width cropped_image) (height cropped_image) in
  resize cropped_image sz.

End WithServices.

(** ** A model of the interface

    Background removal that keeps every pixel, and nearest-neighbour
    resampling in place of Lanczos: enough to run the pipeline on concrete
    images, and evidence that the interface's laws can be met. *)

Definition nearest (img : image) (w h : Z) : image :=
  tabulate (img_mode img) w h
    (fun x y => getpixel img (x * width img / w) (y * height img / h)).

#[export] Instance nearest_services : ImageServices := {|
  remove := fun img => img;
  lanczos := nearest;
  remove_wf := fun img H => H;
  lanczos_wf := ltac:(intros img w h Hwf Hw Hh; apply tabulate_wf; [lia | lia |];
                      intros; by apply getpixel_ok);
  lanczos_size := ltac:(done)
|}.

(** Sample products: a 1000x1 opaque line and a 5x0 empty image. *)
Definition sample_line : image := tabulate RGBA 1000 1 (fun _ _ => Pixel 0 0 0 255).
Definition sample_flat : image := tabulate RGBA 5 0 (fun _ _ => Pixel 0 0 0 255).

(** ** The exact reference *)

(** The contract of spec section 4.4 holds of the exact reference: for a
    non-empty image the size fits the 500x600 box, one side is tight, and
    the other keeps the aspect ratio up to the rounding of one side
    ([nw/nh] and [w/h] differ by less than [max w h / (h * nh)]). *)
Lemma fit_exact_contract w h :
  0 < w -> 0 < h ->
  let '(nw, nh) := fit_exact w h in
  0 <= nw <= max_width /\ 0 <= nh <= max_height /\
  (nw = max_width \/ nh = max_height) /\
  Z.abs (nw * h - nh * w) < Z.max w h.
Proof.
  intros Hw Hh. unfold fit_exact, max_width, max_height. zcase.
  - pose proof (Z.mul_div_le (500 * h) w Hw).
    pose proof (Z.mul_succ_div_gt (500 * h) w Hw).
    assert (500 * h / w <= 600) by (apply Z.div_le_upper_bound; lia).
    assert (0 <= 500 * h / w) by (apply Z.div_pos; lia).
    nia.
  - pose proof (Z.mul_div_le (600 * w) h Hh).
    pose proof (Z.mul_succ_div_gt (600 * w) h Hh).
    assert (600 * w / h <= 500) by (apply Z.div_le_upper_bound; lia).
    assert (0 <= 600 * w / h) by (apply Z.div_pos; lia).
    nia.
Qed.

(** ** Behaviour of the code *)

(** C19. A product of height 0 makes [aspect_ratio = original_width /
    original_height] raise [ZeroDivisionError] (spec section 7,
    [DegenerateImage], which the code does not guard). *)
Theorem process_image_zero_height `{ImageServices} image :
  height (get_bounding_box (convert RGBA (remove image))) = 0 ->
  process_image image = Raise ZeroDivisionError.
Proof. intros Hh. unfold process_image. by rewrite Hh. Qed.

(** ** Witnesses *)

Lemma process_image_zero_height_witness :
  height (get_bounding_box (convert RGBA (remove sample_flat))) = 0 /\
  process_image sample_flat = Raise ZeroDivisionError.
Proof.
  assert (H : height (get_bounding_box (convert RGBA (remove sample_flat))) = 0)
    by (vm_compute; reflexivity).
  split; [exact H | exact (process_image_zero_height sample_flat H)].
Defined.

End Resizer.
