(* ===== verification/ResizeBounds.v ===== *)
(** The size computation of [process_image] (src/app.py lines 45-53)
    against the exact formula of spec section 4.4, for every crop whose
    sides are in [1, 2^31] (PIL sizes are C [int]s).

    [new_size] computes [aspect_ratio = w / h] and the bound [500 / 600]
    in floats, compares them, and truncates [500 / aspect_ratio] or
    [600 * aspect_ratio]. By the rounding theory of [FloatRound], each
    float is within 2^-52 of its exact value, so: the comparison agrees
    with [6 w > 5 h] except when [6 w = 5 h], where either branch gives an
    acceptable size ([branch_agree], [tie_sizes]); the truncated quotient
    or product is within 3 * 2^-52 of [500 h / w] or [600 w / h], which
    puts its floor at the exact floor or one below it ([floor_near],
    [height_branch], [width_branch]). The bound 2^31 keeps these errors
    below the distance [1 / w] (or [1 / h]) between [500 h / w] and the
    next integer. *)

From S2P Require Import Prelude PyFloat FloatRound Raster Cropper Resizer.
From Stdlib Require Import SpecFloat Reals Lra.
Import PyFloat FloatRound Raster Cropper Resizer.

Module ResizeBounds.

Local Open Scope R_scope.

Lemma u_num : u * 4503599627370496 = 1.
Proof. rewrite Rmult_comm. exact u_mul_2_52. Qed.

Lemma normal_pos_inv f :
  normal_pos f -> exists m e, f = S754_finite false m e /\ (2 ^ 52 <= Zpos m < 2 ^ 53)%Z.
Proof. destruct f as [| | |[] m e]; simpl; try tauto. intros [Hm _]. eauto. Qed.

(** [a / b] on two [int]s in [1, 2^31]. *)
Lemma truediv_value a b :
  (1 <= a <= 2 ^ 31)%Z -> (1 <= b <= 2 ^ 31)%Z ->
  exists m e, truediv_int a b = Ok (S754_finite false m e) /\
    (2 ^ 52 <= Zpos m < 2 ^ 53)%Z /\ rel_close (IZR (Zpos m) * bpow e) (IZR a / IZR b).
Proof.
  intros Ha Hb. rewrite truediv_int_nonzero by lia.
  destruct (of_int_value a ltac:(lia)) as (ma & ea & -> & Hma & Hea & Hva).
  destruct (of_int_value b ltac:(lia)) as (mb & eb & -> & Hmb & Heb & Hvb).
  destruct (div_value ma ea mb eb Hma Hmb ltac:(lia)) as [Hn Hc].
  destruct (normal_pos_inv _ Hn) as (m & e & Ef & Hm). rewrite Ef in Hc |- *.
  exists m, e. split; [done|]. split; [done|]. rewrite fval_finite, Hva, Hvb in Hc. exact Hc.
Qed.

(** The branch of the code agrees with the exact comparison
    [w / h > 5 / 6] unless the two are equal. *)
Lemma branch_agree (a b : Z) r c :
  (1 <= a <= 2 ^ 31)%Z -> (1 <= b <= 2 ^ 31)%Z ->
  rel_close r (IZR a / IZR b) -> rel_close c (5 / 6) ->
  ((5 * b < 6 * a)%Z -> c < r) /\ ((6 * a < 5 * b)%Z -> r < c).
Proof.
  intros Ha Hb [Hr1 Hr2] [Hc1 Hc2].
  assert (HA : 1 <= IZR a <= 2147483648) by (split; apply IZR_le; lia).
  assert (HB : 1 <= IZR b <= 2147483648) by (split; apply IZR_le; lia).
  pose proof u_pos as Hu. pose proof u_num as Hun.
  assert (HuA : u * IZR a <= u * 2147483648) by (apply Rmult_le_compat_l; lra).
  assert (HuB : u * IZR b <= u * 2147483648) by (apply Rmult_le_compat_l; lra).
  assert (HT : IZR a / IZR b * IZR b = IZR a) by (field; lra).
  set (T := IZR a / IZR b) in *.
  split; intros Hlt.
  - assert (H56 : 5 * IZR b + 1 <= 6 * IZR a) by (rewrite <- (mult_IZR 5), <- (mult_IZR 6), <- plus_IZR; apply IZR_le; lia).
    assert (5 / 6 * (1 + u) < T * (1 - u)); [|lra].
    apply Rmult_lt_reg_r with (6 * IZR b); [lra|].
    replace (T * (1 - u) * (6 * IZR b)) with (6 * (T * IZR b) * (1 - u)) by ring.
    rewrite HT. lra.
  - assert (H56 : 6 * IZR a + 1 <= 5 * IZR b) by (rewrite <- (mult_IZR 5), <- (mult_IZR 6), <- plus_IZR; apply IZR_le; lia).
    assert (T * (1 + u) < 5 / 6 * (1 - u)); [|lra].
    apply Rmult_lt_reg_r with (6 * IZR b); [lra|].
    replace (T * (1 + u) * (6 * IZR b)) with (6 * (T * IZR b) * (1 + u)) by ring.
    rewrite HT. lra.
Qed.

(** A real within [eps] of [a / b], with [eps * b < 1], has its floor at
    [a / b] or one below. *)
Lemma floor_near (a b z : Z) q eps :
  (0 < b)%Z -> 0 <= eps -> eps * IZR b < 1 ->
  IZR a / IZR b - eps <= q <= IZR a / IZR b + eps ->
  IZR z <= q < IZR z + 1 ->
  z = (a / b)%Z \/ z = (a / b - 1)%Z.
Proof.
  intros Hb Heps Hepsb [Hq1 Hq2] [Hz1 Hz2].
  pose proof (Z.div_mod a b ltac:(lia)) as Ha. pose proof (Z.mod_pos_bound a b Hb) as Hr.
  set (E := (a / b)%Z) in *. set (rho := (a mod b)%Z) in *.
  assert (HB : 1 <= IZR b) by (apply IZR_le; lia).
  assert (HA : IZR a = IZR b * IZR E + IZR rho) by (rewrite <- mult_IZR, <- plus_IZR; f_equal; lia).
  assert (Hrho : 0 <= IZR rho <= IZR b - 1).
  { split; [apply IZR_le; lia|]. rewrite <- minus_IZR. apply IZR_le. lia. }
  assert (HX : IZR a / IZR b = IZR E + IZR rho / IZR b) by (rewrite HA; field; lra).
  assert (Hfrac : IZR rho / IZR b + eps < 1).
  { apply Rmult_lt_reg_r with (IZR b); [lra|]. field_simplify; lra. }
  assert (Hfrac0 : 0 <= IZR rho / IZR b).
  { unfold Rdiv. apply Rmult_le_pos; [lra | apply Rlt_le, Rinv_0_lt_compat; lra]. }
  assert (Heps1 : eps < 1) by nra.
  assert (Hup : (z < E + 1)%Z) by (apply lt_IZR; rewrite plus_IZR; lra).
  assert (Hlo : (E - 2 < z)%Z) by (apply lt_IZR; rewrite minus_IZR; lra).
  lia.
Qed.

Lemma div_compose r t q K :
  0 < t -> 0 < K -> u <= / 4 -> rel_close r t -> rel_close q (K / r) ->
  K / t * (1 - 3 * u) <= q <= K / t * (1 + 3 * u).
Proof.
  intros Ht HK Hu [Hr1 Hr2] [Hq1 Hq2]. pose proof u_pos.
  assert (Hr : 0 < r) by nra.
  set (s := K / r) in *. assert (Hs : s * r = K) by (unfold s; field; lra).
  assert (Hs0 : 0 < s) by (unfold s; apply Rdiv_lt_0_compat; lra).
  set (Y := K / t). assert (HY : Y * t = K) by (unfold Y; field; lra).
  assert (HY0 : 0 < Y) by (unfold Y; apply Rdiv_lt_0_compat; lra).
  (* s * t is within [K / (1 + u), K / (1 - u)] *)
  assert (Hst1 : s * t * (1 - u) <= K) by nra.
  assert (Hst2 : K <= s * t * (1 + u)) by nra.
  split.
  - apply Rmult_le_reg_r with t; [lra|].
    replace (Y * (1 - 3 * u) * t) with (K * (1 - 3 * u)) by (rewrite <- HY; ring).
    assert (q * t >= s * t * (1 - u)) by nra. nra.
  - apply Rmult_le_reg_r with t; [lra|].
    replace (Y * (1 + 3 * u) * t) with (K * (1 + 3 * u)) by (rewrite <- HY; ring).
    assert (q * t <= s * t * (1 + u)) by nra. nra.
Qed.

Lemma mul_compose r t p K :
  0 < t -> 0 < K -> u <= / 4 -> rel_close r t -> rel_close p (K * r) ->
  K * t * (1 - 3 * u) <= p <= K * t * (1 + 3 * u).
Proof.
  intros Ht HK Hu [Hr1 Hr2] [Hp1 Hp2]. pose proof u_pos.
  assert (HKt : 0 < K * t) by nra.
  assert (H1 : K * t * (1 - u) <= K * r) by nra.
  assert (H2 : K * r <= K * t * (1 + u)) by nra.
  assert (H3 : K * t * (1 - u) * (1 - u) <= K * r * (1 - u)) by (apply Rmult_le_compat_r; lra).
  assert (H4 : K * r * (1 + u) <= K * t * (1 + u) * (1 + u)) by (apply Rmult_le_compat_r; lra).
  assert (H5 : 0 <= K * t * (u * u + u)) by (apply Rmult_le_pos; nra).
  assert (H6 : 0 <= K * t * (u - u * u)) by (apply Rmult_le_pos; nra).
  split; nra.
Qed.

Lemma ratio_bounds (a b : Z) :
  (1 <= a <= 2 ^ 31)%Z -> (1 <= b <= 2 ^ 31)%Z ->
  0 < IZR a / IZR b /\ / 2147483648 <= IZR a / IZR b <= 2147483648.
Proof.
  intros Ha Hb.
  assert (HA : 1 <= IZR a <= 2147483648) by (split; apply IZR_le; lia).
  assert (HB : 1 <= IZR b <= 2147483648) by (split; apply IZR_le; lia).
  split_and!.
  - apply Rdiv_lt_0_compat; lra.
  - apply Rmult_le_reg_r with (IZR b * 2147483648); [nra|]. field_simplify; nra.
  - apply Rmult_le_reg_r with (IZR b); [lra|]. field_simplify; nra.
Qed.

(** The exponent of [w / h] for sizes in [1, 2^31]. *)
Lemma aspect_exp m e t :
  (2 ^ 52 <= Zpos m < 2 ^ 53)%Z -> / 2147483648 <= t <= 2147483648 ->
  rel_close (IZR (Zpos m) * bpow e) t -> (-85 < e <= -20)%Z.
Proof.
  intros Hm Ht [H1 H2]. pose proof u_pos. pose proof u_num.
  assert (Hlo : bpow (-32) = / 4294967296).
  { change (-32)%Z with (- (32))%Z. rewrite (bpow_opp 32), bpow_IZR by lia. reflexivity. }
  assert (Hhi : bpow 32 = 4294967296) by (rewrite bpow_IZR by lia; reflexivity).
  assert (bpow (-32) <= IZR (Zpos m) * bpow e <= bpow 32) by (rewrite Hlo, Hhi; split; nra).
  pose proof (normal_exp_bounds m e (-32) 32 Hm ltac:(assumption)). lia.
Qed.

Lemma u_small : u <= / 4.
Proof. pose proof u_pos. pose proof u_num. lra. Qed.

(** The height branch: [int(max_width / aspect_ratio)] is the exact
    floor of [500 h / w] or one below, and not negative. *)
Lemma height_branch w h m e :
  (1 <= w <= 2 ^ 31)%Z -> (1 <= h <= 2 ^ 31)%Z -> (2 ^ 52 <= Zpos m < 2 ^ 53)%Z ->
  rel_close (IZR (Zpos m) * bpow e) (IZR w / IZR h) ->
  exists q z, div_int_float max_width (S754_finite false m e) = Ok q /\ to_int q = Ok z /\
    (0 <= z)%Z /\ (z = 500 * h / w \/ z = 500 * h / w - 1)%Z.
Proof.
  intros Hw Hh Hm Hr. destruct (ratio_bounds w h Hw Hh) as [Ht0 Ht].
  pose proof (aspect_exp m e _ Hm Ht Hr) as He.
  destruct (of_int_value max_width ltac:(unfold max_width; lia)) as (m5 & e5 & E5 & Hm5 & He5 & Hv5).
  unfold div_int_float. simpl is_zero. cbv iota. rewrite E5.
  destruct (div_value m5 e5 m e Hm5 Hm ltac:(lia)) as [Hn Hq].
  destruct (normal_pos_inv _ Hn) as (mq & eq & Eq & Hmq). rewrite Eq in Hq |- *.
  destruct (to_int_floor mq eq Hmq) as (z & Ez & Hz). exists (S754_finite false mq eq), z.
  split; [done|]. split; [done|].
  rewrite fval_finite, Hv5 in Hq. unfold max_width in Hq.
  pose proof (div_compose _ _ _ 500 Ht0 ltac:(lra) u_small Hr Hq) as Hc.
  pose proof (normal_pos_fval _ Hn) as Hq0. rewrite Eq, fval_finite in Hq0.
  assert (HX : 500 / (IZR w / IZR h) = IZR (500 * h) / IZR w)
    by (rewrite mult_IZR; field; split; apply not_0_IZR; lia).
  rewrite HX in Hc.
  split; [assert (-1 < z)%Z by (apply lt_IZR; simpl; lra); lia|].
  pose proof u_pos. pose proof u_num.
  assert (HX0 : IZR (500 * h) / IZR w * (3 * u) * IZR w = 1500 * IZR h * u)
    by (rewrite mult_IZR; field; apply not_0_IZR; lia).
  assert (Hh' : IZR h <= 2147483648) by (apply IZR_le; lia).
  apply (floor_near _ _ _ (IZR (Zpos mq) * bpow eq) (IZR (500 * h) / IZR w * (3 * u)));
    [lia | | rewrite HX0; nra | lra | exact Hz].
  apply Rmult_le_pos; [|lra]. apply Rlt_le, Rdiv_lt_0_compat; apply IZR_lt; lia.
Qed.

(** The width branch: [int(max_height * aspect_ratio)] is the exact
    floor of [600 w / h] or one below, and not negative. *)
Lemma width_branch w h m e :
  (1 <= w <= 2 ^ 31)%Z -> (1 <= h <= 2 ^ 31)%Z -> (2 ^ 52 <= Zpos m < 2 ^ 53)%Z ->
  rel_close (IZR (Zpos m) * bpow e) (IZR w / IZR h) ->
  exists z, to_int (mul_int_float max_height (S754_finite false m e)) = Ok z /\
    (0 <= z)%Z /\ (z = 600 * w / h \/ z = 600 * w / h - 1)%Z.
Proof.
  intros Hw Hh Hm Hr. destruct (ratio_bounds w h Hw Hh) as [Ht0 Ht].
  pose proof (aspect_exp m e _ Hm Ht Hr) as He.
  destruct (of_int_value max_height ltac:(unfold max_height; lia)) as (m6 & e6 & E6 & Hm6 & He6 & Hv6).
  unfold mul_int_float. rewrite E6.
  destruct (mul_value m6 e6 m e Hm6 Hm ltac:(lia)) as [Hn Hp].
  destruct (normal_pos_inv _ Hn) as (mp & ep & Ep & Hmp). rewrite Ep in Hp |- *.
  destruct (to_int_floor mp ep Hmp) as (z & Ez & Hz). rewrite Ez. exists z. split; [done|].
  rewrite fval_finite, Hv6 in Hp. unfold max_height in Hp.
  pose proof (mul_compose _ _ _ 600 Ht0 ltac:(lra) u_small Hr Hp) as Hc.
  pose proof (normal_pos_fval _ Hn) as Hp0. rewrite Ep, fval_finite in Hp0.
  assert (HX : 600 * (IZR w / IZR h) = IZR (600 * w) / IZR h)
    by (rewrite mult_IZR; field; apply not_0_IZR; lia).
  rewrite HX in Hc.
  split; [assert (-1 < z)%Z by (apply lt_IZR; simpl; lra); lia|].
  pose proof u_pos. pose proof u_num.
  assert (HX0 : IZR (600 * w) / IZR h * (3 * u) * IZR h = 1800 * IZR w * u)
    by (rewrite mult_IZR; field; apply not_0_IZR; lia).
  assert (Hw' : IZR w <= 2147483648) by (apply IZR_le; lia).
  apply (floor_near _ _ _ (IZR (Zpos mp) * bpow ep) (IZR (600 * w) / IZR h * (3 * u)));
    [lia | | rewrite HX0; nra | lra | exact Hz].
  apply Rmult_le_pos; [|lra]. apply Rlt_le, Rdiv_lt_0_compat; apply IZR_lt; lia.
Qed.

(** ** The size computation refines the exact formula *)

Lemma tie_sizes w h : (1 <= w)%Z -> (1 <= h)%Z -> (5 * h = 6 * w)%Z ->
  (600 * w / h = 500 /\ 500 * h / w = 600)%Z.
Proof.
  intros Hw Hh Heq. split.
  - replace (600 * w)%Z with (500 * h)%Z by lia. apply Z.div_mul. lia.
  - replace (500 * h)%Z with (600 * w)%Z by lia. apply Z.div_mul. lia.
Qed.

Lemma new_size_spec w h :
  (1 <= w <= 2 ^ 31)%Z -> (1 <= h <= 2 ^ 31)%Z ->
  exists nw nh, new_size w h = Ok (nw, nh) /\ (0 <= nw)%Z /\ (0 <= nh)%Z /\
    (nw = max_width \/ nh = max_height) /\
    let '(ew, eh) := fit_exact w h in
    ((nw = ew /\ (nh = eh \/ nh = eh - 1)) \/ (nh = eh /\ (nw = ew \/ nw = ew - 1)))%Z.
Proof.
  intros Hw Hh.
  destruct (truediv_value w h Hw Hh) as (m & e & Er & Hm & Hr).
  destruct (truediv_value 500 600 ltac:(lia) ltac:(lia)) as (mc & ec & Ec & Hmc & Hc).
  replace (IZR 500 / IZR 600) with (5 / 6) in Hc by field.
  destruct (branch_agree w h _ _ Hw Hh Hr Hc) as [B1 B2].
  unfold new_size. rewrite Er. cbn [obind]. change (truediv_int max_width max_height) with (truediv_int 500 600).
  rewrite Ec. cbn [obind]. unfold gt, fit_exact, max_width, max_height.
  destruct (SFltb (S754_finite false mc ec) (S754_finite false m e)) eqn:Ecmp.
  - apply (ltb_value _ _ _ _ Hmc Hm) in Ecmp.
    assert (H56 : (5 * h <= 6 * w)%Z).
    { destruct (Z_lt_le_dec (6 * w) (5 * h)) as [Hlt|]; [apply B2 in Hlt; lra | lia]. }
    destruct (height_branch w h m e Hw Hh Hm Hr) as (q & z & Eq & Ez & Hz0 & Hz).
    unfold max_width in Eq. rewrite Eq. cbn [obind]. rewrite Ez. cbn [obind].
    exists 500%Z, z. split; [done|]. split; [lia|]. split; [done|]. split; [left; done|].
    destruct (Z.ltb_spec (5 * h) (6 * w)); [left; done|].
    destruct (tie_sizes w h ltac:(lia) ltac:(lia) ltac:(lia)) as [-> E]. rewrite E in Hz. left; done.
  - assert (H56 : (6 * w <= 5 * h)%Z).
    { destruct (Z_lt_le_dec (5 * h) (6 * w)) as [Hlt|]; [|lia].
      apply B1, (ltb_value _ _ _ _ Hmc Hm) in Hlt. congruence. }
    destruct (width_branch w h m e Hw Hh Hm Hr) as (z & Ez & Hz0 & Hz).
    unfold max_height in Ez. rewrite Ez. cbn [obind].
    exists z, 600%Z. split; [done|]. split; [done|]. split; [lia|]. split; [right; done|].
    destruct (Z.ltb_spec (5 * h) (6 * w)); [lia|]. right; done.
Qed.

(** C23. Refinement of the exact formula of spec section 4.4: for every
    crop of sides in [1, 2^31], the float code returns a size, equal to
    [fit_exact] on the side it sets to the bound and at most one pixel
    below it on the other side: [int] truncates a float quotient that
    rounds just below the integer (a 25x3 crop gets height 59, not 60). *)
Theorem new_size_refines_fit_exact w h :
  (1 <= w <= 2 ^ 31)%Z -> (1 <= h <= 2 ^ 31)%Z ->
  exists nw nh, new_size w h = Ok (nw, nh) /\
    let '(ew, eh) := fit_exact w h in
    ((nw = ew /\ (nh = eh \/ nh = eh - 1)) \/ (nh = eh /\ (nw = ew \/ nw = ew - 1)))%Z.
Proof.
  intros Hw Hh. destruct (new_size_spec w h Hw Hh) as (nw & nh & E & _ & _ & _ & Hr).
  exists nw, nh. split; [exact E | exact Hr].
Qed.

(** C24. Spec section 8: the computed size always fits the 500x600 box,
    is not negative, reaches the box on one side, and keeps the aspect
    ratio within rounding ([nw/nh] and [w/h] differ by less than
    [2 max(w, h) / (h nh)]), for every crop of sides in [1, 2^31]. A side
    of 0 is possible ([process_image_thin_product]). *)
Theorem new_size_fits_box w h :
  (1 <= w <= 2 ^ 31)%Z -> (1 <= h <= 2 ^ 31)%Z ->
  exists nw nh, new_size w h = Ok (nw, nh) /\
    (0 <= nw <= max_width)%Z /\ (0 <= nh <= max_height)%Z /\
    (nw = max_width \/ nh = max_height) /\
    (Z.abs (nw * h - nh * w) < 2 * Z.max w h)%Z.
Proof.
  intros Hw Hh. destruct (new_size_spec w h Hw Hh) as (nw & nh & E & H0w & H0h & Ht & Hr).
  pose proof (fit_exact_contract w h ltac:(lia) ltac:(lia)) as Hc.
  destruct (fit_exact w h) as [ew eh]. exists nw, nh. split; [exact E|].
  unfold max_width, max_height in *.
  destruct Hr as [(-> & [-> | ->]) | (-> & [-> | ->])]; split_and!; nia.
Qed.

(** ** The whole of [process_image] *)

Lemma fit_exact_ge2 w h :
  (1 <= w)%Z -> (1 <= h)%Z -> (w <= 250 * h)%Z -> (h <= 300 * w)%Z ->
  (2 <= fst (fit_exact w h))%Z /\ (2 <= snd (fit_exact w h))%Z.
Proof.
  intros Hw Hh Hwh Hhw. unfold fit_exact, max_width, max_height.
  destruct (Z.ltb_spec (5 * h) (6 * w)); simpl; split; try lia;
    apply Z.div_le_lower_bound; lia.
Qed.

Lemma resize_ok `{ImageServices} img nw nh :
  wf img -> (1 <= nw)%Z -> (1 <= nh)%Z ->
  exists r, resize img (nw, nh) = Ok r /\ wf r /\ size r = (nw, nh).
Proof.
  intros Hwf Hw Hh. unfold resize. destruct (decide ((nw, nh) = size img)) as [E|E].
  - exists img. by rewrite E.
  - simpl. replace ((nw <? 1)%Z || (nh <? 1)%Z) with false by (symmetry; apply orb_false_iff; split; apply Z.ltb_ge; lia).
    exists (lanczos img nw nh). split_and!; [done | by apply lanczos_wf | by apply lanczos_size].
Qed.

(** C26. No crash for reasonable products (spec section 8, scenario 4
    included): if the crop has sides in [1, 2^31] and an aspect ratio
    between 1:300 and 250:1, [process_image] returns a well-formed image
    inside the 500x600 box and tight on one side. A fully transparent
    product is not cropped (C16), so its own size is used. *)
Theorem process_image_succeeds `{ImageServices} image :
  wf image ->
  let crop := get_bounding_box (convert RGBA (remove image)) in
  (1 <= width crop <= 2 ^ 31)%Z -> (1 <= height crop <= 2 ^ 31)%Z ->
  (width crop <= 250 * height crop)%Z -> (height crop <= 300 * width crop)%Z ->
  exists r, process_image image = Ok r /\ wf r /\
    (1 <= width r <= max_width)%Z /\ (1 <= height r <= max_height)%Z /\
    (width r = max_width \/ height r = max_height).
Proof.
  intros Hwf crop Hw Hh Hwh Hhw.
  assert (Hc : wf crop) by (apply get_bounding_box_wf, convert_wf, remove_wf, Hwf).
  destruct (new_size_spec _ _ Hw Hh) as (nw & nh & E & _ & _ & Ht & Hr).
  pose proof (fit_exact_ge2 (width crop) (height crop) ltac:(lia) ltac:(lia) Hwh Hhw) as Hge.
  pose proof (fit_exact_contract (width crop) (height crop) ltac:(lia) ltac:(lia)) as Hct.
  destruct (fit_exact _ _) as [ew eh]. simpl in Hge, Hr.
  unfold max_width, max_height in *.
  assert (Hpos : (1 <= nw)%Z /\ (1 <= nh)%Z) by lia.
  destruct (resize_ok crop nw nh Hc ltac:(lia) ltac:(lia)) as (r & Er & Hwr & Hsr).
  exists r. unfold process_image. fold crop. rewrite E. cbn [obind]. rewrite Er.
  unfold size in Hsr. injection Hsr as -> ->.
  split_and!; first [done | lia].
Qed.

(** C18. A long thin product makes the request fail: when the crop is
    more than 500 times wider than high, the computed height [int(500 /
    aspect_ratio)] is 0 for every such crop, and PIL's resize raises
    [ValueError] instead of producing a one-pixel-high product. *)
Theorem process_image_thin_product `{ImageServices} image :
  let crop := get_bounding_box (convert RGBA (remove image)) in
  (1 <= width crop <= 2 ^ 31)%Z -> (1 <= height crop <= 2 ^ 31)%Z ->
  (500 * height crop < width crop)%Z ->
  exists nw, new_size (width crop) (height crop) = Ok (nw, 0%Z) /\
             process_image image = Raise ValueError.
Proof.
  intros crop Hw Hh Hthin.
  destruct (new_size_spec _ _ Hw Hh) as (nw & nh & E & _ & H0h & _ & Hr).
  assert (Heh : fit_exact (width crop) (height crop) = (500, 0)%Z).
  { unfold fit_exact, max_width. rewrite (proj2 (Z.ltb_lt _ _)) by lia.
    f_equal. apply Z.div_small. lia. }
  rewrite Heh in Hr. assert (nh = 0%Z) as -> by lia.
  exists nw. split; [exact E|]. unfold process_image. fold crop. rewrite E. cbn [obind].
  unfold resize. destruct (decide ((nw, 0%Z) = size crop)) as [Es|_].
  - unfold size in Es. injection Es as _ Es. lia.
  - simpl. by rewrite orb_true_r.
Qed.

(** ** Witnesses *)

Lemma new_size_refines_fit_exact_witness :
  (1 <= 25 <= 2 ^ 31)%Z /\ (1 <= 3 <= 2 ^ 31)%Z /\
  new_size 25 3 = Ok (500, 59)%Z /\ fit_exact 25 3 = (500, 60)%Z /\
  exists nw nh, new_size 25 3 = Ok (nw, nh) /\
    let '(ew, eh) := fit_exact 25 3 in
    ((nw = ew /\ (nh = eh \/ nh = eh - 1)) \/ (nh = eh /\ (nw = ew \/ nw = ew - 1)))%Z.
Proof.
  split; [lia|]. split; [lia|]. split; [vm_compute; reflexivity|]. split; [reflexivity|].
  apply new_size_refines_fit_exact; lia.
Defined.

Lemma new_size_fits_box_witness :
  (1 <= 1000 <= 2 ^ 31)%Z /\ (1 <= 1 <= 2 ^ 31)%Z /\
  exists nw nh, new_size 1000 1 = Ok (nw, nh) /\
    (0 <= nw <= max_width)%Z /\ (0 <= nh <= max_height)%Z /\
    (nw = max_width \/ nh = max_height) /\
    (Z.abs (nw * 1 - nh * 1000) < 2 * Z.max 1000 1)%Z.
Proof.
  split; [lia|]. split; [lia|]. apply new_size_fits_box; lia.
Defined.

Lemma process_image_succeeds_witness :
  let crop := get_bounding_box (convert RGBA (remove sample_product)) in
  wf sample_product /\ (1 <= width crop <= 2 ^ 31)%Z /\ (1 <= height crop <= 2 ^ 31)%Z /\
  (width crop <= 250 * height crop)%Z /\ (height crop <= 300 * width crop)%Z /\
  exists r, process_image sample_product = Ok r /\ wf r /\
    (1 <= width r <= max_width)%Z /\ (1 <= height r <= max_height)%Z /\
    (width r = max_width \/ height r = max_height).
Proof.
  cbv zeta.
  assert (Hwf : wf sample_product) by (apply (bool_decide_unpack (wf _)); vm_compute; exact I).
  assert (Hs : size (get_bounding_box (convert RGBA (remove sample_product))) = (2, 2)%Z)
    by (vm_compute; reflexivity).
  pose proof (f_equal fst Hs) as Hw. pose proof (f_equal snd Hs) as Hh.
  cbn [fst snd size] in Hw, Hh.
  assert (H1 : (1 <= width (get_bounding_box (convert RGBA (remove sample_product))) <= 2 ^ 31)%Z)
    by (rewrite Hw; lia).
  assert (H2 : (1 <= height (get_bounding_box (convert RGBA (remove sample_product))) <= 2 ^ 31)%Z)
    by (rewrite Hh; lia).
  assert (H3 : (width (get_bounding_box (convert RGBA (remove sample_product))) <=
                250 * height (get_bounding_box (convert RGBA (remove sample_product))))%Z)
    by (rewrite Hw, Hh; lia).
  assert (H4 : (height (get_bounding_box (convert RGBA (remove sample_product))) <=
                300 * width (get_bounding_box (convert RGBA (remove sample_product))))%Z)
    by (rewrite Hw, Hh; lia).
  refine (conj Hwf (conj H1 (conj H2 (conj H3 (conj H4 _))))).
  exact (process_image_succeeds sample_product Hwf H1 H2 H3 H4).
Defined.

Lemma process_image_thin_product_witness :
  let crop := get_bounding_box (convert RGBA (remove sample_line)) in
  (1 <= width crop <= 2 ^ 31)%Z /\ (1 <= height crop <= 2 ^ 31)%Z /\
  (500 * height crop < width crop)%Z /\
  exists nw, new_size (width crop) (height crop) = Ok (nw, 0%Z) /\
             process_image sample_line = Raise ValueError.
Proof.
  cbv zeta.
  assert (Hs : size (get_bounding_box (convert RGBA (remove sample_line))) = (1000, 1)%Z)
    by (vm_compute; reflexivity).
  pose proof (f_equal fst Hs) as Hw. pose proof (f_equal snd Hs) as Hh.
  cbn [fst snd size] in Hw, Hh.
  assert (H1 : (1 <= width (get_bounding_box (convert RGBA (remove sample_line))) <= 2 ^ 31)%Z)
    by (rewrite Hw; lia).
  assert (H2 : (1 <= height (get_bounding_box (convert RGBA (remove sample_line))) <= 2 ^ 31)%Z)
    by (rewrite Hh; lia).
  assert (H3 : (500 * height (get_bounding_box (convert RGBA (remove sample_line))) <
                width (get_bounding_box (convert RGBA (remove sample_line))))%Z)
    by (rewrite Hw, Hh; lia).
  refine (conj H1 (conj H2 (conj H3 _))).
  exact (process_image_thin_product sample_line H1 H2 H3).
Defined.

End ResizeBounds.
