(* ===== verification/Placement.v ===== *)
(** The placement calculator, [calculate_position] (src/app.py lines
    60-73): where the product's top-left corner goes on the template.

    Python's [//] on integers is floor division, which is [Z.div]; the
    result may be negative (spec section 4.5), and the theorems hold for
    every size, negative coordinates included. *)

From S2P Require Import Prelude Raster.
Import Raster.

Module Placement.

(** [table_center_y = 1670  # Position near the base]. *)
Definition table_center_y : Z := 1670.

Definition calculate_position (template product_image : image) : Z * Z :=
  let '(template_width, template_height) := size template in
  let '(product_width, product_height) := size product_image in
  let table_center_x := template_width / 2 in
  let product_x := table_center_x - product_width / 2 in
  let product_y := table_center_y - product_height in
  (product_x, product_y).

(** ** Theorems *)

Lemma calculate_position_eq template product :
  calculate_position template product =
  (width template / 2 - width product / 2, 1670 - height product).
Proof. done. Qed.

(** C6. The product is centred: its left margin [x] and its right margin
    [W - (x + w)] differ by at most one pixel, whatever the sizes, and are
    equal when [W] and [w] have the same parity. *)
Theorem calculate_position_centred template product :
  let '(x, _) := calculate_position template product in
  let W := width template in
  let w := width product in
  Z.abs (x - (W - (x + w))) <= 1 /\
  (Z.even W = Z.even w -> x = W - (x + w)).
Proof.
  rewrite calculate_position_eq. simpl.
  set (W := width template). set (w := width product).
  pose proof (Z.div_mod W 2 ltac:(lia)). pose proof (Z.mod_pos_bound W 2 ltac:(lia)).
  pose proof (Z.div_mod w 2 ltac:(lia)). pose proof (Z.mod_pos_bound w 2 ltac:(lia)).
  rewrite !Zeven_mod. split; [lia|].
  intros Hpar. destruct (Z.eqb_spec (W mod 2) 0), (Z.eqb_spec (w mod 2) 0);
    simpl in Hpar; try discriminate; lia.
Qed.

(** The product's bottom edge lies on row 1670: the rows it covers are
    [1670 - h .. 1669], and its top row is negative exactly when it is
    taller than 1670 pixels. *)
Lemma calculate_position_bottom template product :
  let '(_, y) := calculate_position template product in
  y + height product = table_center_y /\ (y < 0 <-> 1670 < height product).
Proof. rewrite calculate_position_eq. simpl. unfold table_center_y. lia. Qed.

(** C17. Horizontally, the paste rectangle [x, x + w) lies inside the
    template exactly when the product is not wider than the template. *)
Theorem calculate_position_inside template product :
  0 <= width product ->
  let '(x, _) := calculate_position template product in
  (0 <= x /\ x + width product <= width template <-> width product <= width template).
Proof.
  intros Hw. rewrite calculate_position_eq. simpl.
  set (W := width template). set (w := width product).
  pose proof (Z.div_mod W 2 ltac:(lia)). pose proof (Z.mod_pos_bound W 2 ltac:(lia)).
  pose proof (Z.div_mod w 2 ltac:(lia)). pose proof (Z.mod_pos_bound w 2 ltac:(lia)).
  lia.
Qed.

(** ** Witnesses *)

Lemma calculate_position_inside_witness :
  let template := tabulate RGBA 1700 2000 (fun _ _ => zero_pixel) in
  let product := tabulate RGBA 500 600 (fun _ _ => zero_pixel) in
  0 <= width product /\
  let '(x, _) := calculate_position template product in
  (0 <= x /\ x + width product <= width template <-> width product <= width template).
Proof.
  cbv zeta. split; [simpl; lia|].
  apply calculate_position_inside. simpl. lia.
Defined.

End Placement.
