(* ===== verification/Compositor.v ===== *)
(** The compositor (src/app.py lines 99-116): the product is pasted on
    the template with its own alpha channel as the mask, the price label is
    drawn centred on a fixed point, and the result is flattened to RGB.

    [paste] transcribes PIL's [ImagingPaste] (the clipping of the pasted
    rectangle to the canvas) and [paste_mask_RGBA] (every one of the four
    bytes of a covered pixel becomes [BLEND(a, out, in)] where [a] is the
    mask's alpha), with PIL's integer arithmetic [MULDIV255]. Text
    rasterisation is library code: [TextDrawing] is its interface, whose
    law is that drawing changes no pixel outside the text's box. *)

From S2P Require Import Prelude Raster Placement.
Import Raster Placement.

Module Compositor.

(** ** PIL's blending arithmetic *)

(** [#define MULDIV255(a, b, tmp) (tmp = (a) * (b) + 128, ((((tmp) >> 8) + (tmp)) >> 8))] *)
Definition muldiv255 (a b : Z) : Z :=
  let tmp := a * b + 128 in Z.shiftr (Z.shiftr tmp 8 + tmp) 8.

(** [#define BLEND(mask, in1, in2, tmp1) (MULDIV255(in1, (255 - mask), tmp1) + MULDIV255(in2, mask, tmp1))] *)
Definition blend (mask in1 in2 : Z) : Z :=
  muldiv255 in1 (255 - mask) + muldiv255 in2 mask.

(** The inner loop body of [paste_mask_RGBA] for one pixel: the four bytes
    blended with the same mask byte. *)
Definition blend_pixel (a : Z) (out in_ : pixel) : pixel :=
  Pixel (blend a (red out) (red in_)) (blend a (green out) (green in_))
        (blend a (blue out) (blue in_)) (blend a (alpha out) (alpha in_)).

(** ** [Image.paste(im, (x, y), mask)] *)

(** The clipping of [ImagingPaste]: the rectangle of [src] placed at
    [(dx, dy)] is cut to the canvas; returns the source offset [(sx0, sy0)],
    the destination corner [(dx0, dy0)] and the clipped size. *)
Definition paste_region (canvas src : image) (pos : Z * Z) : Z * Z * Z * Z * Z * Z :=
  let '(dx, dy) := pos in
  let '(sx0, dx0, xsize) :=
    if dx <? 0 then (- dx, 0, width src + dx) else (0, dx, width src) in
  let xsize := if dx0 + xsize >? width canvas then width canvas - dx0 else xsize in
  let '(sy0, dy0, ysize) :=
    if dy <? 0 then (- dy, 0, height src + dy) else (0, dy, height src) in
  let ysize := if dy0 + ysize >? height canvas then height canvas - dy0 else ysize in
  (sx0, sy0, dx0, dy0, xsize, ysize).

(** [template.paste(processed_image, (product_x, product_y), processed_image)]:
    nothing happens when the clipped region is empty; otherwise each pixel of
    the region is blended with the source pixel over it, under that pixel's
    alpha. *)
Definition paste (canvas src : image) (pos : Z * Z) : image :=
  let '(sx0, sy0, dx0, dy0, xsize, ysize) := paste_region canvas src pos in
  if (xsize <=? 0) || (ysize <=? 0) then canvas
  else
    tabulate (img_mode canvas) (width canvas) (height canvas) (fun x y =>
      let out := getpixel canvas x y in
      if zin dx0 x (dx0 + xsize) && zin dy0 y (dy0 + ysize) then
        let in_ := getpixel src (x - dx0 + sx0) (y - dy0 + sy0) in
        blend_pixel (alpha in_) out in_
      else out).

(** ** The price label (lines 106-113) *)

Definition font_path : string := "/usr/share/fonts/truetype/dejavu/DejaVuSans-Bold.ttf".
Definition font_size : Z := 38.

(** [price_x = (769 + 932) // 2], [price_y = (1193 + 1323) // 2]. *)
Definition price_anchor : Z * Z := ((769 + 932) / 2, (1193 + 1323) / 2).

(** [f"AED {price}"]: the price is inserted verbatim. *)
Definition price_label (price : string) : string := String.append "AED " price.

(** [draw.text(xy, text, fill="white", font=font, anchor="mm")]: the glyphs
    are the font library's; what the program relies on is where they can
    land. *)
Class TextDrawing := {
  draw_text : image -> Z * Z -> string -> image;
  (** the box [ImageDraw.textbbox] gives for the text at the anchor *)
  text_box : Z * Z -> string -> box;
  draw_text_wf img xy s : wf img -> wf (draw_text img xy s);
  draw_text_mode img xy s : img_mode (draw_text img xy s) = img_mode img;
  draw_text_size img xy s : size (draw_text img xy s) = size img;
  draw_text_local img xy s x y :
    ~ (left (text_box xy s) <= x < right (text_box xy s) /\
       upper (text_box xy s) <= y < lower (text_box xy s)) ->
    getpixel (draw_text img xy s) x y = getpixel img x y
}.

(** ** The composition (lines 100-116) *)

Section WithText.
Context `{TextDrawing}.

(** Placement, paste, label and [template.convert("RGB")]: the image that
    is saved as JPEG. *)
Definition compose (template processed_image : image) (price : string) : image :=
  let '(product_x, product_y) := calculate_position template processed_image in
  let pasted := paste template processed_image (product_x, product_y) in
  let labelled := draw_text pasted price_anchor (price_label price) in
  convert RGB labelled.

End WithText.

(** ** A model of the text interface and sample images

    A renderer that draws nothing inside an empty box meets the interface;
    it lets the composition run on concrete images. *)

#[export] Instance blank_text : TextDrawing := {|
  draw_text := fun img _ _ => img;
  text_box := fun xy _ => Box (fst xy) (snd xy) (fst xy) (snd xy);
  draw_text_wf := fun _ _ _ H => H;
  draw_text_mode := fun _ _ _ => eq_refl;
  draw_text_size := fun _ _ _ => eq_refl;
  draw_text_local := fun _ _ _ _ _ _ => eq_refl
|}.

(** A 3x3 opaque white canvas and a 2x2 product whose top-left pixel is
    opaque red, top-right half transparent blue, and bottom row transparent. *)
Definition sample_canvas : image := tabulate RGBA 3 3 (fun _ _ => Pixel 255 255 255 255).
Definition sample_src : image :=
  tabulate RGBA 2 2 (fun x y =>
    if y =? 0 then (if x =? 0 then Pixel 255 0 0 255 else Pixel 0 0 255 128)
    else Pixel 0 0 0 0).

(** ** Blending arithmetic *)

Definition byte (v : Z) : Prop := 0 <= v < 256.

(** [MULDIV255(a, b)] is [a * b / 255] rounded to nearest, for bytes
    (checked on all 65536 pairs). *)
Lemma muldiv255_round a b :
  byte a -> byte b -> muldiv255 a b = (2 * a * b + 255) / 510.
Proof.
  intros Ha Hb. apply Z.eqb_eq.
  apply (forallb_zrange2 (fun a b => muldiv255 a b =? (2 * a * b + 255) / 510) 256 256);
    [vm_compute; reflexivity | done | done].
Qed.

(** Blending a value with itself gives it back, whatever the mask. *)
Lemma blend_same m v : byte m -> byte v -> blend m v v = v.
Proof.
  intros Hm Hv. apply Z.eqb_eq.
  apply (forallb_zrange2 (fun m v => blend m v v =? v) 256 256);
    [vm_compute; reflexivity | done | done].
Qed.

Lemma muldiv255_mono a a' b :
  byte a -> byte a' -> byte b -> a <= a' -> muldiv255 a b <= muldiv255 a' b.
Proof.
  intros Ha Ha' Hb Hle. rewrite !muldiv255_round by done. unfold byte in *.
  apply Z.div_le_mono; [lia | nia].
Qed.

(** A blend lies between its two inputs; in particular it is a byte. *)
Lemma blend_between m d s :
  byte m -> byte d -> byte s ->
  Z.min d s <= blend m d s <= Z.max d s.
Proof.
  intros Hm Hd Hs. unfold blend.
  assert (Hm' : byte (255 - m)) by (unfold byte in *; lia).
  pose proof (blend_same m (Z.min d s)) as Hlo. pose proof (blend_same m (Z.max d s)) as Hhi.
  unfold blend in Hlo, Hhi. unfold byte in *.
  pose proof (muldiv255_mono (Z.min d s) d (255 - m)).
  pose proof (muldiv255_mono d (Z.max d s) (255 - m)).
  pose proof (muldiv255_mono (Z.min d s) s m).
  pose proof (muldiv255_mono s (Z.max d s) m).
  unfold byte in *. split; lia.
Qed.

Lemma muldiv255_0 a : muldiv255 a 0 = 0.
Proof. unfold muldiv255. by rewrite Z.mul_0_r. Qed.

Lemma muldiv255_255 a : byte a -> muldiv255 a 255 = a.
Proof.
  intros Ha. rewrite muldiv255_round by (unfold byte in *; lia).
  replace (2 * a * 255 + 255) with (255 + a * 510) by lia.
  rewrite Z.div_add by lia. done.
Qed.

(** Under a fully opaque mask the source byte replaces the canvas byte;
    under a fully transparent one the canvas byte stays. *)
Lemma blend_opaque d s : byte s -> blend 255 d s = s.
Proof. intros Hs. unfold blend. rewrite Z.sub_diag, muldiv255_0, muldiv255_255; done. Qed.

Lemma blend_transparent d s : byte d -> blend 0 d s = d.
Proof. intros Hd. unfold blend. rewrite Z.sub_0_r, muldiv255_0, muldiv255_255; [lia | done]. Qed.

(** ** Paste *)

(** The clipped region is the intersection of the pasted rectangle with
    the canvas, and the source offset follows the destination corner. *)
Lemma paste_region_spec canvas src dx dy sx0 sy0 dx0 dy0 xs ys :
  paste_region canvas src (dx, dy) = (sx0, sy0, dx0, dy0, xs, ys) ->
  dx0 = Z.max dx 0 /\ dx0 + xs = Z.min (dx + width src) (width canvas) /\
  sx0 = dx0 - dx /\
  dy0 = Z.max dy 0 /\ dy0 + ys = Z.min (dy + height src) (height canvas) /\
  sy0 = dy0 - dy.
Proof.
  unfold paste_region.
  destruct (Z.ltb_spec dx 0), (Z.ltb_spec dy 0); simpl; rewrite !Z.gtb_ltb;
    zcase; intros [= <- <- <- <- <- <-]; lia.
Qed.

Lemma paste_cases canvas src dx dy x y :
  let '(w, h) := size src in
  getpixel (paste canvas src (dx, dy)) x y =
  if zin 0 x (width canvas) && zin 0 y (height canvas) &&
     zin dx x (dx + w) && zin dy y (dy + h)
  then let in_ := getpixel src (x - dx) (y - dy) in
       blend_pixel (alpha in_) (getpixel canvas x y) in_
  else getpixel canvas x y.
Proof.
  unfold size, paste.
  destruct (paste_region canvas src (dx, dy)) as [[[[[sx0 sy0] dx0] dy0] xs] ys] eqn:E.
  apply paste_region_spec in E as (Hdx & Hxs & Hsx & Hdy & Hys & Hsy).
  destruct (zin 0 x _ && zin 0 y _ && zin dx x _ && zin dy y _) eqn:Ein.
  - rewrite !andb_true_iff, !zin_spec in Ein.
    destruct ((xs <=? 0) || (ys <=? 0)) eqn:Ee.
    { exfalso. rewrite orb_true_iff, !Z.leb_le in Ee. lia. }
    rewrite getpixel_tabulate by lia.
    replace (zin dx0 x (dx0 + xs) && zin dy0 y (dy0 + ys)) with true
      by (symmetry; rewrite andb_true_iff, !zin_spec; lia).
    do 3 f_equal; lia.
  - destruct ((xs <=? 0) || (ys <=? 0)); [done|].
    destruct (decide (0 <= x < width canvas /\ 0 <= y < height canvas)) as [Hin|Hout].
    + rewrite getpixel_tabulate by lia.
      replace (zin dx0 x (dx0 + xs) && zin dy0 y (dy0 + ys)) with false; [done|].
      symmetry. apply not_true_iff_false. rewrite andb_true_iff, !zin_spec.
      intros Hr. apply not_true_iff_false in Ein. apply Ein.
      rewrite !andb_true_iff, !zin_spec. lia.
    + by rewrite !getpixel_out.
Qed.

Lemma paste_size canvas src pos : size (paste canvas src pos) = size canvas.
Proof.
  destruct pos as [dx dy]. unfold paste.
  destruct (paste_region _ _ _) as [[[[[? ?] ?] ?] ?] ?]. by destruct (_ || _).
Qed.

Lemma paste_mode canvas src pos : img_mode (paste canvas src pos) = img_mode canvas.
Proof.
  destruct pos as [dx dy]. unfold paste.
  destruct (paste_region _ _ _) as [[[[[? ?] ?] ?] ?] ?]. by destruct (_ || _).
Qed.

Lemma blend_pixel_ok a out in_ :
  byte a -> pixel_ok out -> pixel_ok in_ -> pixel_ok (blend_pixel a out in_).
Proof.
  intros Ha (Hr & Hg & Hb & Hal) (Hr' & Hg' & Hb' & Hal').
  unfold channel_ok in *.
  pose proof (blend_between a (red out) (red in_) Ha Hr Hr').
  pose proof (blend_between a (green out) (green in_) Ha Hg Hg').
  pose proof (blend_between a (blue out) (blue in_) Ha Hb Hb').
  pose proof (blend_between a (alpha out) (alpha in_) Ha Hal Hal').
  repeat split; simpl; lia.
Qed.

Lemma paste_frame canvas src dx dy x y :
  ~ (dx <= x < dx + width src /\ dy <= y < dy + height src) ->
  getpixel (paste canvas src (dx, dy)) x y = getpixel canvas x y.
Proof.
  intros Hout. pose proof (paste_cases canvas src dx dy x y) as Hc. unfold size in Hc.
  rewrite Hc. destruct (_ && _ && _ && _) eqn:E; [|done].
  exfalso. apply Hout. rewrite !andb_true_iff, !zin_spec in E. lia.
Qed.

(** C13. Pasting changes no pixel outside the pasted rectangle, wherever
    the rectangle lies (negative or off-canvas positions included). *)
Theorem paste_outside canvas src dx dy x y :
  ~ (dx <= x < dx + width src /\ dy <= y < dy + height src) ->
  getpixel (paste canvas src (dx, dy)) x y = getpixel canvas x y.
Proof. apply paste_frame. Qed.

(** C5. Inside the canvas and the rectangle, the product's alpha is the
    mask: an opaque product pixel replaces the template pixel, a fully
    transparent one leaves it, and any other blends all four bytes. *)
Theorem paste_inside canvas src dx dy x y :
  wf canvas -> wf src ->
  0 <= x < width canvas -> 0 <= y < height canvas ->
  dx <= x < dx + width src -> dy <= y < dy + height src ->
  let s := getpixel src (x - dx) (y - dy) in
  let c := getpixel canvas x y in
  getpixel (paste canvas src (dx, dy)) x y = blend_pixel (alpha s) c s /\
  (alpha s = 255 -> getpixel (paste canvas src (dx, dy)) x y = s) /\
  (alpha s = 0 -> getpixel (paste canvas src (dx, dy)) x y = c).
Proof.
  intros Hc Hs Hx Hy Hdx Hdy. cbv zeta.
  pose proof (paste_cases canvas src dx dy x y) as Hp. unfold size in Hp.
  replace (zin 0 x _ && _ && _ && _) with true in Hp
    by (symmetry; rewrite !andb_true_iff, !zin_spec; lia).
  rewrite Hp. clear Hp.
  pose proof (getpixel_ok src (x - dx) (y - dy) Hs) as Hsp.
  pose proof (getpixel_ok canvas x y Hc) as Hcp.
  destruct (getpixel src (x - dx) (y - dy)) as [r g b a].
  destruct (getpixel canvas x y) as [r' g' b' a'].
  destruct Hsp as (? & ? & ? & ?), Hcp as (? & ? & ? & ?). simpl in *.
  unfold blend_pixel. simpl.
  split_and!; [done | intros -> | intros ->].
  - by rewrite !blend_opaque.
  - by rewrite !blend_transparent.
Qed.

Lemma paste_wf_size canvas src pos :
  wf canvas -> wf src -> wf (paste canvas src pos) /\ size (paste canvas src pos) = size canvas.
Proof.
  intros Hc Hs. split; [|apply paste_size]. destruct pos as [dx dy].
  unfold paste. destruct (paste_region _ _ _) as [[[[[sx0 sy0] dx0] dy0] xs] ys].
  destruct (_ || _); [done|]. pose proof Hc as (Hw & Hh & _).
  apply tabulate_wf; [done | done |]. intros x y.
  destruct (_ && _); [|by apply getpixel_ok].
  pose proof (getpixel_ok src (x - dx0 + sx0) (y - dy0 + sy0) Hs) as Hok.
  apply blend_pixel_ok; [|by apply getpixel_ok | done].
  destruct Hok as (_ & _ & _ & Ha). exact Ha.
Qed.

(** C14. Pasting preserves the image invariant: the result has the
    template's mode and size, and every channel is still a byte. *)
Theorem paste_wf canvas src pos :
  wf canvas -> wf src -> wf (paste canvas src pos) /\ size (paste canvas src pos) = size canvas.
Proof. apply paste_wf_size. Qed.

(** ** The composed image *)

(** C4. The composed offer card shows the template everywhere outside the
    pasted rectangle and the label's box (spec section 8, round trip): such
    a pixel of the RGB output is the template's pixel with its alpha byte
    dropped. *)
Theorem compose_untouched `{TextDrawing} template product price x y :
  wf template -> wf product -> img_mode template = RGBA ->
  0 <= x < width template -> 0 <= y < height template ->
  let '(px, py) := calculate_position template product in
  ~ (px <= x < px + width product /\ py <= y < py + height product) ->
  ~ (left (text_box price_anchor (price_label price)) <= x <
       right (text_box price_anchor (price_label price)) /\
     upper (text_box price_anchor (price_label price)) <= y <
       lower (text_box price_anchor (price_label price))) ->
  getpixel (compose template product price) x y = convert_pixel (getpixel template x y).
Proof.
  intros Hwf Hwp Hm Hx Hy.
  destruct (calculate_position template product) as [px py] eqn:Epos.
  intros Hrect Htext. unfold compose. rewrite Epos.
  destruct (paste_wf_size template product (px, py) Hwf Hwp) as [Hwpa Hsz].
  pose proof (paste_mode template product (px, py)) as Hmode.
  set (pasted := paste template product (px, py)) in *.
  pose proof (draw_text_size pasted price_anchor (price_label price)) as Hsz'.
  rewrite Hsz in Hsz'. unfold size in Hsz'. injection Hsz' as Hw Hh.
  rewrite getpixel_convert by (try apply draw_text_wf; auto; lia).
  rewrite draw_text_mode, Hmode, Hm. simpl.
  rewrite draw_text_local by done. unfold pasted. by rewrite paste_frame.
Qed.

(** C30. The offer card is a well-formed RGB image of the template's
    size (the JPEG encoder's input type): pasting, drawing the label and
    converting keep the size and the byte range of every channel. *)
Theorem compose_wf `{TextDrawing} template product price :
  wf template -> wf product ->
  wf (compose template product price) /\ img_mode (compose template product price) = RGB /\
  size (compose template product price) = size template.
Proof.
  intros Ht Hp. unfold compose.
  destruct (calculate_position template product) as [px py].
  destruct (paste_wf_size template product (px, py) Ht Hp) as [Hw Hs].
  split_and!.
  - by apply convert_wf, draw_text_wf.
  - apply convert_mode.
  - by rewrite convert_size, draw_text_size.
Qed.

(** ** Witnesses *)

Lemma paste_outside_witness :
  ~ (1 <= 0 < 1 + width sample_src /\ 1 <= 0 < 1 + height sample_src) /\
  getpixel (paste sample_canvas sample_src (1, 1)) 0 0 = getpixel sample_canvas 0 0.
Proof.
  assert (H : ~ (1 <= 0 < 1 + width sample_src /\ 1 <= 0 < 1 + height sample_src)) by lia.
  split; [exact H | exact (paste_outside sample_canvas sample_src 1 1 0 0 H)].
Defined.

Lemma paste_inside_witness :
  wf sample_canvas /\ wf sample_src /\
  getpixel (paste sample_canvas sample_src (1, 1)) 1 1 = Pixel 255 0 0 255 /\
  getpixel (paste sample_canvas sample_src (1, 1)) 2 1 = Pixel 127 127 255 191.
Proof.
  assert (Hc : wf sample_canvas) by (apply (bool_decide_unpack (wf _)); vm_compute; exact I).
  assert (Hs : wf sample_src) by (apply (bool_decide_unpack (wf _)); vm_compute; exact I).
  pose proof (paste_inside sample_canvas sample_src 1 1 1 1 Hc Hs
                ltac:(simpl; lia) ltac:(simpl; lia) ltac:(simpl; lia) ltac:(simpl; lia)) as Hp.
  cbv zeta in Hp. destruct Hp as (_ & Hop & _).
  split_and!; [exact Hc | exact Hs | | vm_compute; reflexivity].
  rewrite Hop by (vm_compute; reflexivity). vm_compute. reflexivity.
Defined.

Lemma paste_wf_witness :
  wf sample_canvas /\ wf sample_src /\ wf (paste sample_canvas sample_src (1, 1)).
Proof.
  assert (Hc : wf sample_canvas) by (apply (bool_decide_unpack (wf _)); vm_compute; exact I).
  assert (Hs : wf sample_src) by (apply (bool_decide_unpack (wf _)); vm_compute; exact I).
  split_and!; [exact Hc | exact Hs | exact (proj1 (paste_wf _ _ (1, 1) Hc Hs))].
Defined.

Lemma compose_untouched_witness :
  wf sample_canvas /\ wf sample_src /\
  getpixel (compose sample_canvas sample_src "199") 0 0 = Pixel 255 255 255 255.
Proof.
  assert (Hc : wf sample_canvas) by (apply (bool_decide_unpack (wf _)); vm_compute; exact I).
  assert (Hs : wf sample_src) by (apply (bool_decide_unpack (wf _)); vm_compute; exact I).
  split_and!; [exact Hc | exact Hs |].
  pose proof (compose_untouched sample_canvas sample_src "199" 0 0 Hc Hs eq_refl
                ltac:(simpl; lia) ltac:(simpl; lia)) as Hk.
  simpl in Hk. unfold table_center_y in Hk. rewrite Hk; [vm_compute; reflexivity | lia | lia].
Defined.

Lemma compose_wf_witness :
  wf sample_canvas /\ wf sample_src /\
  wf (compose sample_canvas sample_src "199") /\
  img_mode (compose sample_canvas sample_src "199") = RGB /\
  size (compose sample_canvas sample_src "199") = size sample_canvas.
Proof.
  assert (Hc : wf sample_canvas) by (apply (bool_decide_unpack (wf _)); vm_compute; exact I).
  assert (Hs : wf sample_src) by (apply (bool_decide_unpack (wf _)); vm_compute; exact I).
  refine (conj Hc (conj Hs _)).
  exact (compose_wf sample_canvas sample_src "199" Hc Hs).
Defined.

End Compositor.
