(* ===== verification/Store.v ===== *)
(** The file store the program shares between requests, and the effects
    the handler has on it (src/app.py lines 10-16, 89-91, 99, 116-117).

    The store maps resolved paths to file contents and records which
    directories exist. A path is looked up the way the kernel does it,
    one component at a time ([lookup_dirs]): every component followed by
    another must be an existing directory ([FileNotFoundError] when it is
    missing, [NotADirectoryError] when it is a file), and [..] goes back
    to the parent of the directory reached. The file it names is then
    [normpath path] (Python's [posixpath.normpath]), so
    ["static/uploads/../template.jpg"] is the template when
    [static/uploads] is a directory. Opening a directory as a file raises
    [IsADirectoryError]; reading a missing file raises
    [FileNotFoundError]. [os.makedirs] follows CPython's recursion and
    fails as [os.mkdir] does.

    The handler runs in the monad [M]: a function from the store to an
    [outcome] and the store. An exception keeps the effects done before it,
    as in Python; [x <- m ;; k] is its bind. *)

From S2P Require Import Prelude.
From Stdlib Require Import Ascii.

Module Store.

(** ** Files and paths *)

Definition bytes := list Z.

Record fs := FS { files : gmap string bytes; dirs : gset string }.

Definition slash : Ascii.ascii := "/"%char.

(** [s.split('/')]. *)
Fixpoint split_slash (s : string) : list string :=
  match s with
  | EmptyString => [EmptyString]
  | String c rest =>
      if Ascii.eqb c slash then EmptyString :: split_slash rest
      else match split_slash rest with
           | [] => [String c EmptyString]
           | w :: ws => String c w :: ws
           end
  end.

(** ['/'.join(parts)]. *)
Fixpoint join_slash (parts : list string) : string :=
  match parts with
  | [] => EmptyString
  | [p] => p
  | p :: ps => p +:+ "/" +:+ join_slash ps
  end.

Definition starts_with_slash (s : string) : bool :=
  match s with String c _ => Ascii.eqb c slash | EmptyString => false end.

Fixpoint ends_with_slash (s : string) : bool :=
  match s with
  | EmptyString => false
  | String c EmptyString => Ascii.eqb c slash
  | String _ rest => ends_with_slash rest
  end.

(** [posixpath.join(a, b)]: an absolute [b] replaces [a]. *)
Definition path_join (a b : string) : string :=
  if starts_with_slash b then b
  else if String.eqb a "" || ends_with_slash a then a +:+ b
  else a +:+ "/" +:+ b.

(** The loop of [posixpath.normpath] over the components. *)
Fixpoint norm_comps (absolute : bool) (acc : list string) (comps : list string)
    : list string :=
  match comps with
  | [] => acc
  | c :: cs =>
      if String.eqb c "" || String.eqb c "." then norm_comps absolute acc cs
      else if negb (String.eqb c "..") ||
              (negb absolute && bool_decide (acc = [])) ||
              bool_decide (last acc = Some "..")
      then norm_comps absolute (acc ++ [c]) cs
      else norm_comps absolute (removelast acc) cs
  end.

(** [posixpath.normpath(path)], without the special case of exactly two
    leading slashes, which no path of the program has. *)
Definition normpath (path : string) : string :=
  if String.eqb path "" then "."
  else
    let absolute := starts_with_slash path in
    let p := join_slash (norm_comps absolute [] (split_slash path)) in
    let p := if absolute then "/" +:+ p else p in
    if String.eqb p "" then "." else p.

(** [posixpath.dirname] of a resolved path: everything before the last
    slash (without the trailing slash), or [""] for a bare name. *)
Definition dirname (path : string) : string :=
  join_slash (removelast (split_slash path)).

(** A file name that stays inside the directory it is joined to: no
    slash, and not [""], ["."] or [".."]. *)
Definition plain_name (n : string) : bool :=
  forallb (fun c => negb (Ascii.eqb c slash)) (String.list_ascii_of_string n) &&
  negb (String.eqb n "") && negb (String.eqb n ".") && negb (String.eqb n "..").

(** ** The monad *)

Definition M (A : Type) : Type := fs -> outcome A * fs.

Definition ret {A} (a : A) : M A := fun s => (Ok a, s).

Definition bind {A B} (m : M A) (k : A -> M B) : M B := fun s =>
  match m s with
  | (Ok a, s') => k a s'
  | (Raise e, s') => (Raise e, s')
  end.

Notation "x <- m ;; k" := (bind m (fun x => k))
  (at level 100, m at next level, right associativity) : offer_scope.
Notation "m ;;; k" := (bind m (fun _ => k))
  (at level 100, right associativity) : offer_scope.

Definition raise {A} (e : exn) : M A := fun s => (Raise e, s).

(** A pure fallible computation inside the handler. *)
Definition lift {A} (o : outcome A) : M A := fun s => (o, s).

(** ** Looking a path up

    The kernel resolves a path one component at a time: every component
    followed by another one must name a directory that exists, and [..]
    goes back to the parent of the directory reached. Only then is the
    last component looked up. The resolved path is [normpath path]. *)

(** [os.path.isdir] of a resolved path. *)
Definition is_dir (s : fs) (p : string) : bool :=
  String.eqb p "." || String.eqb p "/" || bool_decide (p ∈ dirs s).

(** The key of the resolved components [acc]. *)
Definition comps_path (absolute : bool) (acc : list string) : string :=
  if absolute then "/" +:+ join_slash acc else join_slash acc.

(** The directory [..] leads to, as [norm_comps] computes it. *)
Definition parent_comps (absolute : bool) (acc : list string) : list string :=
  if (negb absolute && bool_decide (acc = [])) || bool_decide (last acc = Some "..")
  then acc ++ [".."] else removelast acc.

(** The lookup of the directories of a path: [ENOTDIR] when a component
    that must be a directory is a file, [ENOENT] when it is missing. *)
Fixpoint lookup_dirs (s : fs) (absolute : bool) (acc : list string) (comps : list string)
    : outcome unit :=
  match comps with
  | [] | [_] => Ok tt
  | c :: cs =>
      if String.eqb c "" || String.eqb c "." then lookup_dirs s absolute acc cs
      else if String.eqb c ".." then lookup_dirs s absolute (parent_comps absolute acc) cs
      else
        let d := comps_path absolute (acc ++ [c]) in
        if bool_decide (d ∈ dirs s) then lookup_dirs s absolute (acc ++ [c]) cs
        else if bool_decide (is_Some (files s !! d)) then Raise NotADirectoryError
        else Raise FileNotFoundError
  end.

Definition lookup_path (s : fs) (path : string) : outcome unit :=
  lookup_dirs s (starts_with_slash path) [] (split_slash path).

(** [os.path.exists(path)]: [stat] of the resolved path. *)
Definition path_exists (path : string) : M bool := fun s =>
  let p := normpath path in
  (Ok (is_dir s p || bool_decide (is_Some (files s !! p))), s).

(** [os.mkdir(path)]. *)
Definition mkdir (path : string) : M unit := fun s =>
  match lookup_path s path with
  | Raise e => (Raise e, s)
  | Ok _ =>
      let p := normpath path in
      if is_dir s p || bool_decide (is_Some (files s !! p)) then (Raise FileExistsError, s)
      else (Ok tt, FS (files s) ({[p]} ∪ dirs s))
  end.

(** [try: m except FileExistsError: pass]. *)
Definition catch_exists (m : M unit) : M unit := fun s =>
  match m s with
  | (Raise FileExistsError, s') => (Ok tt, s')
  | r => r
  end.

(** [os.makedirs(name)] on the components of [name] in reverse order:
    [head, tail = path.split(name)]; when [head] does not exist it is made
    first (a [FileExistsError] from it is ignored); then [mkdir(name)].
    The cases of an empty [tail] and of [tail == "."] do not arise for a
    name without a trailing slash or a last [.] component. *)
Fixpoint makedirs_rev (rcs : list string) : M unit :=
  match rcs with
  | [] => ret tt
  | _ :: rhead =>
      let head := join_slash (rev rhead) in
      (if String.eqb head "" then ret tt
       else e <- path_exists head ;;
            if e then ret tt else catch_exists (makedirs_rev rhead)) ;;;
      mkdir (join_slash (rev rcs))
  end.

Definition makedirs (path : string) : M unit := makedirs_rev (rev (split_slash path)).

(** [open(path, "wb")] and writing [b]: the directories are looked up
    and the resolved path must not be a directory. A name with a trailing
    slash is looked up as a directory, so writing it always fails. *)
Definition write_file (path : string) (b : bytes) : M unit := fun s =>
  match lookup_path s path with
  | Raise e => (Raise e, s)
  | Ok _ =>
      let p := normpath path in
      if is_dir s p then (Raise IsADirectoryError, s)
      else (Ok tt, FS (<[p := b]> (files s)) (dirs s))
  end.

(** [open(path, "rb").read()]. *)
Definition read_file (path : string) : M bytes := fun s =>
  match lookup_path s path with
  | Raise e => (Raise e, s)
  | Ok _ =>
      let p := normpath path in
      match files s !! p with
      | Some b => (Ok b, s)
      | None => (Raise (if is_dir s p then IsADirectoryError else FileNotFoundError), s)
      end
  end.

(** ** The program's paths and its start-up code (lines 10-16) *)

Definition UPLOAD_FOLDER : string := "static/uploads".
Definition TEMPLATE_PATH : string := "static/template.jpg".
Definition FINAL_IMAGE_PATH : string := "static/final_image.jpg".

(** [if not os.path.exists(UPLOAD_FOLDER): os.makedirs(UPLOAD_FOLDER)] *)
Definition startup : M unit :=
  e <- path_exists UPLOAD_FOLDER ;;
  if e then ret tt else makedirs UPLOAD_FOLDER.

(** A store in which every directory's parent is a directory, as in every
    file system. *)
Definition dirs_closed (s : fs) : Prop :=
  forall d, d ∈ dirs s -> dirname d = "" \/ dirname d ∈ dirs s.

(** ** Paths of uploads *)

Lemma split_slash_no_slash n :
  forallb (fun c => negb (Ascii.eqb c slash)) (String.list_ascii_of_string n) = true ->
  split_slash n = [n].
Proof.
  induction n as [|c n IH]; simpl; [done|].
  rewrite andb_true_iff. intros [Hc Hn]. apply negb_true_iff in Hc.
  rewrite Hc, IH by done. done.
Qed.

(** An upload with a plain name is saved inside the upload folder. *)
Lemma normpath_upload n :
  plain_name n = true ->
  normpath (path_join UPLOAD_FOLDER n) = "static/uploads/" +:+ n.
Proof.
  unfold plain_name. rewrite !andb_true_iff, !negb_true_iff.
  intros [[[Hs Hempty] Hdot] Hdotdot].
  assert (Hstart : starts_with_slash n = false).
  { destruct n as [|c n]; [done|]. simpl in *. apply andb_true_iff in Hs as [Hc _].
    by apply negb_true_iff in Hc. }
  unfold path_join. rewrite Hstart.
  unfold normpath. simpl. change ("" +:+ n) with n.
  rewrite (split_slash_no_slash n Hs). simpl.
  rewrite Hempty, Hdot, Hdotdot. reflexivity.
Qed.

(** ** Looking up the program's paths *)

Lemma lookup_dirs_name s a acc c cs :
  String.eqb c "" = false -> String.eqb c "." = false -> String.eqb c ".." = false ->
  cs <> [] ->
  lookup_dirs s a acc (c :: cs) =
  if bool_decide (comps_path a (acc ++ [c]) ∈ dirs s) then lookup_dirs s a (acc ++ [c]) cs
  else if bool_decide (is_Some (files s !! comps_path a (acc ++ [c]))) then Raise NotADirectoryError
  else Raise FileNotFoundError.
Proof. intros H1 H2 H3 Hcs. destruct cs; [done|]. simpl. by rewrite H1, H2, H3. Qed.

(** [static/<name>] is looked up when [static] is a directory. *)
Lemma lookup_in_static s path n :
  starts_with_slash path = false -> split_slash path = ["static"; n] ->
  "static" ∈ dirs s -> lookup_path s path = Ok tt.
Proof.
  intros Ha Hs Hd. unfold lookup_path. rewrite Ha, Hs, lookup_dirs_name by done.
  change (comps_path false ([] ++ ["static"])) with "static". by rewrite bool_decide_true.
Qed.

Lemma lookup_template s : "static" ∈ dirs s -> lookup_path s TEMPLATE_PATH = Ok tt.
Proof. by apply lookup_in_static with "template.jpg". Qed.

Lemma lookup_final s : "static" ∈ dirs s -> lookup_path s FINAL_IMAGE_PATH = Ok tt.
Proof. by apply lookup_in_static with "final_image.jpg". Qed.

Lemma split_slash_upload n :
  plain_name n = true -> split_slash (path_join UPLOAD_FOLDER n) = ["static"; "uploads"; n].
Proof.
  unfold plain_name. rewrite !andb_true_iff. intros [[[Hs _] _] _].
  assert (Hstart : starts_with_slash n = false).
  { destruct n as [|c n]; [done|]. simpl in *. apply andb_true_iff in Hs as [Hc _].
    by apply negb_true_iff in Hc. }
  unfold path_join. rewrite Hstart. simpl. change ("" +:+ n) with n.
  by rewrite (split_slash_no_slash n Hs).
Qed.

Lemma upload_relative n :
  plain_name n = true -> starts_with_slash (path_join UPLOAD_FOLDER n) = false.
Proof.
  unfold plain_name. rewrite !andb_true_iff. intros [[[Hs _] _] _].
  unfold path_join. destruct n as [|c n]; [done|]. simpl in *.
  apply andb_true_iff in Hs as [Hc _]. apply negb_true_iff in Hc. by rewrite Hc.
Qed.

(** An upload of a plain name is looked up when [static] and
    [static/uploads] are directories, and fails otherwise. *)
Lemma lookup_upload s n :
  plain_name n = true ->
  lookup_path s (path_join UPLOAD_FOLDER n) =
  if bool_decide ("static" ∈ dirs s) then
    if bool_decide ("static/uploads" ∈ dirs s) then Ok tt
    else if bool_decide (is_Some (files s !! "static/uploads")) then Raise NotADirectoryError
    else Raise FileNotFoundError
  else if bool_decide (is_Some (files s !! "static")) then Raise NotADirectoryError
  else Raise FileNotFoundError.
Proof.
  intros Hn. unfold lookup_path. rewrite upload_relative, split_slash_upload by done.
  rewrite lookup_dirs_name by done. change (comps_path false ([] ++ ["static"])) with "static".
  case_bool_decide; [|done]. rewrite lookup_dirs_name by done.
  change (comps_path false (([] ++ ["static"]) ++ ["uploads"])) with "static/uploads".
  case_bool_decide; [reflexivity|done].
Qed.

Lemma write_file_ok path b s :
  lookup_path s path = Ok tt -> is_dir s (normpath path) = false ->
  write_file path b s = (Ok tt, FS (<[normpath path := b]> (files s)) (dirs s)).
Proof. intros Hl Hd. unfold write_file. by rewrite Hl, Hd. Qed.

Lemma write_file_lookup_fail path b s e :
  lookup_path s path = Raise e -> write_file path b s = (Raise e, s).
Proof. intros Hl. unfold write_file. by rewrite Hl. Qed.

Lemma read_file_ok path s b :
  lookup_path s path = Ok tt -> files s !! normpath path = Some b -> read_file path s = (Ok b, s).
Proof. intros Hl Hf. unfold read_file. by rewrite Hl, Hf. Qed.

(** A path of [static] other than the working directory's own is a
    directory exactly when [dirs] records it. *)
Lemma is_dir_static s n :
  is_dir s ("static/" +:+ n) = bool_decide (("static/" +:+ n) ∈ dirs s).
Proof. done. Qed.

Lemma lookup_dirs_error s a acc cs e :
  lookup_dirs s a acc cs = Raise e -> e = NotADirectoryError \/ e = FileNotFoundError.
Proof.
  revert acc. induction cs as [|c cs IH]; intros acc; [done|].
  destruct cs as [|c' cs']; [done|]. cbn [lookup_dirs].
  destruct (_ || _); [apply IH|]. destruct (String.eqb c ".."); [apply IH|].
  case_bool_decide; [apply IH|]. case_bool_decide; intros [= <-]; auto.
Qed.

(** Reading never changes the store, and fails only with an error of the
    file system. *)
Lemma read_file_spec path s :
  snd (read_file path s) = s /\
  forall e, fst (read_file path s) = Raise e -> e <> BadRequestKeyError.
Proof.
  unfold read_file. destruct (lookup_path s path) as [[]|e] eqn:E; simpl.
  - destruct (files s !! _); simpl; [split; [done | by intros e ?]|].
    split; [done|]. intros e [= <-]. by destruct (is_dir _ _).
  - split; [done|]. intros e' [= <-]. apply lookup_dirs_error in E as [-> | ->]; done.
Qed.

(** ** The start-up code *)

Lemma mkdir_spec p s :
  let '(o, s') := mkdir p s in
  files s' = files s /\ dirs s ⊆ dirs s' /\ dirs s' ⊆ {[normpath p]} ∪ dirs s /\
  (o = Ok tt -> normpath p ∈ dirs s' /\ lookup_path s p = Ok tt).
Proof.
  unfold mkdir. destruct (lookup_path s p) as [[]|e] eqn:E; simpl; [|set_solver].
  destruct (_ || _); simpl; [set_solver|]. split_and!; [done | set_solver | set_solver |].
  intros _. split; [set_solver | done].
Qed.

(** Lines 15-16 unfolded: [makedirs] of [static/uploads] makes [static]
    first when it does not exist. *)
Lemma startup_eq s :
  startup s =
  if is_dir s "static/uploads" || bool_decide (is_Some (files s !! "static/uploads")) then (Ok tt, s)
  else if is_dir s "static" || bool_decide (is_Some (files s !! "static")) then mkdir "static/uploads" s
  else mkdir "static/uploads" (FS (files s) ({["static"]} ∪ dirs s)).
Proof.
  unfold startup, bind, path_exists. cbv zeta. change (normpath UPLOAD_FOLDER) with "static/uploads".
  destruct (is_dir s "static/uploads" || _); [done|].
  unfold makedirs. change (rev (split_slash UPLOAD_FOLDER)) with ["uploads"; "static"].
  cbn [makedirs_rev rev app join_slash String.eqb]. unfold bind, path_exists. cbv zeta.
  change (normpath "static") with "static".
  destruct (is_dir s "static" || _) eqn:Es; [done|].
  unfold catch_exists, bind, ret, mkdir at 1. cbv zeta.
  change (normpath "static") with "static". change (lookup_path s "static") with (@Ok unit tt).
  cbv iota. rewrite Es. reflexivity.
Qed.

Lemma lookup_uploads_dir s : lookup_path s "static/uploads" = Ok tt -> "static" ∈ dirs s.
Proof.
  unfold lookup_path. change (split_slash "static/uploads") with ["static"; "uploads"].
  rewrite lookup_dirs_name by done. change (comps_path false ([] ++ ["static"])) with "static".
  case_bool_decide; [done|]. by case_bool_decide.
Qed.

(** Start-up changes no file and adds at most [static] and
    [static/uploads] to the directories. *)
Lemma startup_frame s :
  files (snd (startup s)) = files s /\ dirs s ⊆ dirs (snd (startup s)) /\
  dirs (snd (startup s)) ⊆ {["static"; "static/uploads"]} ∪ dirs s.
Proof.
  rewrite startup_eq. destruct (_ || _).
  { cbn [snd]. split_and!; [done | done | generalize "static" "static/uploads"; set_solver]. }
  destruct (_ || _).
  - pose proof (mkdir_spec "static/uploads" s) as Hm. destruct (mkdir _ s) as [o s'].
    destruct Hm as (? & Hs1 & Hs2 & _). cbn [snd]. split_and!; [done | done |].
    change (normpath "static/uploads") with "static/uploads" in Hs2.
    clear - Hs2. revert Hs2. generalize "static" "static/uploads". set_solver.
  - pose proof (mkdir_spec "static/uploads" (FS (files s) ({["static"]} ∪ dirs s))) as Hm.
    destruct (mkdir _ _) as [o s']. destruct Hm as (? & Hs1 & Hs2 & _). cbn [snd files dirs] in *.
    change (normpath "static/uploads") with "static/uploads" in Hs2.
    split_and!; [done | | ]; clear - Hs1 Hs2; revert Hs1 Hs2;
      generalize "static" "static/uploads"; set_solver.
Qed.

(** A start-up that returns, from a store where [static/uploads] is no
    file, leaves [static] and [static/uploads] directories. *)
Lemma startup_ok s :
  fst (startup s) = Ok tt -> files s !! "static/uploads" = None -> dirs_closed s ->
  "static" ∈ dirs (snd (startup s)) /\ "static/uploads" ∈ dirs (snd (startup s)).
Proof.
  intros Hok Hf Hc. revert Hok. rewrite startup_eq, Hf. rewrite orb_false_r.
  destruct (is_dir s "static/uploads") eqn:Eu.
  - intros _. cbn [snd]. unfold is_dir in Eu. rewrite !orb_false_l in Eu.
    apply bool_decide_eq_true in Eu. split; [|done].
    destruct (Hc _ Eu) as [Hd|Hd]; [discriminate | exact Hd].
  - destruct (_ || _).
    + pose proof (mkdir_spec "static/uploads" s) as Hm. destruct (mkdir _ s) as [o s'].
      destruct Hm as (_ & Hsub & _ & Hm). cbn [fst snd]. intros ->.
      destruct (Hm eq_refl) as [Hu Hl]. apply lookup_uploads_dir in Hl. split; [by apply Hsub | done].
    + pose proof (mkdir_spec "static/uploads" (FS (files s) ({["static"]} ∪ dirs s))) as Hm.
      destruct (mkdir _ _) as [o s']. destruct Hm as (_ & Hsub & _ & Hm). cbn [fst snd]. intros ->.
      destruct (Hm eq_refl) as [Hu _]. split; [apply Hsub; cbn [dirs]; apply elem_of_union_l, elem_of_singleton; done | done].
Qed.

(** ** Footprints

    [writes_within W m]: running [m] changes no directory and no file
    outside the paths [W]. The handler's footprint is proved from the
    footprints of the primitives and the rule for [bind]. *)

Definition writes_within {A} (W : string -> Prop) (m : M A) : Prop :=
  forall s, dirs (snd (m s)) = dirs s /\
            forall p, ~ W p -> files (snd (m s)) !! p = files s !! p.

Section Footprints.
Context (W : string -> Prop).

Lemma ww_ret {A} (a : A) : writes_within W (ret a).
Proof. done. Qed.

Lemma ww_raise {A} e : writes_within W (raise (A:=A) e).
Proof. done. Qed.

Lemma ww_lift {A} (o : outcome A) : writes_within W (lift o).
Proof. done. Qed.

Lemma ww_read path : writes_within W (read_file path).
Proof. intros s. unfold read_file. destruct (lookup_path s path); [|done]. by destruct (files s !! _). Qed.

Lemma ww_exists path : writes_within W (path_exists path).
Proof. done. Qed.

Lemma ww_write path b : W (normpath path) -> writes_within W (write_file path b).
Proof.
  intros HW s. unfold write_file. destruct (lookup_path s path); [|done].
  destruct (is_dir s _); simpl; [done|].
  split; [done|]. intros p Hp. rewrite lookup_insert_ne; [done|].
  intros Heq. apply Hp. by rewrite <- Heq.
Qed.

Lemma ww_bind {A B} (m : M A) (k : A -> M B) :
  writes_within W m -> (forall a, writes_within W (k a)) -> writes_within W (bind m k).
Proof.
  intros Hm Hk s. unfold bind. destruct (Hm s) as [Hd Hf].
  destruct (m s) as [[a|e] s'] eqn:E; simpl in *; [|done].
  destruct (Hk a s') as [Hd' Hf']. split; [congruence|].
  intros p Hp. rewrite Hf', Hf; done.
Qed.

Lemma ww_bind_after {A B} (m : M A) (k : A -> M B) s o s1 p :
  m s = (o, s1) -> (forall a, writes_within W (k a)) -> ~ W p ->
  files (snd (bind m k s)) !! p = files s1 !! p.
Proof.
  intros Hm Hk Hp. unfold bind. rewrite Hm.
  destruct o as [a|e]; [|done]. by apply (Hk a s1).
Qed.

End Footprints.

Lemma ww_mono {A} (W W' : string -> Prop) (m : M A) :
  (forall p, W p -> W' p) -> writes_within W m -> writes_within W' m.
Proof.
  intros HW Hm s. destruct (Hm s) as [Hd Hf]. split; [done|].
  intros p Hp. apply Hf. intros HWp. by apply Hp, HW.
Qed.

Create HintDb footprint discriminated.
#[export] Hint Resolve ww_ret ww_raise ww_lift ww_read ww_exists ww_bind : footprint.

End Store.
