(* ===== verification/Handler.v ===== *)
(** The request handler [index] (src/app.py lines 75-119) with
    [download_image] (lines 18-23), and Flask's treatment of the exceptions
    it lets escape.

    The handler is a computation in [Store.M] over the shared file store.
    The network, the image decoder, the JPEG encoder and the font file are
    the interface [Environment]; rembg and the resampler are
    [Resizer.ImageServices]; text drawing is [Compositor.TextDrawing].
    The theorems cover every response of the spec (success through a URL
    or an upload, and each error), the footprint of a request, and the
    invariants of the stores the server reaches (the template, and the
    upload folder made by the start-up code). *)

From S2P Require Import Prelude Raster Cropper PyFloat Resizer Placement Compositor Store.
Import Raster Resizer Compositor Store.

Module Handler.

(** ** Requests and responses *)

Inductive method := GET | POST.

(** A [werkzeug.FileStorage]: the client's file name and the bytes. *)
Record upload := Upload { filename : string; content : bytes }.

Record request := Request {
  req_method : method;
  form : gmap string string;       (* request.form *)
  req_files : gmap string upload   (* request.files *)
}.

Inductive response :=
  | Page (template : string)                          (* render_template(...) *)
  | Text (body : string) (status : Z)                 (* return "...", 400 *)
  | File (body : bytes) (mimetype : string) (download_name : string)  (* send_file *)
  | HttpError (status : Z).                           (* an escaped exception *)

(** ** The environment *)

Class Environment := {
  (** [requests.get(url)]: [None] when the host cannot be reached (the call
      raises), otherwise the status code and the body *)
  http_get : string -> option (Z * bytes);
  (** [Image.open(...)] on the bytes: [None] when they are no image *)
  decode : bytes -> option image;
  (** [save(path, "JPEG")] *)
  encode_jpeg : image -> bytes;
  (** whether [/usr/share/fonts/truetype/dejavu/DejaVuSans-Bold.ttf] exists *)
  font_exists : bool;
  decode_wf b img : decode b = Some img -> wf img
}.

Section WithEnvironment.
Context `{ImageServices} `{TextDrawing} `{Environment}.

(** [Image.open(...)]: raises when the bytes are no image. *)
Definition open_image (b : bytes) : M image :=
  match decode b with
  | Some img => ret img
  | None => raise UnidentifiedImageError
  end.

(** [download_image(url)] *)
Definition download_image (url : string) : M (option image) :=
  match http_get url with
  | None => raise ConnectionError
  | Some (status_code, body) =>
      if status_code =? 200 then
        img <- open_image body ;;
        ret (Some (convert RGBA img))
      else ret None
  end.

(** [request.form[key]] raises [BadRequestKeyError] when the key is
    missing; [request.form.get(key, d)] does not. *)
Definition form_item (req : request) (key : string) : M string :=
  match form req !! key with
  | Some v => ret v
  | None => raise BadRequestKeyError
  end.

Definition form_get (req : request) (key d : string) : string :=
  default d (form req !! key).

(** Step 1 of the handler (lines 84-93): the product image, or the early
    [400] response. A [FileStorage] is truthy when its file name is not
    empty. *)
Definition load_product (req : request) : M (response + image) :=
  let image_url := form_get req "product_image_url" "" in
  if negb (String.eqb image_url "") then
    product_image <- download_image image_url ;;
    match product_image with
    | None => ret (inl (Text "Invalid Image URL" 400))
    | Some img => ret (inr img)
    end
  else
    match req_files req !! "product_image" with
    | Some uploaded_file =>
        if negb (String.eqb (filename uploaded_file) "") then
          let image_path := path_join UPLOAD_FOLDER (filename uploaded_file) in
          write_file image_path (content uploaded_file) ;;;
          b <- read_file image_path ;;
          img <- open_image b ;;
          ret (inr (convert RGBA img))
        else ret (inl (Text "No image provided!" 400))
    | None => ret (inl (Text "No image provided!" 400))
    end.

(** Steps 2-6 (lines 96-117). The font is loaded at line 109, after the
    paste; the paste is pure, so checking the font before [compose] is the
    same computation. [send_file] (line 117) is the read of the output
    file: with the server started from its own folder, Flask's
    [app.root_path] is the working directory and the file read is the one
    line 116 saved. *)
Definition render (price : string) (product_image : image) : M response :=
  processed_image <- lift (process_image product_image) ;;
  t <- read_file TEMPLATE_PATH ;;
  template <- open_image t ;;
  (if font_exists then ret tt else raise OSError) ;;;
  let final := compose (convert RGBA template) processed_image price in
  write_file FINAL_IMAGE_PATH (encode_jpeg final) ;;;
  body <- read_file FINAL_IMAGE_PATH ;;
  ret (File body "image/jpeg" "whatsapp_offer.jpg").

Definition index (req : request) : M response :=
  match req_method req with
  | GET => ret (Page "index.html")
  | POST =>
      product_name <- form_item req "product_name" ;;
      price <- form_item req "price" ;;
      src <- load_product req ;;
      match src with
      | inl resp => ret resp
      | inr product_image => render price product_image
      end
  end.

(** Flask: a [BadRequestKeyError] becomes a 400 page, any other escaped
    exception a 500 page; the store keeps the effects done before it. *)
Definition serve (req : request) (s : fs) : response * fs :=
  match index req s with
  | (Ok r, s') => (r, s')
  | (Raise BadRequestKeyError, s') => (HttpError 400, s')
  | (Raise _, s') => (HttpError 500, s')
  end.

(** A request whose upload, if any, has a plain file name. *)
Definition plain_upload (req : request) : Prop :=
  forall f, req_files req !! "product_image" = Some f -> plain_name (filename f) = true.

(** The stores the running server can reach from [s0]: the start-up code,
    then any sequence of requests with plain upload names. *)
Inductive reachable (s0 : fs) : fs -> Prop :=
  | reach_init : reachable s0 s0
  | reach_startup s : reachable s0 s -> reachable s0 (snd (startup s))
  | reach_serve s req : reachable s0 s -> plain_upload req -> reachable s0 (snd (serve req s)).

End WithEnvironment.

(** The paths a request may write: the output file, and the upload's path
    when the request carries a file. *)
Definition footprint (req : request) (p : string) : Prop :=
  p = normpath FINAL_IMAGE_PATH \/
  exists f, req_files req !! "product_image" = Some f /\
            p = normpath (path_join UPLOAD_FOLDER (filename f)).

(** ** A sample environment

    Two URLs serve 1000x2 products of different colours (bytes [[1]] and
    [[3]]), one answers 404, every other host is unreachable; bytes [[2]]
    decode to a 4x1670 template, whose last row the scaled product covers;
    the "JPEG" of an image is its size and the red byte at (0, 1669). *)

Definition sample_product_img : image := tabulate RGBA 1000 2 (fun _ _ => Pixel 9 9 9 255).
Definition sample_product_img' : image := tabulate RGBA 1000 2 (fun _ _ => Pixel 200 9 9 255).
Definition sample_template_img : image := tabulate RGB 4 1670 (fun _ _ => Pixel 1 2 3 255).

Definition sample_decode (b : bytes) : option image :=
  if decide (b = [1]) then Some sample_product_img
  else if decide (b = [3]) then Some sample_product_img'
  else if decide (b = [2]) then Some sample_template_img else None.

#[export] Instance sample_env : Environment := {|
  http_get := fun url =>
    if String.eqb url "http://shop/p.png" then Some (200, [1])
    else if String.eqb url "http://shop/q.png" then Some (200, [3])
    else if String.eqb url "http://shop/missing.png" then Some (404, [])
    else None;
  decode := sample_decode;
  encode_jpeg := fun img => [width img; height img; red (getpixel img 0 1669)];
  font_exists := true;
  decode_wf := ltac:(intros b img; unfold sample_decode;
                     repeat case_decide; intros [= <-];
                     apply (bool_decide_unpack (wf _)); vm_compute; exact I)
|}.

(** The same environment without the font file. *)
Definition sample_env_nofont : Environment := {|
  http_get := @http_get sample_env;
  decode := sample_decode;
  encode_jpeg := @encode_jpeg sample_env;
  font_exists := false;
  decode_wf := @decode_wf sample_env
|}.

Definition sample_store : fs :=
  FS {["static/template.jpg" := [2]]} {["static"; "static/uploads"]}.

Definition sample_request (url : string) (upload : option upload) : request :=
  Request POST {["product_name" := "Lamp"; "price" := "199"; "product_image_url" := url]}
          (match upload with Some u => {["product_image" := u]} | None => ∅ end).

(** ** Running the handler *)

Lemma bind_ok {A B} (m : M A) (k : A -> M B) s a s' :
  m s = (Ok a, s') -> bind m k s = k a s'.
Proof. unfold bind. by intros ->. Qed.

Lemma bind_raise {A B} (m : M A) (k : A -> M B) s e s' :
  m s = (Raise e, s') -> bind m k s = (Raise e, s').
Proof. unfold bind. by intros ->. Qed.

(** A POST request with both form fields present gets past lines 78-79. *)
Lemma index_post `{ImageServices} `{TextDrawing} `{Environment} req s name price :
  req_method req = POST ->
  form req !! "product_name" = Some name -> form req !! "price" = Some price ->
  index req s =
  bind (load_product req)
       (fun src => match src with
                   | inl resp => ret resp
                   | inr product_image => render price product_image
                   end) s.
Proof.
  intros Hm Hn Hp. unfold index. rewrite Hm.
  rewrite (bind_ok _ _ s name s) by (unfold form_item; by rewrite Hn).
  by rewrite (bind_ok _ _ s price s) by (unfold form_item; by rewrite Hp).
Qed.

Ltac footprint_step :=
  first [ apply ww_ret | apply ww_raise | apply ww_lift | apply ww_read
        | apply ww_write; solve [left; reflexivity | right; eexists; split; [eassumption | reflexivity]]
        | apply ww_bind; [|intros ?]
        | case_match ].

Lemma index_footprint `{ImageServices} `{TextDrawing} `{Environment} req :
  writes_within (footprint req) (index req).
Proof.
  unfold index, form_item, load_product, download_image, render, open_image.
  repeat footprint_step.
Qed.

(** ** Error responses *)

(** C10. Scenario 2 of the spec: a POST with no image URL (absent or empty)
    and no uploaded file (absent or with an empty name) is answered
    [400 "No image provided!"] and leaves the store as it was. *)
Theorem serve_no_image `{ImageServices} `{TextDrawing} `{Environment} req s name price :
  req_method req = POST ->
  form req !! "product_name" = Some name -> form req !! "price" = Some price ->
  form_get req "product_image_url" "" = "" ->
  (forall f, req_files req !! "product_image" = Some f -> filename f = "") ->
  serve req s = (Text "No image provided!" 400, s).
Proof.
  intros Hm Hn Hp Hurl Hf. unfold serve. rewrite (index_post req s name price) by done.
  unfold load_product. rewrite Hurl. simpl.
  destruct (req_files req !! "product_image") as [f|] eqn:Ef.
  - rewrite (Hf f eq_refl). done.
  - done.
Qed.

Lemma load_product_url `{ImageServices} `{TextDrawing} `{Environment} req s url :
  form_get req "product_image_url" "" = url -> url <> "" ->
  load_product req s =
  bind (download_image url)
       (fun product_image => match product_image with
                             | None => ret (inl (Text "Invalid Image URL" 400))
                             | Some img => ret (inr img)
                             end) s.
Proof.
  intros Hurl Hne. unfold load_product. rewrite Hurl.
  by destruct (String.eqb_spec url "").
Qed.

(** C11. A URL whose download answers with a status other than 200 gets
    [400 "Invalid Image URL"], with the store unchanged. *)
Theorem serve_bad_status `{ImageServices} `{TextDrawing} `{Environment}
    req s name price url status body :
  req_method req = POST ->
  form req !! "product_name" = Some name -> form req !! "price" = Some price ->
  form_get req "product_image_url" "" = url -> url <> "" ->
  http_get url = Some (status, body) -> status <> 200 ->
  serve req s = (Text "Invalid Image URL" 400, s).
Proof.
  intros Hm Hn Hp Hurl Hne Hget Hst. unfold serve.
  rewrite (index_post req s name price) by done.
  rewrite (bind_ok _ _ s (inl (Text "Invalid Image URL" 400)) s); [done|].
  rewrite (load_product_url req s url) by done.
  rewrite (bind_ok _ _ s None s); [done|].
  unfold download_image. rewrite Hget. by destruct (Z.eqb_spec status 200).
Qed.

(** C12. Scenario 3 of the spec says a failed fetch is answered
    [400 "Invalid Image URL"]; the code only checks the status code, so a
    host that cannot be reached makes [requests.get] raise and the request
    fails with a 500 error. *)
Theorem serve_unreachable_url `{ImageServices} `{TextDrawing} `{Environment}
    req s name price url :
  req_method req = POST ->
  form req !! "product_name" = Some name -> form req !! "price" = Some price ->
  form_get req "product_image_url" "" = url -> url <> "" ->
  http_get url = None ->
  serve req s = (HttpError 500, s).
Proof.
  intros Hm Hn Hp Hurl Hne Hget. unfold serve.
  rewrite (index_post req s name price) by done.
  rewrite (bind_raise _ _ s ConnectionError s); [done|].
  rewrite (load_product_url req s url) by done.
  rewrite (bind_raise _ _ s ConnectionError s); [done|].
  unfold download_image. by rewrite Hget.
Qed.


(** ** The successful request *)

Lemma normpath_template : normpath TEMPLATE_PATH = "static/template.jpg".
Proof. reflexivity. Qed.
Lemma normpath_final : normpath FINAL_IMAGE_PATH = "static/final_image.jpg".
Proof. reflexivity. Qed.

Lemma read_template s t :
  "static" ∈ dirs s -> files s !! "static/template.jpg" = Some t ->
  read_file TEMPLATE_PATH s = (Ok t, s).
Proof. intros Hd Ht. by apply read_file_ok; [apply lookup_template|]. Qed.

Lemma write_final s b :
  "static" ∈ dirs s -> "static/final_image.jpg" ∉ dirs s ->
  write_file FINAL_IMAGE_PATH b s = (Ok tt, FS (<["static/final_image.jpg" := b]> (files s)) (dirs s)).
Proof.
  intros Hd Hf. apply write_file_ok; [by apply lookup_final|].
  unfold is_dir. rewrite bool_decide_false by done. reflexivity.
Qed.

Lemma read_final s b :
  "static" ∈ dirs s -> files s !! "static/final_image.jpg" = Some b ->
  read_file FINAL_IMAGE_PATH s = (Ok b, s).
Proof. intros Hd Hb. by apply read_file_ok; [apply lookup_final|]. Qed.

(** Steps 2-6 when the pipeline succeeds, the template decodes, the font
    exists and the output path can be written. *)
Lemma render_ok `{ImageServices} `{TextDrawing} `{Environment} price img s processed t template :
  process_image img = Ok processed ->
  files s !! "static/template.jpg" = Some t -> decode t = Some template ->
  font_exists = true -> "static" ∈ dirs s -> "static/final_image.jpg" ∉ dirs s ->
  let final := encode_jpeg (compose (convert RGBA template) processed price) in
  render price img s =
  (Ok (File final "image/jpeg" "whatsapp_offer.jpg"),
   FS (<["static/final_image.jpg" := final]> (files s)) (dirs s)).
Proof.
  intros Hproc Ht Htd Hfont Hdir Hfin final. unfold render.
  rewrite (bind_ok _ _ s processed s) by (unfold lift; by rewrite Hproc).
  rewrite (bind_ok _ _ s t s) by (by apply read_template).
  rewrite (bind_ok _ _ s template s) by (unfold open_image; by rewrite Htd).
  rewrite (bind_ok _ _ s tt s) by (by rewrite Hfont).
  rewrite (bind_ok _ _ s tt _) by (by apply write_final).
  rewrite (bind_ok _ _ _ final _) by (apply read_final; [done | apply lookup_insert_eq]).
  done.
Qed.

(** Without the font, steps 2-6 raise an exception of the file system or
    the decoder before anything is written. *)
Lemma render_font_missing `{ImageServices} `{TextDrawing} `{Environment} price img s processed :
  process_image img = Ok processed -> font_exists = false ->
  exists e, render price img s = (Raise e, s) /\ e <> BadRequestKeyError.
Proof.
  intros Hproc Hfont. unfold render.
  rewrite (bind_ok _ _ s processed s) by (unfold lift; by rewrite Hproc).
  destruct (read_file_spec TEMPLATE_PATH s) as [Hs He].
  unfold bind at 1. destruct (read_file TEMPLATE_PATH s) as [[t|e] s'] eqn:E; simpl in Hs, He; subst s'.
  - unfold bind at 1, open_image. destruct (decode t); [|by eexists].
    unfold bind at 1. rewrite Hfont. by eexists.
  - exists e. split; [done | by apply He].
Qed.

Lemma serve_raise `{ImageServices} `{TextDrawing} `{Environment} req s e s' :
  index req s = (Raise e, s') -> e <> BadRequestKeyError -> serve req s = (HttpError 500, s').
Proof. intros Hi He. unfold serve. rewrite Hi. by destruct e. Qed.

Lemma load_product_url_ok `{ImageServices} `{TextDrawing} `{Environment} req s url body img :
  form_get req "product_image_url" "" = url -> url <> "" ->
  http_get url = Some (200, body) -> decode body = Some img ->
  load_product req s = (Ok (inr (convert RGBA img)), s).
Proof.
  intros Hurl Hne Hget Hdec. rewrite (load_product_url req s url) by done.
  rewrite (bind_ok _ _ s (Some (convert RGBA img)) s); [done|].
  unfold download_image. rewrite Hget. simpl. unfold open_image. by rewrite Hdec.
Qed.

(** C1. Scenario 1 of the spec: when the URL is fetched with status 200,
    the bytes decode, the product pipeline succeeds, the template can be
    read and the font exists, the response is the JPEG of [compose] of the
    template and the processed product, offered as [whatsapp_offer.jpg],
    and the only change to the store is that file at [FINAL_IMAGE_PATH]
    (which must not be a directory: [save] opens it for writing). *)
Theorem serve_url_success `{ImageServices} `{TextDrawing} `{Environment}
    req s name price url body img processed t template :
  req_method req = POST ->
  form req !! "product_name" = Some name -> form req !! "price" = Some price ->
  form_get req "product_image_url" "" = url -> url <> "" ->
  http_get url = Some (200, body) -> decode body = Some img ->
  process_image (convert RGBA img) = Ok processed ->
  files s !! "static/template.jpg" = Some t -> decode t = Some template ->
  font_exists = true -> "static" ∈ dirs s -> "static/final_image.jpg" ∉ dirs s ->
  let final := encode_jpeg (compose (convert RGBA template) processed price) in
  serve req s =
  (File final "image/jpeg" "whatsapp_offer.jpg",
   FS (<["static/final_image.jpg" := final]> (files s)) (dirs s)).
Proof.
  intros Hm Hn Hp Hurl Hne Hget Hdec Hproc Ht Htd Hfont Hdir Hfin final.
  unfold serve. rewrite (index_post req s name price) by done.
  rewrite (bind_ok _ _ s (inr (convert RGBA img)) s)
    by (by apply (load_product_url_ok req s url body img)).
  by rewrite (render_ok price _ s processed t template).
Qed.

(** C28. Spec section 7, [FontLoadFailure]: with everything else in place,
    a missing font file makes the request fail with 500, before the
    output file is written: the store is unchanged. *)
Theorem serve_font_missing `{ImageServices} `{TextDrawing} `{Environment}
    req s name price url body img processed t template :
  req_method req = POST ->
  form req !! "product_name" = Some name -> form req !! "price" = Some price ->
  form_get req "product_image_url" "" = url -> url <> "" ->
  http_get url = Some (200, body) -> decode body = Some img ->
  process_image (convert RGBA img) = Ok processed ->
  files s !! "static/template.jpg" = Some t -> decode t = Some template ->
  font_exists = false ->
  serve req s = (HttpError 500, s).
Proof.
  intros Hm Hn Hp Hurl Hne Hget Hdec Hproc Ht Htd Hfont.
  destruct (render_font_missing price (convert RGBA img) s processed Hproc Hfont) as (e & Hr & He).
  apply (serve_raise _ _ e); [|done]. rewrite (index_post req s name price) by done.
  rewrite (bind_ok _ _ s (inr (convert RGBA img)) s)
    by (by apply (load_product_url_ok req s url body img)).
  exact Hr.
Qed.

Lemma upload_path_ne_template n :
  plain_name n = true -> normpath (path_join UPLOAD_FOLDER n) <> "static/template.jpg".
Proof.
  intros Hn. rewrite normpath_upload by done.
  intros Heq. apply (f_equal (String.substring 7 1)) in Heq. discriminate.
Qed.

Lemma upload_path_ne_final n :
  plain_name n = true -> normpath (path_join UPLOAD_FOLDER n) <> "static/final_image.jpg".
Proof.
  intros Hn. rewrite normpath_upload by done.
  intros Heq. apply (f_equal (String.substring 7 1)) in Heq. discriminate.
Qed.

Lemma plain_name_nonempty n : plain_name n = true -> String.eqb n "" = false.
Proof. unfold plain_name. rewrite !andb_true_iff, !negb_true_iff. tauto. Qed.

(** Saving an upload of a plain name where [static/uploads] is a
    directory and the name is not one. *)
Lemma write_upload s n c :
  plain_name n = true -> "static" ∈ dirs s -> "static/uploads" ∈ dirs s ->
  ("static/uploads/" +:+ n) ∉ dirs s ->
  write_file (path_join UPLOAD_FOLDER n) c s =
  (Ok tt, FS (<["static/uploads/" +:+ n := c]> (files s)) (dirs s)).
Proof.
  intros Hn Hs Hu Hp. rewrite <- (normpath_upload n Hn). apply write_file_ok.
  - rewrite lookup_upload by done. by rewrite !bool_decide_true.
  - rewrite normpath_upload by done. unfold is_dir. rewrite bool_decide_false by done.
    reflexivity.
Qed.

(** Step 1 with an upload of a plain name: the file is saved, read back
    and decoded; the save stays in the store whatever the decoder says. *)
Lemma load_product_upload `{ImageServices} `{TextDrawing} `{Environment} req s n c :
  form_get req "product_image_url" "" = "" ->
  req_files req !! "product_image" = Some (Upload n c) -> plain_name n = true ->
  "static" ∈ dirs s -> "static/uploads" ∈ dirs s -> ("static/uploads/" +:+ n) ∉ dirs s ->
  load_product req s =
  (match decode c with
   | Some img => Ok (inr (convert RGBA img))
   | None => Raise UnidentifiedImageError
   end, FS (<["static/uploads/" +:+ n := c]> (files s)) (dirs s)).
Proof.
  intros Hurl Hf Hplain Hs Hup Hp.
  set (s1 := FS (<["static/uploads/" +:+ n := c]> (files s)) (dirs s)).
  unfold load_product. rewrite Hurl, Hf. cbn [String.eqb negb filename content].
  rewrite plain_name_nonempty by done. cbn [negb].
  rewrite (bind_ok _ _ s tt s1) by (by apply write_upload).
  rewrite (bind_ok _ _ s1 c s1).
  2:{ apply read_file_ok; [rewrite lookup_upload by done; by rewrite !bool_decide_true|].
      rewrite normpath_upload by done. apply lookup_insert_eq. }
  unfold open_image. by destruct (decode c).
Qed.

(** C21. The upload branch end to end: a POST with no URL and an upload
    with a plain name is saved as [static/uploads/<name>], reopened, and
    answered with the JPEG of the composed card; the store gains exactly
    the uploaded file and the output file. *)
Theorem serve_upload_success `{ImageServices} `{TextDrawing} `{Environment}
    req s name price n c img processed t template :
  req_method req = POST ->
  form req !! "product_name" = Some name -> form req !! "price" = Some price ->
  form_get req "product_image_url" "" = "" ->
  req_files req !! "product_image" = Some (Upload n c) -> plain_name n = true ->
  decode c = Some img -> process_image (convert RGBA img) = Ok processed ->
  files s !! "static/template.jpg" = Some t -> decode t = Some template ->
  font_exists = true -> "static" ∈ dirs s -> "static/uploads" ∈ dirs s ->
  ("static/uploads/" +:+ n) ∉ dirs s -> "static/final_image.jpg" ∉ dirs s ->
  let final := encode_jpeg (compose (convert RGBA template) processed price) in
  serve req s =
  (File final "image/jpeg" "whatsapp_offer.jpg",
   FS (<["static/final_image.jpg" := final]>
         (<["static/uploads/" +:+ n := c]> (files s))) (dirs s)).
Proof.
  intros Hm Hn Hp Hurl Hf Hplain Hdec Hproc Ht Htd Hfont Hdir Hup Hpath Hfin final.
  unfold serve. rewrite (index_post req s name price) by done.
  rewrite (bind_ok _ _ s (inr (convert RGBA img)) _)
    by (rewrite (load_product_upload req s n c) by done; by rewrite Hdec).
  rewrite (render_ok price _ _ processed t template); try done.
  simpl. rewrite lookup_insert_ne; [done|].
  rewrite <- (normpath_upload n Hplain). by apply upload_path_ne_template.
Qed.

(** C27. Spec section 7 says no partial state of a failed request is
    retained; the code saves the upload before opening it, so an upload
    whose bytes are no image is answered 500 and stays in the store as
    [static/uploads/<name>]. *)
Theorem serve_upload_undecodable `{ImageServices} `{TextDrawing} `{Environment}
    req s name price n c :
  req_method req = POST ->
  form req !! "product_name" = Some name -> form req !! "price" = Some price ->
  form_get req "product_image_url" "" = "" ->
  req_files req !! "product_image" = Some (Upload n c) -> plain_name n = true ->
  "static" ∈ dirs s -> "static/uploads" ∈ dirs s -> ("static/uploads/" +:+ n) ∉ dirs s ->
  decode c = None ->
  serve req s =
  (HttpError 500, FS (<["static/uploads/" +:+ n := c]> (files s)) (dirs s)).
Proof.
  intros Hm Hn Hp Hurl Hf Hplain Hs Hup Hpath Hdec.
  unfold serve. rewrite (index_post req s name price) by done.
  unfold bind at 1. by rewrite (load_product_upload req s n c), Hdec by done.
Qed.

(** ** What a request can change *)

Lemma serve_frame_core `{ImageServices} `{TextDrawing} `{Environment} req s p :
  p <> "static/final_image.jpg" ->
  (forall f, req_files req !! "product_image" = Some f ->
             p <> normpath (path_join UPLOAD_FOLDER (filename f))) ->
  dirs (snd (serve req s)) = dirs s /\ files (snd (serve req s)) !! p = files s !! p.
Proof.
  intros Hfin Hup.
  assert (Hs : snd (serve req s) = snd (index req s)).
  { unfold serve. destruct (index req s) as [[r|[]] s']; done. }
  rewrite Hs. destruct (index_footprint req s) as [Hd Hf]. split; [done|].
  apply Hf. intros [Hp | (f & Hf' & Hp)]; [by apply Hfin | by apply (Hup f)].
Qed.

(** C7. Whatever happens (a page, an error response, an escaped
    exception), a request creates no directory and changes no file other
    than [static/final_image.jpg] and the path its upload is saved to. *)
Theorem serve_frame `{ImageServices} `{TextDrawing} `{Environment} req s p :
  p <> "static/final_image.jpg" ->
  (forall f, req_files req !! "product_image" = Some f ->
             p <> normpath (path_join UPLOAD_FOLDER (filename f))) ->
  dirs (snd (serve req s)) = dirs s /\ files (snd (serve req s)) !! p = files s !! p.
Proof. apply serve_frame_core. Qed.

(** ** The template across requests *)

Lemma serve_snd `{ImageServices} `{TextDrawing} `{Environment} req s :
  snd (serve req s) = snd (index req s).
Proof. unfold serve. by destruct (index req s) as [[r|[]] s']. Qed.

Lemma render_footprint `{ImageServices} `{TextDrawing} `{Environment} price img :
  writes_within (fun p => p = normpath FINAL_IMAGE_PATH \/ False) (render price img).
Proof. unfold render, open_image. repeat footprint_step. Qed.

Lemma startup_files s : files (snd (startup s)) = files s.
Proof. apply startup_frame. Qed.

(** The upload folder seen from the client's name ["../template.jpg"]. *)
Lemma lookup_dotdot_template s :
  "static" ∈ dirs s -> "static/uploads" ∈ dirs s ->
  lookup_path s (path_join UPLOAD_FOLDER "../template.jpg") = Ok tt.
Proof.
  intros Hs Hu. unfold lookup_path.
  change (split_slash (path_join UPLOAD_FOLDER "../template.jpg"))
    with ["static"; "uploads"; ".."; "template.jpg"].
  change (starts_with_slash (path_join UPLOAD_FOLDER "../template.jpg")) with false.
  rewrite lookup_dirs_name by done. change (comps_path false ([] ++ ["static"])) with "static".
  rewrite bool_decide_true by done. rewrite lookup_dirs_name by done.
  change (comps_path false (([] ++ ["static"]) ++ ["uploads"])) with "static/uploads".
  rewrite bool_decide_true by done. reflexivity.
Qed.

(** C9. The upload's file name is joined to the upload folder unchecked,
    so an upload named ["../template.jpg"] is written over the template
    (spec section 9) when [static/uploads] is a directory, through which
    the kernel resolves [..]: after the request, whatever its response,
    the template file holds the uploaded bytes. If those bytes are no
    image, every later request fails when it opens the template. *)
Theorem serve_upload_overwrites_template `{ImageServices} `{TextDrawing} `{Environment}
    req s name price c :
  req_method req = POST ->
  form req !! "product_name" = Some name -> form req !! "price" = Some price ->
  form_get req "product_image_url" "" = "" ->
  req_files req !! "product_image" = Some (Upload "../template.jpg" c) ->
  "static" ∈ dirs s -> "static/uploads" ∈ dirs s -> "static/template.jpg" ∉ dirs s ->
  files (snd (serve req s)) !! "static/template.jpg" = Some c.
Proof.
  intros Hm Hn Hp Hurl Hf Hdir Hup Ht. rewrite serve_snd, (index_post req s name price) by done.
  set (s1 := FS (<["static/template.jpg" := c]> (files s)) (dirs s)).
  rewrite (ww_bind_after (fun p => p = normpath FINAL_IMAGE_PATH \/ False) _ _ s
             (fst (load_product req s)) (snd (load_product req s)))
    by (apply surjective_pairing || (intros [r|img]; [apply ww_ret | apply render_footprint])
        || (intros [Hc|[]]; discriminate)).
  unfold load_product. rewrite Hurl, Hf. cbn [String.eqb negb filename content].
  rewrite (ww_bind_after (fun _ => False) _ _ s (Ok tt) s1); [by simpl; rewrite lookup_insert_eq | | |].
  - apply write_file_ok; [by apply lookup_dotdot_template|].
    change (normpath (path_join UPLOAD_FOLDER "../template.jpg")) with "static/template.jpg".
    unfold is_dir. rewrite bool_decide_false by done. reflexivity.
  - intros _. unfold open_image. repeat footprint_step.
  - tauto.
Qed.

(** C34. The file name of an upload is not checked: an upload named
    ["."] or [".."] makes [save] open the upload folder or [static] itself
    for writing, which raises [IsADirectoryError]; the request fails with
    500 and the store is unchanged. *)
Theorem serve_upload_dir_name `{ImageServices} `{TextDrawing} `{Environment}
    req s name price n c :
  req_method req = POST ->
  form req !! "product_name" = Some name -> form req !! "price" = Some price ->
  form_get req "product_image_url" "" = "" ->
  req_files req !! "product_image" = Some (Upload n c) -> n = "." \/ n = ".." ->
  "static" ∈ dirs s -> "static/uploads" ∈ dirs s ->
  serve req s = (HttpError 500, s).
Proof.
  intros Hm Hn Hp Hurl Hf Hdot Hs Hu. apply (serve_raise _ _ IsADirectoryError); [|done].
  rewrite (index_post req s name price) by done.
  unfold bind at 1, load_product. rewrite Hurl, Hf. cbn [String.eqb negb filename content].
  assert (Hw : write_file (path_join UPLOAD_FOLDER n) c s = (Raise IsADirectoryError, s)).
  { unfold write_file, lookup_path.
    destruct Hdot as [-> | ->];
      [change (split_slash (path_join UPLOAD_FOLDER ".")) with ["static"; "uploads"; "."]
      |change (split_slash (path_join UPLOAD_FOLDER "..")) with ["static"; "uploads"; ".."]];
      cbn [starts_with_slash path_join String.eqb orb negb];
      rewrite lookup_dirs_name by done; change (comps_path false ([] ++ ["static"])) with "static";
      rewrite bool_decide_true by done; rewrite lookup_dirs_name by done;
      change (comps_path false (([] ++ ["static"]) ++ ["uploads"])) with "static/uploads";
      rewrite bool_decide_true by done; cbn [lookup_dirs].
    - change (normpath (path_join UPLOAD_FOLDER ".")) with "static/uploads".
      unfold is_dir. by rewrite bool_decide_true, orb_true_r.
    - change (normpath (path_join UPLOAD_FOLDER "..")) with "static".
      unfold is_dir. by rewrite bool_decide_true, orb_true_r. }
  destruct Hdot as [-> | ->]; cbn [String.eqb negb]; unfold bind at 1; by rewrite Hw.
Qed.

(** C8. Invariant: in every store the server reaches from [s0] through
    its start-up code and requests with plain upload names, the template
    file is the one of [s0]. *)
Theorem reachable_template `{ImageServices} `{TextDrawing} `{Environment} s0 s :
  reachable s0 s -> files s !! "static/template.jpg" = files s0 !! "static/template.jpg".
Proof.
  induction 1 as [|s Hr IH|s req Hr IH Hplain]; [done | by rewrite startup_files|].
  rewrite <- IH. apply serve_frame_core; [done|].
  intros f Hf Heq. symmetry in Heq. revert Heq.
  apply upload_path_ne_template. by apply Hplain.
Qed.

(** ** The upload folder *)

Lemma serve_dirs `{ImageServices} `{TextDrawing} `{Environment} req s :
  dirs (snd (serve req s)) = dirs s.
Proof. rewrite serve_snd. by destruct (index_footprint req s). Qed.

Lemma startup_exists_noop s :
  is_dir s "static/uploads" || bool_decide (is_Some (files s !! "static/uploads")) = true ->
  startup s = (Ok tt, s).
Proof. intros He. by rewrite startup_eq, He. Qed.

(** Once [static/uploads] is a directory, neither start-up nor requests
    change the directories. *)
Lemma reachable_dirs `{ImageServices} `{TextDrawing} `{Environment} s1 s :
  "static/uploads" ∈ dirs s1 -> reachable s1 s -> dirs s = dirs s1.
Proof.
  intros Hu. induction 1 as [|s Hr IH|s req Hr IH _]; [done| |by rewrite serve_dirs].
  rewrite startup_exists_noop; [done|]. unfold is_dir. rewrite IH.
  by rewrite (bool_decide_eq_true_2 _ Hu), !orb_true_r.
Qed.

Lemma upload_path_ne_dirs n :
  plain_name n = true -> ("static/uploads/" +:+ n) ∉ ({["static"; "static/uploads"]} : gset string).
Proof.
  intros _. rewrite elem_of_union, !elem_of_singleton.
  intros [Heq|Heq]; apply (f_equal String.length) in Heq; simpl in Heq; lia.
Qed.

(** C25. The start-up code makes every later upload save succeed: in
    every store reached from a start-up that returned, from a store where
    [static/uploads] is not a file, [uploaded_file.save] of a plain name
    that is no directory writes [static/uploads/<name>] and nothing else. *)
Theorem reachable_upload_saved `{ImageServices} `{TextDrawing} `{Environment} s0 s n c :
  files s0 !! "static/uploads" = None -> dirs_closed s0 -> fst (startup s0) = Ok tt ->
  reachable (snd (startup s0)) s ->
  plain_name n = true -> ("static/uploads/" +:+ n) ∉ dirs s0 ->
  write_file (path_join UPLOAD_FOLDER n) c s =
  (Ok tt, FS (<["static/uploads/" +:+ n := c]> (files s)) (dirs s)).
Proof.
  intros Hf Hc Hok Hr Hn Hp. destruct (startup_ok s0 Hok Hf Hc) as [Hs Hu].
  pose proof (reachable_dirs _ s Hu Hr) as Hd.
  apply write_upload; [done | by rewrite Hd | by rewrite Hd |]. rewrite Hd.
  destruct (startup_frame s0) as (_ & _ & Hsub). intros Hin. apply Hsub, elem_of_union in Hin.
  destruct Hin as [Hin|Hin]; [by apply (upload_path_ne_dirs n Hn) | done].
Qed.

(** C33. When [static] is a regular file, [os.makedirs] fails with
    [NotADirectoryError]: the start-up code raises and the module cannot
    be imported (lines 15-16). *)
Theorem startup_static_file s b :
  files s !! "static" = Some b -> "static" ∉ dirs s ->
  files s !! "static/uploads" = None -> "static/uploads" ∉ dirs s ->
  startup s = (Raise NotADirectoryError, s).
Proof.
  intros Hb Hs Hf Hu. rewrite startup_eq, Hf, Hb.
  assert (Hdu : is_dir s "static/uploads" = false)
    by (unfold is_dir; rewrite bool_decide_false by done; reflexivity).
  rewrite Hdu. cbn [orb]. rewrite (bool_decide_eq_true_2 (is_Some (Some b))) by by eexists.
  rewrite orb_true_r. unfold mkdir, lookup_path.
  change (split_slash "static/uploads") with ["static"; "uploads"].
  change (starts_with_slash "static/uploads") with false.
  rewrite lookup_dirs_name by done. change (comps_path false ([] ++ ["static"])) with "static".
  rewrite (bool_decide_false ("static" ∈ dirs s)) by done. rewrite Hb. reflexivity.
Qed.

Lemma load_product_upload_blocked `{ImageServices} `{TextDrawing} `{Environment} req s n c :
  form_get req "product_image_url" "" = "" ->
  req_files req !! "product_image" = Some (Upload n c) -> plain_name n = true ->
  "static/uploads" ∉ dirs s ->
  exists e, load_product req s = (Raise e, s) /\ e <> BadRequestKeyError.
Proof.
  intros Hurl Hf Hplain Hup.
  unfold load_product. rewrite Hurl, Hf. cbn [String.eqb negb filename content].
  rewrite plain_name_nonempty by done. cbn [negb].
  destruct (lookup_path s (path_join UPLOAD_FOLDER n)) as [[]|e] eqn:E.
  - rewrite lookup_upload in E by done. rewrite (bool_decide_false _ Hup) in E.
    revert E. by repeat case_bool_decide.
  - exists e. unfold bind at 1. rewrite (write_file_lookup_fail _ _ s e E).
    split; [done|]. apply lookup_dirs_error in E as [-> | ->]; done.
Qed.

(** C31. The start-up code tests [os.path.exists], not [os.path.isdir]:
    when [static/uploads] is a file, no folder is made, and after
    start-up every request with an uploaded file fails with 500, its
    upload unsaved. *)
Theorem serve_upload_blocked_startup `{ImageServices} `{TextDrawing} `{Environment}
    s0 req name price n c :
  is_Some (files s0 !! "static/uploads") -> "static/uploads" ∉ dirs s0 ->
  req_method req = POST ->
  form req !! "product_name" = Some name -> form req !! "price" = Some price ->
  form_get req "product_image_url" "" = "" ->
  req_files req !! "product_image" = Some (Upload n c) -> plain_name n = true ->
  serve req (snd (startup s0)) = (HttpError 500, s0).
Proof.
  intros Hf Hd Hm Hn Hp Hurl Hfile Hplain.
  rewrite startup_exists_noop by (by rewrite (bool_decide_eq_true_2 _ Hf), orb_true_r).
  destruct (load_product_upload_blocked req s0 n c) as (e & Hl & He); [done..|].
  apply (serve_raise _ _ e); [|done]. rewrite (index_post req s0 name price) by done.
  unfold bind at 1. by rewrite Hl.
Qed.

(** ** Witnesses *)

Lemma serve_no_image_witness :
  serve (sample_request "" None) sample_store = (Text "No image provided!" 400, sample_store).
Proof.
  apply (serve_no_image _ _ "Lamp" "199"); try reflexivity.
  intros f Hf. discriminate.
Defined.

Lemma serve_bad_status_witness :
  serve (sample_request "http://shop/missing.png" None) sample_store =
  (Text "Invalid Image URL" 400, sample_store).
Proof.
  apply (serve_bad_status _ _ "Lamp" "199" "http://shop/missing.png" 404 []);
    try reflexivity; discriminate.
Defined.

Lemma serve_unreachable_url_witness :
  serve (sample_request "http://bad.invalid/x.png" None) sample_store =
  (HttpError 500, sample_store).
Proof.
  apply (serve_unreachable_url _ _ "Lamp" "199" "http://bad.invalid/x.png");
    try reflexivity; discriminate.
Defined.


Lemma serve_url_success_witness :
  serve (sample_request "http://shop/p.png" None) sample_store =
  (File [4; 1670; 9] "image/jpeg" "whatsapp_offer.jpg",
   FS (<["static/final_image.jpg" := [4; 1670; 9]]> (files sample_store)) (dirs sample_store)).
Proof.
  rewrite (serve_url_success (sample_request "http://shop/p.png" None) sample_store
             "Lamp" "199" "http://shop/p.png" [1] sample_product_img
             (nearest sample_product_img 500 1) [2] sample_template_img);
    try discriminate; first [by_decide | vm_compute; reflexivity].
Defined.

Lemma serve_frame_witness :
  dirs (snd (serve (sample_request "http://shop/p.png" None) sample_store)) = dirs sample_store /\
  files (snd (serve (sample_request "http://shop/p.png" None) sample_store)) !! "static/template.jpg"
  = files sample_store !! "static/template.jpg".
Proof.
  apply (serve_frame _ _ "static/template.jpg"); [discriminate|].
  intros f Hf. discriminate.
Defined.

Lemma serve_upload_overwrites_template_witness :
  files (snd (serve (sample_request "" (Some (Upload "../template.jpg" [7])))
                    sample_store)) !! "static/template.jpg" = Some [7].
Proof.
  apply (serve_upload_overwrites_template _ _ "Lamp" "199"); first [reflexivity | by_decide].
Defined.

Lemma serve_upload_success_witness :
  serve (sample_request "" (Some (Upload "photo.png" [1]))) sample_store =
  (File [4; 1670; 9] "image/jpeg" "whatsapp_offer.jpg",
   FS (<["static/final_image.jpg" := [4; 1670; 9]]>
         (<["static/uploads/photo.png" := [1]]> (files sample_store))) (dirs sample_store)).
Proof.
  rewrite (serve_upload_success (sample_request "" (Some (Upload "photo.png" [1]))) sample_store
             "Lamp" "199" "photo.png" [1] sample_product_img
             (nearest sample_product_img 500 1) [2] sample_template_img);
    first [by_decide | vm_compute; reflexivity].
Defined.

Lemma reachable_template_witness :
  let s := snd (serve (sample_request "" (Some (Upload "photo.png" [1]))) sample_store) in
  reachable sample_store s /\
  files s !! "static/template.jpg" = files sample_store !! "static/template.jpg".
Proof.
  assert (Hr : reachable sample_store
                 (snd (serve (sample_request "" (Some (Upload "photo.png" [1]))) sample_store))).
  { apply reach_serve; [apply reach_init|]. intros f Hf. vm_compute in Hf.
    injection Hf as <-. reflexivity. }
  split; [exact Hr | exact (reachable_template _ _ Hr)].
Defined.

Lemma reachable_upload_saved_witness :
  let s0 := FS {["static/template.jpg" := [2]]} ∅ in
  let s := snd (startup s0) in
  files s0 !! "static/uploads" = None /\ dirs_closed s0 /\ fst (startup s0) = Ok tt /\
  reachable (snd (startup s0)) s /\
  plain_name "photo.png" = true /\ ("static/uploads/" +:+ "photo.png") ∉ dirs s0 /\
  write_file (path_join UPLOAD_FOLDER "photo.png") [1] s =
  (Ok tt, FS (<["static/uploads/" +:+ "photo.png" := [1]]> (files s)) (dirs s)).
Proof.
  cbv zeta.
  assert (H1 : files (FS {["static/template.jpg" := [2]]} ∅) !! "static/uploads" = None)
    by reflexivity.
  assert (H2 : dirs_closed (FS {["static/template.jpg" := [2]]} ∅))
    by (intros d Hd; by apply elem_of_empty in Hd).
  assert (H3 : fst (startup (FS {["static/template.jpg" := [2]]} ∅)) = Ok tt)
    by (vm_compute; reflexivity).
  assert (H4 : reachable (snd (startup (FS {["static/template.jpg" := [2]]} ∅)))
                 (snd (startup (FS {["static/template.jpg" := [2]]} ∅)))) by apply reach_init.
  assert (H5 : plain_name "photo.png" = true) by reflexivity.
  assert (H6 : ("static/uploads/" +:+ "photo.png") ∉ dirs (FS {["static/template.jpg" := [2]]} ∅))
    by (intros Hd; by apply elem_of_empty in Hd).
  refine (conj H1 (conj H2 (conj H3 (conj H4 (conj H5 (conj H6 _)))))).
  exact (reachable_upload_saved _ _ "photo.png" [1] H1 H2 H3 H4 H5 H6).
Defined.

Lemma serve_upload_undecodable_witness :
  serve (sample_request "" (Some (Upload "photo.png" [5]))) sample_store =
  (HttpError 500, FS (<["static/uploads/" +:+ "photo.png" := [5]]> (files sample_store))
                     (dirs sample_store)).
Proof.
  apply (serve_upload_undecodable _ _ "Lamp" "199"); first [reflexivity | by_decide].
Defined.

Lemma serve_font_missing_witness :
  @serve nearest_services blank_text sample_env_nofont
    (sample_request "http://shop/p.png" None) sample_store = (HttpError 500, sample_store).
Proof.
  apply (@serve_font_missing nearest_services blank_text sample_env_nofont _ _ "Lamp" "199"
           "http://shop/p.png" [1] sample_product_img (nearest sample_product_img 500 1)
           [2] sample_template_img); try reflexivity; try discriminate.
Defined.

Lemma serve_upload_blocked_startup_witness :
  let s0 := FS {["static/template.jpg" := [2]; "static/uploads" := []]} {["static"]} in
  serve (sample_request "" (Some (Upload "photo.png" [1]))) (snd (startup s0)) =
  (HttpError 500, s0).
Proof.
  apply (serve_upload_blocked_startup _ _ "Lamp" "199" "photo.png" [1]); try reflexivity.
  - by eexists.
  - by_decide.
Defined.

Lemma serve_upload_dir_name_witness :
  serve (sample_request "" (Some (Upload ".." [1]))) sample_store = (HttpError 500, sample_store).
Proof.
  apply (serve_upload_dir_name _ _ "Lamp" "199" ".." [1]); try reflexivity; [right; reflexivity|..];
    by_decide.
Defined.

Lemma startup_static_file_witness :
  let s := FS {["static" := [0]]} ∅ in
  files s !! "static" = Some [0] /\ "static" ∉ dirs s /\
  files s !! "static/uploads" = None /\ "static/uploads" ∉ dirs s /\
  startup s = (Raise NotADirectoryError, s).
Proof.
  cbv zeta.
  assert (H1 : files (FS {["static" := [0]]} ∅) !! "static" = Some [0]) by reflexivity.
  assert (H2 : "static" ∉ dirs (FS {["static" := [0]]} ∅)) by by_decide.
  assert (H3 : files (FS {["static" := [0]]} ∅) !! "static/uploads" = None) by reflexivity.
  assert (H4 : "static/uploads" ∉ dirs (FS {["static" := [0]]} ∅)) by by_decide.
  refine (conj H1 (conj H2 (conj H3 (conj H4 _)))).
  exact (startup_static_file _ [0] H1 H2 H3 H4).
Defined.

End Handler.
