(* ===== verification/ActionProgram.v ===== *)
(** The handler as a program of atomic file actions.

    [index] of [Handler] is written a second time as a [prog]: a finite
    tree whose nodes are the reads and writes of the shared store, with
    the rest of the computation as the continuation (the decoder, the
    network and the image pipeline run between actions). An action is
    [Store.read_file] or [Store.write_file]; [run] executes a program
    against the store in one go, [step] executes one action. The lemmas:
    run alone, the program is the handler of [Handler] ([run_serve_p]);
    every write of a request is in its footprint ([serve_p_writes_in]);
    a URL request reads the template, writes its card and reads it back
    ([render_protocol]), and an upload request first saves and reads back
    its upload ([upload_protocol]). [Concurrency] interleaves two such
    programs. *)

From S2P Require Import Prelude Raster Cropper PyFloat Resizer Placement Compositor Store Handler.
Import Raster Resizer Compositor Store Handler.

Module ActionProgram.

(** ** Programs of file actions *)

Inductive prog (A : Type) : Type :=
  | Pure (o : outcome A)
  | Read (p : string) (k : outcome bytes -> prog A)
  | Write (p : string) (b : bytes) (k : outcome unit -> prog A).
Arguments Pure {A} o.
Arguments Read {A} p k.
Arguments Write {A} p b k.

Fixpoint bindP {A B} (t : prog A) (f : A -> prog B) : prog B :=
  match t with
  | Pure (Ok a) => f a
  | Pure (Raise e) => Pure (Raise e)
  | Read p k => Read p (fun o => bindP (k o) f)
  | Write p b k => Write p b (fun ok => bindP (k ok) f)
  end.

Notation "x <-- t ;; k" := (bindP t (fun x => k))
  (at level 100, t at next level, right associativity) : offer_scope.

Definition retP {A} (a : A) : prog A := Pure (Ok a).
Definition raiseP {A} (e : exn) : prog A := Pure (Raise e).

(** [read_file] and [write_file] as single actions. *)
Definition read_p (path : string) : prog bytes := Read path Pure.

Definition write_p (path : string) (b : bytes) : prog unit := Write path b Pure.

(** One atomic action of a thread on the shared store: the action is
    [Store.read_file] or [Store.write_file], with its outcome passed on. *)
Definition step {A} (t : prog A) (s : fs) : prog A * fs :=
  match t with
  | Pure o => (Pure o, s)
  | Read path k => let '(o, s') := read_file path s in (k o, s')
  | Write path b k => let '(o, s') := write_file path b s in (k o, s')
  end.

(** Running a program to its end without interruption. *)
Fixpoint run {A} (t : prog A) : M A := fun s =>
  match t with
  | Pure o => (o, s)
  | Read path k => let '(o, s') := read_file path s in run (k o) s'
  | Write path b k => let '(o, s') := write_file path b s in run (k o) s'
  end.

(** ** The handler as a program *)

Section WithEnvironment.
Context `{ImageServices} `{TextDrawing} `{Environment}.

Definition open_image_p (b : bytes) : prog image :=
  match decode b with
  | Some img => retP img
  | None => raiseP UnidentifiedImageError
  end.

Definition download_image_p (url : string) : prog (option image) :=
  match http_get url with
  | None => raiseP ConnectionError
  | Some (status_code, body) =>
      if status_code =? 200 then
        img <-- open_image_p body ;;
        retP (Some (convert RGBA img))
      else retP None
  end.

Definition form_item_p (req : request) (key : string) : prog string :=
  match form req !! key with
  | Some v => retP v
  | None => raiseP BadRequestKeyError
  end.

Definition load_product_p (req : request) : prog (response + image) :=
  let image_url := form_get req "product_image_url" "" in
  if negb (String.eqb image_url "") then
    product_image <-- download_image_p image_url ;;
    match product_image with
    | None => retP (inl (Text "Invalid Image URL" 400))
    | Some img => retP (inr img)
    end
  else
    match req_files req !! "product_image" with
    | Some uploaded_file =>
        if negb (String.eqb (filename uploaded_file) "") then
          let image_path := path_join UPLOAD_FOLDER (filename uploaded_file) in
          _ <-- write_p image_path (content uploaded_file) ;;
          b <-- read_p image_path ;;
          img <-- open_image_p b ;;
          retP (inr (convert RGBA img))
        else retP (inl (Text "No image provided!" 400))
    | None => retP (inl (Text "No image provided!" 400))
    end.

Definition render_p (price : string) (product_image : image) : prog response :=
  processed_image <-- Pure (process_image product_image) ;;
  t <-- read_p TEMPLATE_PATH ;;
  template <-- open_image_p t ;;
  _ <-- (if font_exists then retP tt else raiseP OSError) ;;
  let final := compose (convert RGBA template) processed_image price in
  _ <-- write_p FINAL_IMAGE_PATH (encode_jpeg final) ;;
  body <-- read_p FINAL_IMAGE_PATH ;;
  retP (File body "image/jpeg" "whatsapp_offer.jpg").

Definition index_p (req : request) : prog response :=
  match req_method req with
  | GET => retP (Page "index.html")
  | POST =>
      product_name <-- form_item_p req "product_name" ;;
      price <-- form_item_p req "price" ;;
      src <-- load_product_p req ;;
      match src with
      | inl resp => retP resp
      | inr product_image => render_p price product_image
      end
  end.

(** Flask's handling of an escaped exception, on a program. *)
Fixpoint catch_p (t : prog response) : prog response :=
  match t with
  | Pure (Ok r) => Pure (Ok r)
  | Pure (Raise BadRequestKeyError) => Pure (Ok (HttpError 400))
  | Pure (Raise _) => Pure (Ok (HttpError 500))
  | Read p k => Read p (fun o => catch_p (k o))
  | Write p b k => Write p b (fun ok => catch_p (k ok))
  end.

Definition serve_p (req : request) : prog response := catch_p (index_p req).

End WithEnvironment.

(** [writes_in W t]: every write action of [t] is to a path of [W]. *)
Fixpoint writes_in {A} (W : string -> Prop) (t : prog A) : Prop :=
  match t with
  | Pure _ => True
  | Read _ k => forall o, writes_in W (k o)
  | Write path _ k => W (normpath path) /\ forall ok, writes_in W (k ok)
  end.


(** A POST that names its product by a URL the network serves with status
    200 and whose bytes decode to [img]. *)
Definition url_request `{Environment} (req : request) (price : string) (img : image) : Prop :=
  req_method req = POST /\ is_Some (form req !! "product_name") /\
  form req !! "price" = Some price /\
  exists url body, form_get req "product_image_url" "" = url /\ url <> "" /\
    http_get url = Some (200, body) /\ decode body = Some img.

(** A POST with no image URL whose upload has the plain name [n] and
    the bytes [c]. *)
Definition upload_request (req : request) (price n : string) (c : bytes) : Prop :=
  req_method req = POST /\ is_Some (form req !! "product_name") /\
  form req !! "price" = Some price /\ form_get req "product_image_url" "" = "" /\
  req_files req !! "product_image" = Some (Upload n c) /\ plain_name n = true.

(** ** The program is the handler *)

Lemma run_bindP {A B} (t : prog A) (f : A -> prog B) s :
  run (bindP t f) s = bind (run t) (fun a => run (f a)) s.
Proof.
  revert s. induction t as [[a|e]|p k IH|p b k IH]; intros s; simpl.
  - done.
  - done.
  - unfold bind in *. destruct (read_file p s). apply IH.
  - unfold bind in *. destruct (write_file p b s). apply IH.
Qed.

Lemma bind_ext {A B} (m1 m2 : M A) (k1 k2 : A -> M B) s :
  (forall s, m1 s = m2 s) -> (forall a s, k1 a s = k2 a s) -> bind m1 k1 s = bind m2 k2 s.
Proof. intros Hm Hk. unfold bind. rewrite Hm. destruct (m2 s) as [[a|e] s']; [apply Hk | done]. Qed.

Lemma run_read_p path s : run (read_p path) s = read_file path s.
Proof. simpl. by destruct (read_file path s). Qed.

Lemma run_write_p path b s : run (write_p path b) s = write_file path b s.
Proof. simpl. by destruct (write_file path b s). Qed.

Section Refinement.
Context `{ImageServices} `{TextDrawing} `{Environment}.

Lemma run_open_image_p b s : run (open_image_p b) s = open_image b s.
Proof. unfold open_image_p, open_image. by destruct (decode b). Qed.

Ltac refine_step :=
  repeat first
    [ progress rewrite ?run_bindP, ?run_read_p, ?run_write_p, ?run_open_image_p
    | apply bind_ext; [intros ?|intros ? ?]
    | reflexivity
    | case_match ].

Lemma run_download_image_p url s : run (download_image_p url) s = download_image url s.
Proof. unfold download_image_p, download_image. refine_step. Qed.

Lemma run_load_product_p req s : run (load_product_p req) s = load_product req s.
Proof.
  unfold load_product_p, load_product. destruct (negb _).
  - rewrite run_bindP. apply bind_ext; [apply run_download_image_p | intros [?|] ?; done].
  - refine_step.
Qed.

Lemma run_render_p price img s : run (render_p price img) s = render price img s.
Proof. unfold render_p, render, lift. refine_step. Qed.

(** The program of file actions performs the handler of [Handler]:
    run without interruption, it gives the same response and store. *)
Lemma run_index req s : run (index_p req) s = index req s.
Proof.
  unfold index_p, index. destruct (req_method req); [done|].
  unfold form_item_p, form_item. rewrite !run_bindP.
  apply bind_ext; [intros ?; by case_match|intros ? ?].
  rewrite run_bindP. apply bind_ext; [intros ?; by case_match|intros ? ?].
  rewrite run_bindP. apply bind_ext; [apply run_load_product_p|intros [?|?] ?; [done|apply run_render_p]].
Qed.

Lemma run_catch_p t s :
  run (catch_p t) s =
  match run t s with
  | (Ok r, s') => (Ok r, s')
  | (Raise BadRequestKeyError, s') => (Ok (HttpError 400), s')
  | (Raise _, s') => (Ok (HttpError 500), s')
  end.
Proof.
  revert s. induction t as [[r|[]]|p k IH|p b k IH]; intros s; simpl; try done.
  - destruct (read_file p s). apply IH.
  - destruct (write_file p b s). apply IH.
Qed.

Lemma run_serve_p req s : run (serve_p req) s = (Ok (fst (serve req s)), snd (serve req s)).
Proof.
  unfold serve_p, serve. rewrite run_catch_p, run_index.
  by destruct (index req s) as [[r|[]] s'].
Qed.

End Refinement.

(** ** Footprints of programs *)

Lemma writes_in_bindP {A B} W (t : prog A) (f : A -> prog B) :
  writes_in W t -> (forall a, writes_in W (f a)) -> writes_in W (bindP t f).
Proof.
  intros Ht Hf. induction t as [[a|e]|p k IH|p b k IH]; simpl in *; auto.
  destruct Ht as [Hp Hk]. auto.
Qed.

Lemma writes_in_catch_p W t : writes_in W t -> writes_in W (catch_p t).
Proof.
  induction t as [[r|[]]|p k IH|p b k IH]; simpl; try done; [|intros [Hp Hk]]; auto.
Qed.

Lemma step_frame {A} W (t : prog A) s :
  writes_in W t ->
  writes_in W (fst (step t s)) /\ dirs (snd (step t s)) = dirs s /\
  forall p, ~ W p -> files (snd (step t s)) !! p = files s !! p.
Proof.
  destruct t as [o|path k|path b k]; simpl; [done| |].
  - intros Hk. destruct (read_file_spec path s) as [Hs _].
    destruct (read_file path s) as [o s']. simpl in *. by subst s'.
  - intros [HW Hk]. destruct (ww_write W path b HW s) as [Hd Hf].
    destruct (write_file path b s) as [o s']. simpl in *. done.
Qed.

Lemma serve_p_writes_in `{ImageServices} `{TextDrawing} `{Environment} req :
  writes_in (footprint req) (serve_p req).
Proof.
  apply writes_in_catch_p. unfold index_p, form_item_p, load_product_p, download_image_p,
    render_p, open_image_p, read_p, write_p, retP, raiseP.
  repeat first
    [ done
    | apply writes_in_bindP; [|intros ?]
    | progress simpl
    | split; [solve [left; reflexivity | right; eexists; split; [eassumption | reflexivity]]|]
    | intros ?
    | case_match ].
Qed.

Lemma writes_in_mono {A} (W W' : string -> Prop) (t : prog A) :
  (forall p, W p -> W' p) -> writes_in W t -> writes_in W' t.
Proof.
  intros HW. induction t as [o|p k IH|p b k IH]; simpl; [done|auto|].
  intros [Hp Hk]. auto.
Qed.

Lemma template_outside_footprint req :
  plain_upload req -> ~ footprint req "static/template.jpg".
Proof.
  intros Hplain [Hp | (f & Hf & Hp)]; [discriminate|].
  symmetry in Hp. revert Hp. apply upload_path_ne_template. by apply Hplain.
Qed.

(** ** The protocol of a successful URL request *)

Section Protocol.
Context `{ImageServices} `{TextDrawing} `{Environment}.

Lemma serve_p_url req price img :
  url_request req price img -> serve_p req = catch_p (render_p price (convert RGBA img)).
Proof.
  intros (Hm & [name Hn] & Hp & url & body & Hurl & Hne & Hget & Hdec).
  assert (Hu : String.eqb url "" = false) by (by apply String.eqb_neq).
  unfold serve_p, index_p, form_item_p, load_product_p, download_image_p, open_image_p, retP.
  rewrite Hm, Hn, Hp, Hurl, Hu, Hget, Hdec. reflexivity.
Qed.

(** A request with an upload saves it as its first action and reads it
    back as its second; what it reads back is the product it renders. *)
Lemma upload_protocol req price n c :
  upload_request req price n c ->
  exists k,
  (forall s, "static" ∈ dirs s -> "static/uploads" ∈ dirs s -> ("static/uploads/" +:+ n) ∉ dirs s ->
   step (serve_p req) s = (k, FS (<["static/uploads/" +:+ n := c]> (files s)) (dirs s))) /\
  forall s' b img, "static" ∈ dirs s' -> "static/uploads" ∈ dirs s' ->
  files s' !! ("static/uploads/" +:+ n) = Some b -> decode b = Some img ->
  step k s' = (catch_p (render_p price (convert RGBA img)), s').
Proof.
  intros (Hm & [name Hn] & Hp & Hurl & Hf & Hplain).
  unfold serve_p, index_p, form_item_p, load_product_p. rewrite Hm, Hn, Hp, Hurl, Hf.
  cbn [bindP retP String.eqb negb filename content]. rewrite plain_name_nonempty by done.
  cbn [negb]. unfold write_p, read_p. cbn [bindP catch_p].
  eexists. split.
  - intros s Hs Hu Hd. cbn [step]. rewrite write_upload by done. reflexivity.
  - intros s' b img Hs Hu Hb Hdec. cbn [bindP catch_p step].
    rewrite (read_file_ok _ s' b).
    + unfold open_image_p. cbn [bindP]. rewrite Hdec. reflexivity.
    + rewrite lookup_upload by done. by rewrite !bool_decide_true.
    + by rewrite normpath_upload.
Qed.

(** The three actions of a request past its download, each given by the
    store it meets: it reads the template, writes its card, and answers
    with the output file as it reads it (500 when it is missing). The
    programs between the actions do not depend on the store. *)
Lemma render_phases price img processed t template :
  process_image img = Ok processed -> decode t = Some template -> font_exists = true ->
  let final := encode_jpeg (compose (convert RGBA template) processed price) in
  exists k1 k2,
  (forall s, files s !! "static/template.jpg" = Some t -> "static" ∈ dirs s ->
     step (catch_p (render_p price img)) s = (k1, s)) /\
  (forall s, "static" ∈ dirs s -> "static/final_image.jpg" ∉ dirs s ->
     step k1 s = (k2, FS (<["static/final_image.jpg" := final]> (files s)) (dirs s))) /\
  (forall s b, "static" ∈ dirs s -> files s !! "static/final_image.jpg" = Some b ->
     step k2 s = (Pure (Ok (File b "image/jpeg" "whatsapp_offer.jpg")), s)) /\
  (forall s, "static" ∈ dirs s -> files s !! "static/final_image.jpg" = None ->
     "static/final_image.jpg" ∉ dirs s -> step k2 s = (Pure (Ok (HttpError 500)), s)).
Proof.
  intros Hproc Htd Hfont final.
  unfold render_p, read_p. rewrite Hproc. cbn [bindP catch_p step]. do 2 eexists. split_and!.
  - intros s Ht Hd. rewrite (read_template s t) by done. reflexivity.
  - intros s Hd Hf. unfold open_image_p. cbn [bindP]. rewrite Htd. cbn [bindP retP].
    rewrite Hfont. unfold write_p. cbn [bindP retP catch_p step].
    rewrite (write_final s) by done. reflexivity.
  - intros s b Hd Hb. cbn [bindP retP catch_p step]. rewrite (read_final s b) by done. reflexivity.
  - intros s Hd Hn Hf. cbn [bindP retP catch_p step]. unfold read_file. rewrite lookup_final by done.
    change (normpath FINAL_IMAGE_PATH) with "static/final_image.jpg". rewrite Hn.
    unfold is_dir. rewrite bool_decide_false by done. reflexivity.
Qed.

(** The same three actions, each on the store the previous one left or
    any later store. *)
Lemma render_protocol price img processed t template s :
  process_image img = Ok processed ->
  files s !! "static/template.jpg" = Some t -> decode t = Some template ->
  font_exists = true -> "static" ∈ dirs s ->
  let final := encode_jpeg (compose (convert RGBA template) processed price) in
  exists k, step (catch_p (render_p price img)) s = (k, s) /\
  forall s', "static" ∈ dirs s' -> "static/final_image.jpg" ∉ dirs s' ->
  exists k', step k s' = (k', FS (<["static/final_image.jpg" := final]> (files s')) (dirs s')) /\
  forall s'' b, "static" ∈ dirs s'' -> files s'' !! "static/final_image.jpg" = Some b ->
  step k' s'' = (Pure (Ok (File b "image/jpeg" "whatsapp_offer.jpg")), s'').
Proof.
  intros Hproc Ht Htd Hfont Hd final.
  destruct (render_phases price img processed t template Hproc Htd Hfont)
    as (k1 & k2 & P1 & P2 & P3 & _).
  exists k1. split; [by apply P1|]. intros s' Hd' Hf'. exists k2. split; [by apply P2 | exact P3].
Qed.

End Protocol.

End ActionProgram.
