(* ===== verification/Concurrency.v ===== *)
(** Concurrent requests on the shared files (spec section 5).

    [interleave] runs two requests, as programs of [ActionProgram], under
    a schedule, one file action at a time, on one store, as a threaded
    server does. The theorems: for every pair of requests that succeed,
    some schedule hands one client the other's card, through the output
    file ([serve_race_general]) or through an upload of the same name
    ([serve_upload_race]); no schedule changes the template, by the
    footprints of the programs ([interleave_keeps_template]). *)

From S2P Require Import Prelude Raster Cropper PyFloat Resizer Placement Compositor Store Handler ActionProgram.
Import Raster Resizer Compositor Store Handler ActionProgram.

Module Concurrency.

(** ** Two requests on one store *)

Inductive thread := ThreadA | ThreadB.

(** The server under a schedule: at each entry, the named request performs
    its next file action (a finished request does nothing). *)
Fixpoint interleave (sch : list thread) (s : fs) (ta tb : prog response)
    : fs * prog response * prog response :=
  match sch with
  | [] => (s, ta, tb)
  | ThreadA :: sch' => let '(ta', s') := step ta s in interleave sch' s' ta' tb
  | ThreadB :: sch' => let '(tb', s') := step tb s in interleave sch' s' ta tb'
  end.

#[export] Instance thread_eq_dec : EqDecision thread.
Proof. solve_decision. Defined.

(** ** The shared output file *)

Definition request_p : request := sample_request "http://shop/p.png" None.
Definition request_q : request := sample_request "http://shop/q.png" None.

(** Both requests read the template and write their card; then [q] writes
    its card and reads it back, and only then does [p] read the output
    file. *)
Definition race_schedule : list thread :=
  [ThreadA; ThreadA; ThreadB; ThreadB; ThreadB; ThreadA].

(** Two uploads with the same file name and different bytes ([[1]] and
    [[3]] decode to products of red bytes 9 and 200). *)
Definition upload_a : request := sample_request "" (Some (Upload "p.png" [1])).
Definition upload_b : request := sample_request "" (Some (Upload "p.png" [3])).

(** [upload_a] saves its file, [upload_b] saves over it, then [upload_a]
    reads the file back and finishes; then [upload_b] finishes. *)
Definition upload_race_schedule : list thread :=
  [ThreadA; ThreadB; ThreadA; ThreadA; ThreadA; ThreadA; ThreadB; ThreadB; ThreadB; ThreadB].


(** ** Races *)

(** C32. The race on the output file, for every pair of URL requests:
    when both succeed on a store with a readable template, the schedule
    in which the second request writes and reads its card between the
    first's write and read hands both clients the second card. With
    different cards, the first client receives the wrong one ([serve]
    alone gives it its own, C1). *)
Theorem serve_race_general `{ImageServices} `{TextDrawing} `{Environment}
    ra rb pa pb imga imgb proca procb t template s s' ta tb :
  url_request ra pa imga -> url_request rb pb imgb ->
  process_image (convert RGBA imga) = Ok proca -> process_image (convert RGBA imgb) = Ok procb ->
  files s !! "static/template.jpg" = Some t -> decode t = Some template ->
  font_exists = true -> "static" ∈ dirs s -> "static/final_image.jpg" ∉ dirs s ->
  interleave race_schedule s (serve_p ra) (serve_p rb) = (s', ta, tb) ->
  let fb := encode_jpeg (compose (convert RGBA template) procb pb) in
  ta = Pure (Ok (File fb "image/jpeg" "whatsapp_offer.jpg")) /\
  tb = Pure (Ok (File fb "image/jpeg" "whatsapp_offer.jpg")).
Proof.
  intros Ha Hb Hpa Hpb Ht Htd Hfont Hd Hfin Hrun fb.
  rewrite (serve_p_url ra pa imga Ha), (serve_p_url rb pb imgb Hb) in Hrun.
  destruct (render_protocol pa _ _ t template s Hpa Ht Htd Hfont Hd) as (ka & Ea1 & Ha2).
  destruct (Ha2 s Hd Hfin) as (ka' & Ea2 & Ha3).
  set (s1 := FS (<["static/final_image.jpg" := _]> (files s)) (dirs s)) in Ea2.
  assert (Ht1 : files s1 !! "static/template.jpg" = Some t) by (simpl; by rewrite lookup_insert_ne).
  destruct (render_protocol pb _ _ t template s1 Hpb Ht1 Htd Hfont Hd) as (kb & Eb1 & Hb2).
  destruct (Hb2 s1 Hd Hfin) as (kb' & Eb2 & Hb3).
  set (s2 := FS (<["static/final_image.jpg" := fb]> (files s1)) (dirs s1)) in Eb2.
  assert (Hf2 : files s2 !! "static/final_image.jpg" = Some fb) by (simpl; by rewrite lookup_insert_eq).
  unfold race_schedule in Hrun. cbn [interleave] in Hrun.
  rewrite Ea1 in Hrun. cbn iota in Hrun. rewrite Ea2 in Hrun. cbn iota in Hrun.
  rewrite Eb1 in Hrun. cbn iota in Hrun. rewrite Eb2 in Hrun. cbn iota in Hrun.
  change (step kb' _) with (step kb' s2) in Hrun. rewrite (Hb3 s2 fb Hd Hf2) in Hrun.
  cbn iota in Hrun. rewrite (Ha3 s2 fb Hd Hf2) in Hrun.
  cbn in Hrun. injection Hrun as _ <- <-. done.
Qed.

(** C29. Uploads are saved under the client's file name (spec section
    4.1), so two requests that upload files of the same plain name race
    on that file: under [upload_race_schedule], where the second request
    saves its file between the first's save and read-back, the first
    client's card shows the second client's product (with its own price),
    whatever the first client uploaded; the second client's card is its
    own, and the second upload stays on disk. *)
Theorem serve_upload_race `{ImageServices} `{TextDrawing} `{Environment}
    ra rb pa pb n ca cb imgb procb t template s s' ta tb :
  upload_request ra pa n ca -> upload_request rb pb n cb ->
  decode cb = Some imgb -> process_image (convert RGBA imgb) = Ok procb ->
  files s !! "static/template.jpg" = Some t -> decode t = Some template ->
  font_exists = true -> "static" ∈ dirs s -> "static/uploads" ∈ dirs s ->
  ("static/uploads/" +:+ n) ∉ dirs s -> "static/final_image.jpg" ∉ dirs s ->
  interleave upload_race_schedule s (serve_p ra) (serve_p rb) = (s', ta, tb) ->
  let card price := encode_jpeg (compose (convert RGBA template) procb price) in
  ta = Pure (Ok (File (card pa) "image/jpeg" "whatsapp_offer.jpg")) /\
  tb = Pure (Ok (File (card pb) "image/jpeg" "whatsapp_offer.jpg")) /\
  files s' !! ("static/uploads/" +:+ n) = Some cb.
Proof.
  intros Ha Hb Hdec Hproc Ht Htd Hfont Hs Hu Hn Hfin Hrun card.
  pose proof Ha as (_ & _ & _ & _ & _ & Hplain).
  assert (Hut : "static/uploads/" +:+ n <> "static/template.jpg")
    by (rewrite <- (normpath_upload n Hplain); by apply upload_path_ne_template).
  assert (Huf : "static/uploads/" +:+ n <> "static/final_image.jpg")
    by (rewrite <- (normpath_upload n Hplain); by apply upload_path_ne_final).
  destruct (upload_protocol ra pa n ca Ha) as (ka1 & Ea1 & Ha2).
  destruct (upload_protocol rb pb n cb Hb) as (kb1 & Eb1 & Hb2).
  unfold upload_race_schedule in Hrun. cbn [interleave] in Hrun.
  rewrite (Ea1 s Hs Hu Hn) in Hrun. cbn iota in Hrun.
  set (s1 := FS (<["static/uploads/" +:+ n := ca]> (files s)) (dirs s)) in Hrun.
  rewrite (Eb1 s1 Hs Hu Hn) in Hrun. cbn iota in Hrun.
  set (s2 := FS (<["static/uploads/" +:+ n := cb]> (files s1)) (dirs s1)) in Hrun.
  assert (Hup2 : files s2 !! ("static/uploads/" +:+ n) = Some cb) by apply lookup_insert_eq.
  assert (Ht2 : files s2 !! "static/template.jpg" = Some t)
    by (simpl; by rewrite !lookup_insert_ne by congruence).
  rewrite (Ha2 s2 cb imgb Hs Hu Hup2 Hdec) in Hrun. cbn iota in Hrun.
  destruct (render_protocol pa _ _ t template s2 Hproc Ht2 Htd Hfont Hs) as (ka3 & Ea3 & Ha4).
  rewrite Ea3 in Hrun. cbn iota in Hrun.
  destruct (Ha4 s2 Hs Hfin) as (ka4 & Ea4 & Ha5). rewrite Ea4 in Hrun. cbn iota in Hrun.
  set (s3 := FS (<["static/final_image.jpg" := card pa]> (files s2)) (dirs s2)) in Hrun.
  assert (Hf3 : files s3 !! "static/final_image.jpg" = Some (card pa)) by apply lookup_insert_eq.
  change (step ka4 _) with (step ka4 s3) in Hrun.
  rewrite (Ha5 s3 (card pa) Hs Hf3) in Hrun. cbn iota in Hrun.
  assert (Hup3 : files s3 !! ("static/uploads/" +:+ n) = Some cb)
    by (simpl; rewrite lookup_insert_ne by congruence; exact Hup2).
  assert (Ht3 : files s3 !! "static/template.jpg" = Some t)
    by (simpl; rewrite lookup_insert_ne by congruence; exact Ht2).
  change (step kb1 _) with (step kb1 s3) in Hrun.
  rewrite (Hb2 s3 cb imgb Hs Hu Hup3 Hdec) in Hrun. cbn iota in Hrun.
  destruct (render_protocol pb _ _ t template s3 Hproc Ht3 Htd Hfont Hs) as (kb3 & Eb3 & Hb4).
  rewrite Eb3 in Hrun. cbn iota in Hrun.
  destruct (Hb4 s3 Hs Hfin) as (kb4 & Eb4 & Hb5). rewrite Eb4 in Hrun. cbn iota in Hrun.
  set (s4 := FS (<["static/final_image.jpg" := card pb]> (files s3)) (dirs s3)) in Hrun.
  assert (Hf4 : files s4 !! "static/final_image.jpg" = Some (card pb)) by apply lookup_insert_eq.
  change (step kb4 _) with (step kb4 s4) in Hrun.
  rewrite (Hb5 s4 (card pb) Hs Hf4) in Hrun. cbn in Hrun. injection Hrun as <- <- <-.
  split_and!; [done | done |]. simpl. rewrite lookup_insert_ne by congruence. exact Hup3.
Qed.

(** ** Footprints under every schedule *)

Lemma interleave_frame W sch s ta tb :
  writes_in W ta -> writes_in W tb ->
  let '(s', _, _) := interleave sch s ta tb in
  dirs s' = dirs s /\ forall p, ~ W p -> files s' !! p = files s !! p.
Proof.
  revert s ta tb. induction sch as [|[] sch IH]; intros s ta tb Ha Hb; simpl; [done| |].
  - destruct (step_frame W ta s Ha) as (Ha' & Hd & Hf).
    destruct (step ta s) as [ta' s1]. simpl in *.
    specialize (IH s1 ta' tb Ha' Hb). destruct (interleave sch s1 ta' tb) as [[s2 ?] ?].
    destruct IH as [Hd2 Hf2]. split; [congruence|]. intros q Hq. rewrite Hf2, Hf; done.
  - destruct (step_frame W tb s Hb) as (Hb' & Hd & Hf).
    destruct (step tb s) as [tb' s1]. simpl in *.
    specialize (IH s1 ta tb' Ha Hb'). destruct (interleave sch s1 ta tb') as [[s2 ?] ?].
    destruct IH as [Hd2 Hf2]. split; [congruence|]. intros q Hq. rewrite Hf2, Hf; done.
Qed.

(** C22. Under every schedule of two requests with plain upload names,
    the server creates no directory and leaves the template file as it
    was: the race on the output file does not reach the template. *)
Theorem interleave_keeps_template `{ImageServices} `{TextDrawing} `{Environment}
    sch s ra rb s' ta tb :
  plain_upload ra -> plain_upload rb ->
  interleave sch s (serve_p ra) (serve_p rb) = (s', ta, tb) ->
  dirs s' = dirs s /\ files s' !! "static/template.jpg" = files s !! "static/template.jpg".
Proof.
  intros Ha Hb Hrun.
  pose proof (interleave_frame (fun p => footprint ra p \/ footprint rb p) sch s
                (serve_p ra) (serve_p rb)) as Hfr.
  rewrite Hrun in Hfr.
  destruct Hfr as [Hd Hf];
    [by eapply writes_in_mono, serve_p_writes_in; left
    |by eapply writes_in_mono, serve_p_writes_in; right|].
  split; [done|]. apply Hf.
  intros [Hp|Hp]; [by apply (template_outside_footprint ra) | by apply (template_outside_footprint rb)].
Qed.

(** ** Witnesses *)

Lemma interleave_keeps_template_witness :
  let r := interleave race_schedule sample_store (serve_p request_p) (serve_p request_q) in
  plain_upload request_p /\ plain_upload request_q /\
  r = (fst (fst r), snd (fst r), snd r) /\
  dirs (fst (fst r)) = dirs sample_store /\
  files (fst (fst r)) !! "static/template.jpg" = files sample_store !! "static/template.jpg".
Proof.
  intros r.
  assert (Hp : plain_upload request_p) by (intros f Hf; discriminate).
  assert (Hq : plain_upload request_q) by (intros f Hf; discriminate).
  assert (Hr : r = (fst (fst r), snd (fst r), snd r)) by (vm_compute; reflexivity).
  refine (conj Hp (conj Hq (conj Hr _))).
  exact (interleave_keeps_template race_schedule sample_store request_p request_q
           (fst (fst r)) (snd (fst r)) (snd r) Hp Hq Hr).
Defined.

Lemma serve_race_general_witness :
  let r := interleave race_schedule sample_store (serve_p request_p) (serve_p request_q) in
  let fb := encode_jpeg (compose (convert RGBA sample_template_img)
                                 (nearest sample_product_img' 500 1) "199") in
  url_request request_p "199" sample_product_img /\
  url_request request_q "199" sample_product_img' /\
  process_image (convert RGBA sample_product_img) = Ok (nearest sample_product_img 500 1) /\
  process_image (convert RGBA sample_product_img') = Ok (nearest sample_product_img' 500 1) /\
  files sample_store !! "static/template.jpg" = Some [2] /\
  decode [2] = Some sample_template_img /\ font_exists = true /\
  "static" ∈ dirs sample_store /\ "static/final_image.jpg" ∉ dirs sample_store /\
  r = (fst (fst r), snd (fst r), snd r) /\
  snd (fst r) = Pure (Ok (File fb "image/jpeg" "whatsapp_offer.jpg")) /\
  snd r = Pure (Ok (File fb "image/jpeg" "whatsapp_offer.jpg")).
Proof.
  intros r fb.
  assert (Ha : url_request request_p "199" sample_product_img).
  { split_and!; [reflexivity | by eexists | reflexivity |].
    exists "http://shop/p.png", [1]. split_and!; [reflexivity | discriminate | reflexivity | reflexivity]. }
  assert (Hb : url_request request_q "199" sample_product_img').
  { split_and!; [reflexivity | by eexists | reflexivity |].
    exists "http://shop/q.png", [3]. split_and!; [reflexivity | discriminate | reflexivity | reflexivity]. }
  assert (Hpa : process_image (convert RGBA sample_product_img) = Ok (nearest sample_product_img 500 1))
    by (vm_compute; reflexivity).
  assert (Hpb : process_image (convert RGBA sample_product_img') = Ok (nearest sample_product_img' 500 1))
    by (vm_compute; reflexivity).
  assert (Ht : files sample_store !! "static/template.jpg" = Some [2]) by reflexivity.
  assert (Htd : decode [2] = Some sample_template_img) by reflexivity.
  assert (Hf : font_exists = true) by reflexivity.
  assert (Hd : "static" ∈ dirs sample_store) by reflexivity.
  assert (Hfin : "static/final_image.jpg" ∉ dirs sample_store) by by_decide.
  assert (Hr : r = (fst (fst r), snd (fst r), snd r)) by (vm_compute; reflexivity).
  assert (Hr' : interleave race_schedule sample_store (serve_p request_p) (serve_p request_q) =
                (fst (fst r), snd (fst r), snd r)) by (vm_compute; reflexivity).
  refine (conj Ha (conj Hb (conj Hpa (conj Hpb (conj Ht (conj Htd (conj Hf (conj Hd
            (conj Hfin (conj Hr _)))))))))).
  exact (serve_race_general request_p request_q "199" "199" _ _ _ _ [2] sample_template_img
           sample_store (fst (fst r)) (snd (fst r)) (snd r) Ha Hb Hpa Hpb Ht Htd Hf Hd Hfin Hr').
Defined.

Lemma serve_upload_race_witness :
  let r := interleave upload_race_schedule sample_store (serve_p upload_a) (serve_p upload_b) in
  let card := encode_jpeg (compose (convert RGBA sample_template_img)
                                   (nearest sample_product_img' 500 1) "199") in
  upload_request upload_a "199" "p.png" [1] /\ upload_request upload_b "199" "p.png" [3] /\
  decode [3] = Some sample_product_img' /\
  process_image (convert RGBA sample_product_img') = Ok (nearest sample_product_img' 500 1) /\
  files sample_store !! "static/template.jpg" = Some [2] /\
  decode [2] = Some sample_template_img /\ font_exists = true /\
  "static" ∈ dirs sample_store /\ "static/uploads" ∈ dirs sample_store /\
  ("static/uploads/" +:+ "p.png") ∉ dirs sample_store /\
  "static/final_image.jpg" ∉ dirs sample_store /\
  r = (fst (fst r), snd (fst r), snd r) /\
  snd (fst r) = Pure (Ok (File card "image/jpeg" "whatsapp_offer.jpg")) /\
  snd r = Pure (Ok (File card "image/jpeg" "whatsapp_offer.jpg")) /\
  files (fst (fst r)) !! ("static/uploads/" +:+ "p.png") = Some [3].
Proof.
  intros r card.
  assert (Ha : upload_request upload_a "199" "p.png" [1])
    by (split_and!; [reflexivity | by eexists | reflexivity..]).
  assert (Hb : upload_request upload_b "199" "p.png" [3])
    by (split_and!; [reflexivity | by eexists | reflexivity..]).
  assert (Hdec : decode [3] = Some sample_product_img') by reflexivity.
  assert (Hp : process_image (convert RGBA sample_product_img') = Ok (nearest sample_product_img' 500 1))
    by (vm_compute; reflexivity).
  assert (Ht : files sample_store !! "static/template.jpg" = Some [2]) by reflexivity.
  assert (Htd : decode [2] = Some sample_template_img) by reflexivity.
  assert (Hf : font_exists = true) by reflexivity.
  assert (Hs : "static" ∈ dirs sample_store) by by_decide.
  assert (Hu : "static/uploads" ∈ dirs sample_store) by by_decide.
  assert (Hn : ("static/uploads/" +:+ "p.png") ∉ dirs sample_store) by by_decide.
  assert (Hfin : "static/final_image.jpg" ∉ dirs sample_store) by by_decide.
  assert (Hr : r = (fst (fst r), snd (fst r), snd r)) by (vm_compute; reflexivity).
  assert (Hr' : interleave upload_race_schedule sample_store (serve_p upload_a) (serve_p upload_b) =
                (fst (fst r), snd (fst r), snd r)) by (vm_compute; reflexivity).
  refine (conj Ha (conj Hb (conj Hdec (conj Hp (conj Ht (conj Htd (conj Hf (conj Hs (conj Hu
            (conj Hn (conj Hfin (conj Hr _)))))))))))).
  exact (serve_upload_race upload_a upload_b "199" "199" "p.png" [1] [3] _ _ [2]
           sample_template_img sample_store (fst (fst r)) (snd (fst r)) (snd r)
           Ha Hb Hdec Hp Ht Htd Hf Hs Hu Hn Hfin Hr').
Defined.

End Concurrency.

