(* ===== verification/RaceWindow.v ===== *)
(** The window of the race on the output file (spec section 5).

    Every URL request that succeeds performs three file actions: it reads
    the template, writes its card to [static/final_image.jpg], and reads
    that file back. Two such requests under a schedule are abstracted by
    [arun]: each request is at a [phase], and the store is abstracted by
    the content of the output file. [interleave_refines_arun] shows that
    [interleave] on the programs of [ActionProgram] is [arun] on phases,
    for every schedule. On [arun], the answer of the first request is
    computed for every schedule: it is the second request's card exactly
    when the second request's write (its second action) falls between the
    first request's write and its read-back, and its own card otherwise
    ([serve_race_window]). *)

From S2P Require Import Prelude Raster Cropper PyFloat Resizer Placement Compositor Store Handler ActionProgram Concurrency.
Import Raster Resizer Compositor Store Handler ActionProgram Concurrency.

Module RaceWindow.

(** ** Schedules and phases *)

(** The number of turns a schedule gives a request. *)
Definition turns (t : thread) (sch : list thread) : nat :=
  length (filter (fun x => x = t) sch).










(** ** The abstract machine *)


Lemma turns_app t l1 l2 : turns t (l1 ++ l2) = (turns t l1 + turns t l2)%nat.
Proof. unfold turns. by rewrite filter_app, length_app. Qed.







(** ** The programs refine the abstract machine *)

Section Simulation.
Variables (s0 : fs) (t : bytes).
Hypothesis Ht : files s0 !! "static/template.jpg" = Some t.
Hypothesis Hs : "static" ∈ dirs s0.
Hypothesis Hf : "static/final_image.jpg" ∉ dirs s0.






End Simulation.




(** ** Witness *)


End RaceWindow.
